(** * SyncShow: the PPTX to JPEG converter (src/python/converter.py)

    A shallow embedding of the converter script and the properties of its
    rendering and fitting pipeline.  Python values are modelled as follows:
    - [int] is [Z]; [float] is IEEE binary64, the primitive [float] of the
      Standard Library, so that [/] and [*] round exactly as CPython does;
      the number that a finite float stands for is a rational, [Q];
    - [str] is [string], the UTF-8 encoding of the text: [len] counts the
      code points and [strip] removes the white space of [str.isspace];
      [None]-or-value is [option];
    - paths are those of a POSIX system, where [os.path] is [posixpath] and
      [Path] is [PurePosixPath]; the field [platform_system] only selects
      the places where the converter binary is searched;
    - an exception is a record of its class name and message, and a call
      that may raise returns a [result];
    - the output directory is a finite map from file names to files, a
      temporary directory is the list of the entries the external converter
      left in it, and standard output is the list of the [print] calls;
    - everything outside the script (the LibreOffice process, PyMuPDF,
      Pillow's resampler and codec, python-pptx, the file system outside the
      two directories) is a field of the environment record [env].

    [main] is the run of a parsed command line on a file system that takes
    every write; [script], after it, is the process from the command line
    on, with the exits of argparse and the failures of [os.makedirs], of
    [open] and of [json.dump]. *)

From Stdlib Require Import QArith Qpower Lqa.
From Stdlib Require Import ZArith Floats String Ascii List Lia DecimalString.
From Stdlib Require DecimalPos.
From stdpp Require Import gmap strings list fin_maps sorting.

Open Scope Z_scope.

(* Decimal literals such as 1.8 denote the nearest binary64 value, as they
   do in Python. *)
Set Warnings "-inexact-float".

(** ** Exceptions and results *)

Record exn := Exn { exn_class : string; exn_msg : string }.

Inductive result (A : Type) : Type :=
| Ok (a : A)
| Raise (e : exn).
Arguments Ok {A} a.
Arguments Raise {A} e.

Definition RuntimeError (msg : string) : exn := Exn "RuntimeError" msg.
Definition ZeroDivisionError (msg : string) : exn := Exn "ZeroDivisionError" msg.
Definition OverflowError (msg : string) : exn := Exn "OverflowError" msg.
Definition ValueError (msg : string) : exn := Exn "ValueError" msg.
Definition TimeoutExpired (msg : string) : exn := Exn "TimeoutExpired" msg.

Definition rbind {A B} (r : result A) (k : A -> result B) : result B :=
  match r with
  | Ok a => k a
  | Raise e => Raise e
  end.

Notation "x <~ c ;; k" := (rbind c (fun x => k))
  (at level 100, c at next level, right associativity).

(** ** Python numbers *)

Module PyNum.

(** [float(z)]: the binary64 value nearest to [z] (ties to even); CPython
    raises [OverflowError] when [z] is too large for a float. *)
Definition float_of_Z (z : Z) : result float :=
  let x := SF2Prim (binary_normalize prec emax z 0 false) in
  if is_infinity x
  then Raise (OverflowError "int too large to convert to float")
  else Ok x.

(** [a / b] with [a : int] and [b : float] (float_div): the int is converted
    first, then a zero divisor raises. *)
Definition truediv_int_float (a : Z) (b : float) : result float :=
  x <~ float_of_Z a ;;
  if is_zero b
  then Raise (ZeroDivisionError "float division by zero")
  else Ok (x / b)%float.

(** [a / b] with [a b : int] (long_true_divide).  The operands of the script
    are page counts and image sizes, C ints of the libraries, hence exactly
    representable; the correctly rounded quotient is then the binary64
    quotient of the two conversions. *)
Definition truediv_int_int (a b : Z) : result float :=
  if b =? 0
  then Raise (ZeroDivisionError "division by zero")
  else
    x <~ float_of_Z a ;;
    y <~ float_of_Z b ;;
    Ok (x / y)%float.

(** [x * n] with [x : float] and [n : int]. *)
Definition mul_float_int (x : float) (n : Z) : result float :=
  y <~ float_of_Z n ;;
  Ok (x * y)%float.

(** [int(x)]: truncation toward zero. *)
Definition int_of_float (x : float) : result Z :=
  match Prim2SF x with
  | S754_nan => Raise (ValueError "cannot convert float NaN to integer")
  | S754_infinity _ =>
      Raise (OverflowError "cannot convert float infinity to integer")
  | S754_zero _ => Ok 0
  | S754_finite s m e =>
      let a := match e with
               | Zneg p => Z.shiftr (Zpos m) (Zpos p)
               | _ => Z.shiftl (Zpos m) e
               end in
      Ok (if s then - a else a)
  end.

(** [round(x)] of a float: to the nearest integer, ties to even. *)
Definition round_of_float (x : float) : result Z :=
  match Prim2SF x with
  | S754_nan => Raise (ValueError "cannot convert float NaN to integer")
  | S754_infinity _ =>
      Raise (OverflowError "cannot convert float infinity to integer")
  | S754_zero _ => Ok 0
  | S754_finite s m e =>
      let a := match e with
               | Zneg p =>
                   let q := Z.shiftr (Zpos m) (Zpos p) in
                   let r := Zpos m - Z.shiftl q (Zpos p) in
                   let half := Z.shiftl 1 (Zpos p - 1) in
                   if r <? half then q
                   else if half <? r then q + 1
                   else if Z.even q then q else q + 1
               | _ => Z.shiftl (Zpos m) e
               end in
      Ok (if s then - a else a)
  end.

(** [min(a, b)] of two floats: the builtin keeps its first argument unless
    a later one compares strictly below it. *)
Definition min (a b : float) : float := if (b <? a)%float then b else a.

End PyNum.

(** ** Python strings *)

Module PyStr.

(** [s.startswith(p)] *)
Definition startswith (p s : string) : bool := String.prefix p s.

(** [s.endswith(suf)]: some suffix of [s] is [suf]. *)
Fixpoint endswith (suf s : string) : bool :=
  String.eqb suf s ||
  match s with
  | EmptyString => false
  | String _ s' => endswith suf s'
  end.

(** [sub in s]: [sub] starts at some position of [s]. *)
Fixpoint contains (sub s : string) : bool :=
  String.prefix sub s ||
  match s with
  | EmptyString => false
  | String _ s' => contains sub s'
  end.

(** [s.replace(old, new)] for a non-empty [old]: the occurrences are found
    left to right and do not overlap.  [skip] counts the characters of the
    occurrence just replaced that are still to be dropped. *)
Fixpoint replace_from (old new : string) (skip : nat) (s : string) : string :=
  match s with
  | EmptyString => EmptyString
  | String c s' =>
      match skip with
      | S k => replace_from old new k s'
      | O =>
          if String.prefix old s
          then new +:+ replace_from old new (Nat.pred (String.length old)) s'
          else String c (replace_from old new O s')
      end
  end.

Definition replace (old new s : string) : string := replace_from old new O s.

(** [str(n)] of an int *)
Definition str_of_Z (n : Z) : string := NilZero.string_of_int (Z.to_int n).

(** [s.rjust(width, "0")] for a string without sign *)
Fixpoint zeros (k : nat) : string :=
  match k with
  | O => EmptyString
  | S k' => String "0" (zeros k')
  end.

Definition zfill (width : nat) (s : string) : string :=
  zeros (width - String.length s) +:+ s.

(** [f"{n:03d}"]: the sign, then the digits padded with zeros to a total
    width of three. *)
Definition format_03d (n : Z) : string :=
  if n <? 0 then "-" +:+ zfill 2 (str_of_Z (- n)) else zfill 3 (str_of_Z n).

(** [x or y] on strings: the first operand unless it is empty. *)
Definition or_else (x y : string) : string :=
  if String.eqb x "" then y else x.

(** The last component of a path ([posixpath.basename]): what follows the
    last slash. *)
Fixpoint basename_from (acc : string) (s : string) : string :=
  match s with
  | EmptyString => acc
  | String c s' =>
      if Ascii.eqb c "/" then basename_from s' s' else basename_from acc s'
  end.

Definition basename (s : string) : string := basename_from s s.

(** Position of the last dot of a name, if any ([name.rfind(".")]). *)
Fixpoint rfind_dot (i : nat) (s : string) : option nat :=
  match s with
  | EmptyString => None
  | String c s' =>
      match rfind_dot (S i) s' with
      | Some j => Some j
      | None => if Ascii.eqb c "." then Some i else None
      end
  end.

(** [s.split(sep)] for a separator of one character: the pieces between the
    separators, at least one. *)
Fixpoint split_on (sep : ascii) (s : string) : list string :=
  match s with
  | EmptyString => [EmptyString]
  | String c s' =>
      if Ascii.eqb c sep
      then EmptyString :: split_on sep s'
      else match split_on sep s' with
           | [] => [String c EmptyString]
           | piece :: pieces => String c piece :: pieces
           end
  end.

(** [PurePosixPath(p).name]: the last component of the path.  When pathlib
    parses a path it drops the empty components, those of a doubled or a
    final slash, and the components that are a single dot; the name is empty
    when no component is left. *)
Definition path_name (p : string) : string :=
  List.last
    (List.filter (fun c => negb (String.eqb c "" || String.eqb c "."))
       (split_on "/" p))
    EmptyString.

(** [Path(p).stem] (POSIX flavour): the name without its last suffix; a dot
    in first or last position starts no suffix. *)
Definition stem (p : string) : string :=
  let name := path_name p in
  match rfind_dot O name with
  | Some i =>
      if (0 <? i)%nat && (i <? String.length name - 1)%nat
      then String.substring 0 i name
      else name
  | None => name
  end.

(** [os.path.expanduser]: a leading tilde becomes the home directory. *)
Definition expanduser (home p : string) : string :=
  match p with
  | String "~" rest => home +:+ rest
  | _ => p
  end.

(** [posixpath.join(a, b)] for a relative [b] *)
Definition os_path_join (a b : string) : string :=
  if String.eqb a "" || endswith "/" a then a +:+ b else a +:+ "/" +:+ b.

(** A [str] is held as its UTF-8 encoding.  [len(s)] counts the code
    points: the bytes that do not continue a sequence. *)
Definition is_continuation (c : ascii) : bool :=
  let n := nat_of_ascii c in (128 <=? n)%nat && (n <? 192)%nat.

Fixpoint len (s : string) : nat :=
  match s with
  | EmptyString => O
  | String c s' => if is_continuation c then len s' else S (len s')
  end.

(** The white space that [str.strip] removes, the code points for which
    [str.isspace] holds, by the length of their encoding: U+0009 to U+000D
    and U+001C to U+0020 on one byte; U+0085 and U+00A0 on two; U+1680,
    U+2000 to U+200A, U+2028, U+2029, U+202F, U+205F and U+3000 on three. *)
Definition is_space (c : ascii) : bool :=
  let n := nat_of_ascii c in
  ((9 <=? n)%nat && (n <=? 13)%nat) || ((28 <=? n)%nat && (n <=? 32)%nat).

Definition is_space2 (c1 c2 : ascii) : bool :=
  (nat_of_ascii c1 =? 194)%nat &&
  ((nat_of_ascii c2 =? 133)%nat || (nat_of_ascii c2 =? 160)%nat).

Definition is_space3 (c1 c2 c3 : ascii) : bool :=
  let a := nat_of_ascii c1 in
  let b := nat_of_ascii c2 in
  let c := nat_of_ascii c3 in
  ((a =? 225)%nat && (b =? 154)%nat && (c =? 128)%nat) ||
  ((a =? 226)%nat && (b =? 128)%nat &&
   (((128 <=? c)%nat && (c <=? 138)%nat) || (c =? 168)%nat || (c =? 169)%nat
    || (c =? 175)%nat)) ||
  ((a =? 226)%nat && (b =? 129)%nat && (c =? 159)%nat) ||
  ((a =? 227)%nat && (b =? 128)%nat && (c =? 128)%nat).

Fixpoint lstrip (s : string) : string :=
  match s with
  | EmptyString => EmptyString
  | String c1 s1 =>
      if is_space c1 then lstrip s1
      else
        match s1 with
        | String c2 s2 =>
            if is_space2 c1 c2 then lstrip s2
            else
              match s2 with
              | String c3 s3 => if is_space3 c1 c2 c3 then lstrip s3 else s
              | EmptyString => s
              end
        | EmptyString => s
        end
  end.

(** The same on a text read from its end: the bytes of a code point come
    last byte first. *)
Fixpoint lstrip_reversed (s : string) : string :=
  match s with
  | EmptyString => EmptyString
  | String c1 s1 =>
      if is_space c1 then lstrip_reversed s1
      else
        match s1 with
        | String c2 s2 =>
            if is_space2 c2 c1 then lstrip_reversed s2
            else
              match s2 with
              | String c3 s3 =>
                  if is_space3 c3 c2 c1 then lstrip_reversed s3 else s
              | EmptyString => s
              end
        | EmptyString => s
        end
  end.

Definition rstrip (s : string) : string :=
  String.rev (lstrip_reversed (String.rev s)).

(** [s.strip()] *)
Definition strip (s : string) : string := rstrip (lstrip s).

Definition newline : ascii := ascii_of_nat 10.

(** [s.split("\n")]: the pieces between the newlines, at least one. *)
Fixpoint split_lines (s : string) : list string :=
  match s with
  | EmptyString => [EmptyString]
  | String c s' =>
      if Ascii.eqb c newline
      then EmptyString :: split_lines s'
      else match split_lines s' with
           | [] => [String c EmptyString]
           | l :: ls => String c l :: ls
           end
  end.

(** ["\n".join(parts)] *)
Definition join_lines (parts : list string) : string :=
  String.concat (String newline EmptyString) parts.

End PyStr.

(** ** Pillow images *)

Definition rgb : Type := Z * Z * Z.

Inductive resampling := NEAREST | BOX | BILINEAR | HAMMING | BICUBIC | LANCZOS.

Module Image.

(** An RGB image: its size and the colour at each coordinate. *)
Record t := Make { width : Z; height : Z; getpixel : Z -> Z -> rgb }.

(** [Image.new("RGB", (w, h), color)] *)
Definition new (w h : Z) (color : rgb) : result t :=
  if (w <? 0) || (h <? 0)
  then Raise (ValueError "Width and height must be >= 0")
  else Ok (Make w h (fun _ _ => color)).

(** [canvas.paste(im, (x, y))]: [im] covers the box that starts at [(x, y)],
    clipped to the canvas; the canvas keeps its size. *)
Definition paste (canvas im : t) (x y : Z) : t :=
  Make (width canvas) (height canvas)
    (fun i j =>
       if (x <=? i) && (i <? x + width im) && (y <=? j) && (j <? y + height im)
       then getpixel im (i - x) (j - y)
       else getpixel canvas i j).

End Image.

(** ** Documents and files *)

(** A page of the intermediate PDF: [page.rect] and the content handed to
    the rasterizer. *)
Record page := Page { rect_width : float; rect_height : float; page_content : nat }.

(** A shape of a slide: [shape.text] when the shape has the attribute, and
    the rows of cell texts when [shape.has_table]. *)
Record shape := Shape { shape_text : option string; shape_table : option (list (list string)) }.

Definition slide : Type := list shape.

Record text_record := TextRecord { text : string; firstLine : string }.

Record metadata := Metadata {
  sourceFile : string;
  slideCount : Z;
  generatedAt : string;
  slides : list text_record
}.

(** What a file holds: a JPEG is recorded by the image and the options given
    to [img.save]. *)
Inductive file :=
| JpegFile (img : Image.t) (quality : Z) (optimize : bool)
| PdfFile (doc : list page)
| JsonFile (m : metadata)
| RawFile (content : string).

(** How [subprocess.run] of the converter ends, with the entries it left in
    [--outdir]. *)
Inductive proc_outcome :=
| Completed (returncode : Z) (out err : string) (written : list (string * file))
| TimedOut (written : list (string * file))
| SpawnFailed (e : exn).

(** ** The environment of one invocation *)

Record env := Env {
  PIL_AVAILABLE : bool;
  PYMUPDF_AVAILABLE : bool;
  PPTX_AVAILABLE : bool;
  platform_system : string;
  shutil_which : string -> option string;
  os_path_exists : string -> bool;
  home : string;
  subprocess_run : list string -> proc_outcome;
  get_pixmap : page -> float -> result Image.t;
  jpeg_decode : Image.t -> Z -> bool -> Image.t;
  thumbnail : Image.t -> Z * Z -> resampling -> result Image.t;
  Presentation : string -> result (list slide);
  now_isoformat : string
}.

(** ** The world: the two directories and standard output *)

Record world := World {
  out_dir : gmap string file;
  tmp_dirs : gmap string (list (string * file));
  stdout : list string
}.

Definition M (A : Type) : Type := world -> result A * world.

Definition ret {A} (a : A) : M A := fun w => (Ok a, w).

Definition raise {A} (e : exn) : M A := fun w => (Raise e, w).

Definition bind {A B} (c : M A) (k : A -> M B) : M B :=
  fun w =>
    match c w with
    | (Ok a, w') => k a w'
    | (Raise e, w') => (Raise e, w')
    end.

Notation "x <- c ;; k" := (bind c (fun x => k))
  (at level 100, c at next level, right associativity).
Notation "c ;;; k" := (bind c (fun _ => k))
  (at level 100, right associativity).

(** A pure computation that may raise. *)
Definition lift {A} (r : result A) : M A := fun w => (r, w).

(** [print(line)] *)
Definition print (line : string) : M unit :=
  fun w => (Ok tt, World (out_dir w) (tmp_dirs w) (stdout w ++ [line])).

(** Writing the entry [name] of the output directory. *)
Definition write_out (name : string) (f : file) : M unit :=
  fun w => (Ok tt, World (<[name := f]> (out_dir w)) (tmp_dirs w) (stdout w)).

(** [img.save(os.path.join(output_dir, name), "JPEG", quality=q, optimize=o)] *)
Definition save_jpeg (name : string) (img : Image.t) (q : Z) (o : bool) : M unit :=
  if (Image.width img =? 0) || (Image.height img =? 0)
  then raise (ValueError "cannot write empty image as JPEG")
  else write_out name (JpegFile img q o).

(** [for x in xs: body(x)] *)
Fixpoint for_each {A} (xs : list A) (body : A -> M unit) : M unit :=
  match xs with
  | [] => ret tt
  | x :: rest => body x ;;; for_each rest body
  end.

(** [try: c except cls: handler] *)
Definition try_except {A} (c : M A) (cls : string) (handler : exn -> M A) : M A :=
  fun w =>
    match c w with
    | (Ok a, w') => (Ok a, w')
    | (Raise e, w') =>
        if String.eqb (exn_class e) cls then handler e w' else (Raise e, w')
    end.

(** The name given to a new temporary directory: one that no temporary
    directory of the world has. *)
Definition mkdtemp (w : world) : string := fresh (dom (tmp_dirs w)).

(** [with tempfile.TemporaryDirectory() as temp_dir: body]: the directory is
    created empty, and removed with its contents when the block is left, by
    [return] or by an exception. *)
Definition with_TemporaryDirectory {A} (body : string -> M A) : M A :=
  fun w =>
    let temp_dir := mkdtemp w in
    let w1 := World (out_dir w) (<[temp_dir := []]> (tmp_dirs w)) (stdout w) in
    let '(r, w2) := body temp_dir w1 in
    (r, World (out_dir w2) (delete temp_dir (tmp_dirs w2)) (stdout w2)).

(** The entries of a temporary directory, in listing order. *)
Definition tmp_listing (temp_dir : string) : M (list (string * file)) :=
  fun w => (Ok (default [] (tmp_dirs w !! temp_dir)), w).

Fixpoint assoc (name : string) (entries : list (string * file)) : option file :=
  match entries with
  | [] => None
  | (n, f) :: rest => if String.eqb n name then Some f else assoc name rest
  end.

(** A path inside a temporary directory: the directory and the entry. *)
Definition tmp_path : Type := string * string.

Definition str_of_path (p : tmp_path) : string := PyStr.os_path_join p.1 p.2.

Definition repr_paths (temp_dir : string) (names : list string) : string :=
  "[" +:+ String.concat ", "
            (map (fun n => "PosixPath('" +:+ PyStr.os_path_join temp_dir n +:+ "')") names)
      +:+ "]".

(** [fitz.open(pdf_path)] *)
Definition fitz_open (pdf_path : tmp_path) : M (list page) :=
  entries <- tmp_listing pdf_path.1 ;;
  match assoc pdf_path.2 entries with
  | Some (PdfFile doc) => ret doc
  | Some _ => raise (Exn "FileDataError" "Failed to open file")
  | None => raise (Exn "FileNotFoundError" ("no such file: " +:+ str_of_path pdf_path))
  end.

(** [truthiness] of a string-or-None *)
Definition truthy (o : option string) : bool :=
  match o with
  | Some s => negb (String.eqb s "")
  | None => false
  end.

Inductive method := libreoffice | direct | auto.

Definition method_name (m : method) : string :=
  match m with
  | libreoffice => "libreoffice"
  | direct => "direct"
  | auto => "auto"
  end.

Definition method_eqb (a b : method) : bool :=
  String.eqb (method_name a) (method_name b).

Record arguments := Args {
  arg_input : string;
  arg_output : string;
  arg_width : Z;
  arg_height : Z;
  arg_thumbnail_width : Z;
  arg_method : method
}.

(** [os.listdir(output_dir)] *)
Definition listdir (d : gmap string file) : list string := (map_to_list d).*1.

(** [sorted] on strings: the lexicographic order of the characters. *)
Definition sorted (names : list string) : list string := merge_sort String.le names.

(** The condition of the comprehension of lines 245-246 *)
Definition is_full_size (f : string) : bool :=
  PyStr.startswith "slide_" f && PyStr.endswith ".jpg" f && negb (PyStr.contains "_thumb" f).

Definition thumb_filename (slide_file : string) : string :=
  PyStr.replace ".jpg" "_thumb.jpg" slide_file.

(** ** The script *)

Section Converter.

Variable E : env.

(** [find_libreoffice] (lines 51-92) *)
Definition possible_paths : list string :=
  if String.eqb (platform_system E) "Windows" then
    [ "C:\Program Files\LibreOffice\program\soffice.exe";
      "C:\Program Files (x86)\LibreOffice\program\soffice.exe";
      "C:\Program Files\LibreOffice\program\soffice.com";
      PyStr.expanduser (home E) "~\AppData\Local\Programs\LibreOffice\program\soffice.exe" ]%string
  else if String.eqb (platform_system E) "Darwin" then
    [ "/Applications/LibreOffice.app/Contents/MacOS/soffice";
      PyStr.expanduser (home E) "~/Applications/LibreOffice.app/Contents/MacOS/soffice" ]%string
  else
    [ "/usr/bin/soffice";
      "/usr/bin/libreoffice";
      "/usr/local/bin/soffice";
      "/usr/local/bin/libreoffice";
      "/opt/libreoffice/program/soffice";
      "/snap/bin/libreoffice";
      PyStr.expanduser (home E) "~/.local/bin/soffice" ]%string.

Definition find_libreoffice : option string :=
  if truthy (shutil_which E "soffice") then Some "soffice"%string
  else if truthy (shutil_which E "soffice.exe") then Some "soffice.exe"%string
  else List.find (os_path_exists E) possible_paths.

(** The fitter of [convert_pdf_to_images] (lines 170-173): the zoom that
    fits the page within [width] x [height]. *)
Definition fit_zoom (width height : Z) (p : page) : result float :=
  zoom_x <~ PyNum.truediv_int_float width (rect_width p) ;;
  zoom_y <~ PyNum.truediv_int_float height (rect_height p) ;;
  Ok (PyNum.min zoom_x zoom_y).

(** Lines 185-192: the buffer is centred on a black canvas unless it has
    the target size already. *)
Definition x_offset (width : Z) (img : Image.t) : Z := (width - Image.width img) / 2.
Definition y_offset (height : Z) (img : Image.t) : Z := (height - Image.height img) / 2.

Definition center_on_canvas (img : Image.t) (width height : Z) : result Image.t :=
  if negb (Image.width img =? width) || negb (Image.height img =? height)
  then
    final_img <~ Image.new width height (0, 0, 0) ;;
    Ok (Image.paste final_img img (x_offset width img) (y_offset height img))
  else Ok img.

(** [f"slide_{n:03d}.jpg"] *)
Definition slide_filename (n : Z) : string :=
  "slide_" +:+ PyStr.format_03d n +:+ ".jpg".

(** [int(done / total * 100)] (lines 202 and 235) *)
Definition progress_of (done total : Z) : result Z :=
  q <~ PyNum.truediv_int_int done total ;;
  p <~ PyNum.mul_float_int q 100 ;;
  PyNum.int_of_float p.

Definition progress_line (p : Z) : string := "PROGRESS:" +:+ PyStr.str_of_Z p.

(** The name [Image] is bound only when Pillow could be imported (lines
    30-35). *)
Definition PIL_Image : M unit :=
  if PIL_AVAILABLE E then ret tt
  else raise (Exn "NameError" "name 'Image' is not defined").

(** The body of the loop of [convert_pdf_to_images] (lines 166-203) *)
Definition render_page (width height total_pages page_num : Z) (p : page) : M unit :=
  zoom <- lift (fit_zoom width height p) ;;
  pix <- lift (get_pixmap E p zoom) ;;
  PIL_Image ;;;
  img <- lift (center_on_canvas pix width height) ;;
  save_jpeg (slide_filename (page_num + 1)) img 92 true ;;;
  progress <- lift (progress_of (page_num + 1) total_pages) ;;
  print (progress_line progress).

Fixpoint render_pages (width height total_pages : Z) (pages : list page)
    (page_num slide_count : Z) : M Z :=
  match pages with
  | [] => ret slide_count
  | p :: rest =>
      render_page width height total_pages page_num p ;;;
      render_pages width height total_pages rest (page_num + 1) (slide_count + 1)
  end.

(** [convert_pdf_to_images] (lines 156-206) *)
Definition convert_pdf_to_images (pdf_path : tmp_path) (output_dir : string)
    (width height : Z) : M Z :=
  if negb (PYMUPDF_AVAILABLE E)
  then raise (RuntimeError "PyMuPDF not installed. Install with: pip install PyMuPDF")
  else
    doc <- fitz_open pdf_path ;;
    let total_pages := Z.of_nat (length doc) in
    render_pages width height total_pages doc 0 0.

(** [subprocess.run(cmd, capture_output=True, text=True, timeout=300)]: the
    converter writes into [temp_dir], then returns or is killed at the
    timeout. *)
Definition add_entries (temp_dir : string) (written : list (string * file)) (w : world) : world :=
  World (out_dir w)
        (<[temp_dir := default [] (tmp_dirs w !! temp_dir) ++ written]> (tmp_dirs w))
        (stdout w).

Definition soffice_cmd (soffice_path temp_dir input_path : string) : list string :=
  [ soffice_path; "--headless"; "--nofirststartwizard"; "--norestore";
    "--convert-to"; "pdf"; "--outdir"; temp_dir; input_path ]%string.

Definition run_converter (cmd : list string) (temp_dir : string) : M (Z * string * string) :=
  fun w =>
    match subprocess_run E cmd with
    | Completed rc out err written => (Ok (rc, out, err), add_entries temp_dir written w)
    | TimedOut written =>
        (Raise (TimeoutExpired "Command timed out after 300 seconds"),
         add_entries temp_dir written w)
    | SpawnFailed e => (Raise e, w)
    end.

(** Lines 134-149: the produced PDF is looked up by its expected name, then
    as any [*.pdf] entry of the temporary directory. *)
Definition locate_pdf (temp_dir input_path : string) : M tmp_path :=
  let pdf_filename := PyStr.stem input_path +:+ ".pdf" in
  let pdf_path := (temp_dir, pdf_filename) in
  print ("Looking for PDF at: " +:+ str_of_path pdf_path) ;;;
  entries <- tmp_listing temp_dir ;;
  if negb (bool_decide (is_Some (assoc pdf_filename entries)))
  then
    let pdf_files := filter (fun n => PyStr.endswith ".pdf" n = true) (map fst entries) in
    print ("Found PDF files in temp dir: " +:+ repr_paths temp_dir pdf_files) ;;;
    match pdf_files with
    | first :: _ => ret (temp_dir, first)
    | [] =>
        print ("Files in temp dir: " +:+ repr_paths temp_dir (map fst entries)) ;;;
        raise (RuntimeError ("PDF file not generated. Expected: " +:+ pdf_filename))
    end
  else ret pdf_path.

(** [convert_with_libreoffice] (lines 95-153) *)
Definition convert_with_libreoffice (input_path output_dir : string)
    (width height : Z) : M Z :=
  let soffice_path := find_libreoffice in
  if negb (truthy soffice_path)
  then raise (RuntimeError "LibreOffice not found. Please install LibreOffice.")
  else
    let soffice_path := default EmptyString soffice_path in
    with_TemporaryDirectory (fun temp_dir =>
      print "Converting PPTX to PDF with LibreOffice..." ;;;
      print ("Using LibreOffice at: " +:+ soffice_path) ;;;
      let cmd := soffice_cmd soffice_path temp_dir input_path in
      try_except
        ( res <- run_converter cmd temp_dir ;;
          let '(returncode, out, err) := res in
          print ("LibreOffice stdout: " +:+ out) ;;;
          (if negb (String.eqb err "")
           then print ("LibreOffice stderr: " +:+ err) else ret tt) ;;;
          if negb (returncode =? 0)
          then
            let error_msg :=
              PyStr.or_else err
                (PyStr.or_else out
                   ("Unknown error (exit code: " +:+ PyStr.str_of_Z returncode +:+ ")")) in
            raise (RuntimeError ("LibreOffice conversion failed: " +:+ error_msg))
          else ret tt )
        "TimeoutExpired"
        (fun _ => raise (RuntimeError "LibreOffice conversion timed out after 5 minutes")) ;;;
      pdf_path <- locate_pdf temp_dir input_path ;;
      print "Converting PDF pages to images..." ;;;
      convert_pdf_to_images pdf_path output_dir width height).

(** The body of the loop of [convert_with_pptx_direct] (lines 226-236) *)
Definition placeholder_page (width height total_slides idx : Z) : M unit :=
  PIL_Image ;;;
  img <- lift (Image.new width height (0, 0, 32)) ;;
  save_jpeg (slide_filename (idx + 1)) img 92 false ;;;
  progress <- lift (progress_of (idx + 1) total_slides) ;;
  print (progress_line progress).

Fixpoint placeholder_pages (width height total_slides : Z) (prs_slides : list slide)
    (idx : Z) : M unit :=
  match prs_slides with
  | [] => ret tt
  | _ :: rest =>
      placeholder_page width height total_slides idx ;;;
      placeholder_pages width height total_slides rest (idx + 1)
  end.

(** [convert_with_pptx_direct] (lines 209-238) *)
Definition convert_with_pptx_direct (input_path output_dir : string)
    (width height : Z) : M Z :=
  if negb (PPTX_AVAILABLE E)
  then raise (RuntimeError "python-pptx not installed. Install with: pip install python-pptx")
  else
    prs_slides <- lift (Presentation E input_path) ;;
    let total_slides := Z.of_nat (length prs_slides) in
    print "WARNING: Direct PPTX rendering has limited support for complex formatting." ;;;
    print "Consider installing LibreOffice for better results." ;;;
    placeholder_pages width height total_slides prs_slides 0 ;;;
    ret total_slides.

(** [Image.open(os.path.join(output_dir, name))] *)
Definition Image_open (name : string) : M Image.t :=
  fun w =>
    match out_dir w !! name with
    | Some (JpegFile img q o) => (Ok (jpeg_decode E img q o), w)
    | Some _ => (Raise (Exn "UnidentifiedImageError" ("cannot identify image file " +:+ name)), w)
    | None => (Raise (Exn "FileNotFoundError" ("No such file or directory: " +:+ name)), w)
    end.

(** Lines 255-256 *)
Definition thumb_height_of (img : Image.t) (thumb_width : Z) : result Z :=
  aspect <~ PyNum.truediv_int_int (Image.width img) (Image.height img) ;;
  q <~ PyNum.truediv_int_float thumb_width aspect ;;
  PyNum.int_of_float q.

(** The body of the loop of [generate_thumbnails] (lines 249-261) *)
Definition make_thumbnail (thumb_width : Z) (slide_file : string) : M unit :=
  img <- Image_open slide_file ;;
  thumb_height <- lift (thumb_height_of img thumb_width) ;;
  thumb <- lift (thumbnail E img (thumb_width, thumb_height) LANCZOS) ;;
  save_jpeg (thumb_filename slide_file) thumb 85 false.

Definition full_size_slides (d : gmap string file) : list string :=
  sorted (filter (fun f => is_full_size f = true) (listdir d)).

(** [generate_thumbnails] (lines 241-261) *)
Definition generate_thumbnails (output_dir : string) (thumb_width : Z) : M unit :=
  print "Generating thumbnails..." ;;;
  fun w => for_each (full_size_slides (out_dir w)) (make_thumbnail thumb_width) w.

(** [extract_text_from_pptx] (lines 264-302) *)
Definition nonblank (t : string) : list string :=
  if negb (String.eqb (PyStr.strip t) "") then [PyStr.strip t] else [].

Definition shape_texts (sh : shape) : list string :=
  match shape_text sh with
  | Some t => nonblank t
  | None => []
  end ++
  match shape_table sh with
  | Some rows => flat_map (fun row => flat_map nonblank row) rows
  | None => []
  end.

Fixpoint first_meaningful (lines : list string) : string :=
  match lines with
  | [] => EmptyString
  | line :: rest =>
      let line := PyStr.strip line in
      if negb (String.eqb line "") && (2 <? PyStr.len line)%nat
      then line
      else first_meaningful rest
  end.

Definition slide_record (s : slide) : text_record :=
  let full_text := PyStr.join_lines (flat_map shape_texts s) in
  TextRecord full_text (first_meaningful (PyStr.split_lines full_text)).

Definition extract_text_from_pptx (input_path : string) : M (list text_record) :=
  if negb (PPTX_AVAILABLE E)
  then
    print "WARNING: python-pptx not available, skipping text extraction" ;;;
    ret []
  else
    print "Extracting slide text..." ;;;
    prs_slides <- lift (Presentation E input_path) ;;
    ret (map slide_record prs_slides).

(** [create_metadata] (lines 305-318) when [open] and [json.dump] succeed;
    [write_metadata], after this section, has their failures. *)
Definition create_metadata (output_dir input_path : string) (slide_count : Z)
    (slides_text : list text_record) : M unit :=
  let metadata :=
    Metadata (PyStr.basename input_path) slide_count (now_isoformat E) slides_text in
  write_out "metadata.json" (JsonFile metadata) ;;;
  print ("Metadata saved to " +:+ PyStr.os_path_join output_dir "metadata.json").

(** Lines 342-348 of [main]: the method that runs, and what is printed
    while it is chosen. *)
Definition choose_method (m : method) : M method :=
  if method_eqb m auto
  then
    if truthy find_libreoffice && PYMUPDF_AVAILABLE E
    then ret libreoffice
    else
      print "WARNING: LibreOffice not available, using direct conversion (limited formatting)" ;;;
      ret direct
  else ret m.

(** Lines 357-364 of [main]: the conversion by the chosen method. *)
Definition conversion_step (args : arguments) (m : method) : M Z :=
  if method_eqb m libreoffice
  then convert_with_libreoffice (arg_input args) (arg_output args)
         (arg_width args) (arg_height args)
  else convert_with_pptx_direct (arg_input args) (arg_output args)
         (arg_width args) (arg_height args).

(** Lines 369-370 of [main] *)
Definition thumbnails_step (args : arguments) : M unit :=
  if PIL_AVAILABLE E
  then generate_thumbnails (arg_output args) (arg_thumbnail_width args)
  else ret tt.

Definition converted_line (slide_count : Z) : string :=
  "Converted " +:+ PyStr.str_of_Z slide_count +:+ " slides".

(** Lines 356-379 of [main]: the body of the [try] block. *)
Definition run_conversion (args : arguments) (m : method) : M unit :=
  slide_count <- conversion_step args m ;;
  print (converted_line slide_count) ;;;
  thumbnails_step args ;;;
  slides_text <- extract_text_from_pptx (arg_input args) ;;
  create_metadata (arg_output args) (arg_input args) slide_count slides_text ;;;
  print "PROGRESS:100" ;;;
  print "Conversion complete!".

(** Lines 350-353 of [main] *)
Definition print_header (args : arguments) (m : method) : M unit :=
  print ("Starting conversion: " +:+ arg_input args) ;;;
  print ("Output directory: " +:+ arg_output args) ;;;
  print ("Resolution: " +:+ PyStr.str_of_Z (arg_width args) +:+ "x"
           +:+ PyStr.str_of_Z (arg_height args)) ;;;
  print ("Method: " +:+ method_name m).

(** [main] from line 334 on, for the arguments that argparse returns, on a
    file system that takes every write: [os.makedirs] (line 339) makes the
    output directory.  The exit status and the final world.  An exception
    of the [try] block is printed and the status is 1; the trace goes to the
    error stream, which is not modelled.  The exits of argparse and the
    failures of the file system are those of [script], after this
    section. *)
Definition main (args : arguments) (w : world) : Z * world :=
  if negb (os_path_exists E (arg_input args))
  then (1, (print ("ERROR: Input file not found: " +:+ arg_input args) w).2)
  else
    let prologue :=
      m <- choose_method (arg_method args) ;;
      print_header args m ;;;
      ret m in
    match prologue w with
    | (Raise e, w1) => (1, w1)
    | (Ok m, w1) =>
        match run_conversion args m w1 with
        | (Ok _, w2) => (0, w2)
        | (Raise e, w2) => (1, (print ("ERROR: " +:+ exn_msg e) w2).2)
        end
    end.

End Converter.

(** ** The script as a process *)

(** How [parser.parse_args()] ends (lines 322-331): with the arguments, the
    defaults filled in; with the help that [-h] asks for, written on standard
    output before the interpreter is left with status 0; or with an error in
    the command line, reported on the error stream before the interpreter is
    left with status 2. *)
Inductive parse_outcome :=
| Parsed (args : arguments)
| HelpRequested (help : string)
| UsageError.

(** What the operating system answers to one invocation: the outcome of
    argparse; the exception of [os.makedirs(args.output, exist_ok=True)]
    (line 339) when the directory cannot be made; that of
    [open(metadata_path, "w", encoding="utf-8")] (line 315) when the file
    cannot be opened; and, when [json.dump] (line 316) raises, what it had
    written to the file by then. *)
Record invocation := Invocation {
  parse_args : parse_outcome;
  os_makedirs : string -> option exn;
  open_for_writing : string -> option exn;
  json_dump : metadata -> option (string * exn)
}.

(** The steps of the [try] block that come before the metadata (lines
    357-373). *)
Definition before_metadata (E : env) (args : arguments) (m : method) :
    M (Z * list text_record) :=
  slide_count <- conversion_step E args m ;;
  print (converted_line slide_count) ;;;
  thumbnails_step E args ;;;
  slides_text <- extract_text_from_pptx E (arg_input args) ;;
  ret (slide_count, slides_text).

(** [create_metadata] (lines 305-318) with the failures of its two calls.
    An exception of [open] leaves the file as it was; once the file is open
    it has lost its former content, and an exception of [json.dump] leaves
    it with what had been written. *)
Definition write_metadata (E : env) (inv : invocation) (output_dir input_path : string)
    (slide_count : Z) (slides_text : list text_record) : M unit :=
  let metadata :=
    Metadata (PyStr.basename input_path) slide_count (now_isoformat E) slides_text in
  let metadata_path := PyStr.os_path_join output_dir "metadata.json" in
  match open_for_writing inv metadata_path with
  | Some e => raise e
  | None =>
      match json_dump inv metadata with
      | Some (written, e) => write_out "metadata.json" (RawFile written) ;;; raise e
      | None =>
          write_out "metadata.json" (JsonFile metadata) ;;;
          print ("Metadata saved to " +:+ metadata_path)
      end
  end.

(** Lines 356-379: the body of the [try] block. *)
Definition try_block (E : env) (inv : invocation) (args : arguments) (m : method) :
    M unit :=
  r <- before_metadata E args m ;;
  write_metadata E inv (arg_output args) (arg_input args) r.1 r.2 ;;;
  print "PROGRESS:100" ;;;
  print "Conversion complete!".

(** The script as it is run (lines 321-385 and 388-389): the exit status and
    the final world.  The exception of [os.makedirs] is raised outside the
    [try] block: it is not caught, the interpreter writes the trace on the
    error stream and ends with status 1.  An exception of the [try] block
    is printed after [ERROR: ] and the status is 1. *)
Definition script (E : env) (inv : invocation) (w : world) : Z * world :=
  match parse_args inv with
  | HelpRequested help => (0, (print help w).2)
  | UsageError => (2, w)
  | Parsed args =>
      if negb (os_path_exists E (arg_input args))
      then (1, (print ("ERROR: Input file not found: " +:+ arg_input args) w).2)
      else
        match os_makedirs inv (arg_output args) with
        | Some e => (1, w)
        | None =>
            let prologue :=
              m <- choose_method E (arg_method args) ;;
              print_header args m ;;;
              ret m in
            match prologue w with
            | (Raise e, w1) => (1, w1)
            | (Ok m, w1) =>
                match try_block E inv args m w1 with
                | (Ok _, w2) => (0, w2)
                | (Raise e, w2) => (1, (print ("ERROR: " +:+ exn_msg e) w2).2)
                end
            end
        end
  end.

(** * Auxiliary definitions *)

(** ** Notions used by the statements *)

(** The temporary directories of a world. *)
Abbreviation tmp_map := (gmap string (list (string * file))).

(** [c] changes the temporary directories only along [R]. *)
Definition preserves (R : relation tmp_map) {A} (c : M A) : Prop :=
  forall w r w', c w = (r, w') -> R (tmp_dirs w) (tmp_dirs w').

(** The two maps agree on every directory but [d]. *)
Definition same_outside (d : string) : relation tmp_map :=
  fun m m' => delete d m' = delete d m.

(** The number that a string of decimal digits denotes. *)
Definition decimal_value (s : string) : option Z :=
  option_map Z.of_uint (NilEmpty.uint_of_string s).

(** Inside the pasted box the canvas shows the buffer, outside it the
    black fill. *)
Definition in_box (x y w h i j : Z) : bool :=
  (x <=? i) && (i <? x + w) && (y <=? j) && (j <? y + h).

(** The image saved for a rasterized buffer [pix] (lines 185-192): it has
    the target size, and is the buffer itself when the buffer has that size
    already; otherwise it shows the buffer in the box that starts at the
    centring offsets, and is black everywhere outside that box. *)
Definition fitted_on_black (pix img : Image.t) (width height : Z) : Prop :=
  Image.width img = width /\ Image.height img = height /\
  ((Image.width pix = width /\ Image.height pix = height /\ img = pix) \/
   ((Image.width pix <> width \/ Image.height pix <> height) /\
    forall i j,
      Image.getpixel img i j =
        if in_box ((width - Image.width pix) / 2) ((height - Image.height pix) / 2)
                  (Image.width pix) (Image.height pix) i j
        then Image.getpixel pix (i - (width - Image.width pix) / 2)
                                (j - (height - Image.height pix) / 2)
        else (0, 0, 0))).

(** The number that a finite float stands for. *)
Definition Q_of_float (x : float) : Q :=
  match Prim2SF x with
  | S754_finite s m e => (inject_Z (if s then Z.neg m else Z.pos m) * 2 ^ e)%Q
  | _ => 0%Q
  end.

(** A side of a page between [2^-960] and [2^960] points: the quotient of a
    canvas side by it neither overflows nor falls among the subnormal
    numbers. *)
Definition plain_side (x : float) : bool :=
  ((0x1p-960 <=? x) && (x <=? 0x1p+960))%float.

(** A float whose mantissa has 53 bits. *)
Definition normal (x : float) (m : positive) (e : Z) : Prop :=
  Prim2SF x = S754_finite false m e /\ 2 ^ 52 <= Z.pos m < 2 ^ 53.

(** What a rounding record knows of the quotient [N / D]: its integer part,
    whether the rest is at least a half, and, when the sticky bit is off,
    that the rest is nothing or exactly a half. *)
Definition represents (mrs : shr_record) (N D : Z) : Prop :=
  0 < D /\ 0 <= N /\
  shr_m mrs = N / D /\
  (shr_r mrs = true <-> D <= 2 * (N mod D)) /\
  (shr_s mrs = false -> N mod D = 0 \/ 2 * (N mod D) = D).

(** The converter binary can be found: on the PATH under one of its two
    names, or at one of the usual places of the platform. *)
Definition discoverable (E : env) : Prop :=
  truthy (shutil_which E "soffice") = true \/
  truthy (shutil_which E "soffice.exe") = true \/
  exists p, In p (possible_paths E) /\ os_path_exists E p = true.

(** The warning of the automatic choice (line 348). *)
Definition auto_warning : string :=
  "WARNING: LibreOffice not available, using direct conversion (limited formatting)".

(** The messages of the errors of [convert_with_libreoffice]. *)
Definition not_found_msg : string := "LibreOffice not found. Please install LibreOffice.".
Definition timed_out_msg : string := "LibreOffice conversion timed out after 5 minutes".
Definition failed_msg (rc : Z) (out err : string) : string :=
  "LibreOffice conversion failed: " +:+
  PyStr.or_else err
    (PyStr.or_else out ("Unknown error (exit code: " +:+ PyStr.str_of_Z rc +:+ ")")).
Definition no_pdf_msg (input_path : string) : string :=
  "PDF file not generated. Expected: " +:+ (PyStr.stem input_path +:+ ".pdf").

(** The world once [main] has printed its header. *)
Definition after_header (args : arguments) (m : method) (w : world) : world :=
  World (out_dir w) (tmp_dirs w)
    ((((stdout w ++ ["Starting conversion: " +:+ arg_input args])
         ++ ["Output directory: " +:+ arg_output args])
        ++ ["Resolution: " +:+ PyStr.str_of_Z (arg_width args) +:+ "x"
              +:+ PyStr.str_of_Z (arg_height args)])
       ++ ["Method: " +:+ method_name m]).

(** The run stops with status 1 on a [RuntimeError] of message [msg], which
    is the last line printed. *)
Definition aborts_with (E : env) (args : arguments) (w : world) (msg : string) : Prop :=
  (convert_with_libreoffice E (arg_input args) (arg_output args)
     (arg_width args) (arg_height args) (after_header args libreoffice w)).1
    = Raise (RuntimeError msg) /\
  (main E args w).1 = 1 /\
  last (stdout (main E args w).2) = Some ("ERROR: " +:+ msg).

(** The tick that the specification states for page [index] out of [total]:
    [floor(index / total * 100)] in exact arithmetic. *)
Definition floor_percent (index total : Z) : Z := index * 100 / total.

(** The ticks of a deck of [total] pages, from page [index] on, never go
    down from [prev] and end at 100. *)
Fixpoint ticks_ok_from (total : Z) (pages : nat) (index prev : Z) : bool :=
  match pages with
  | O => prev =? 100
  | S pages' =>
      match progress_of index total with
      | Ok tick => (prev <=? tick) && ticks_ok_from total pages' (index + 1) tick
      | Raise _ => false
      end
  end.

Definition ticks_ok (total : nat) : bool := ticks_ok_from (Z.of_nat total) total 1 0.

(** The thumbnail height that the specification states: the quotient
    rounded to the nearest integer. *)
Definition rounded_thumb_height (img : Image.t) (thumb_width : Z) : result Z :=
  aspect <~ PyNum.truediv_int_int (Image.width img) (Image.height img) ;;
  q <~ PyNum.truediv_int_float thumb_width aspect ;;
  PyNum.round_of_float q.

(** The thumbnail made of an entry of the output directory: the pure part of
    [make_thumbnail]. *)
Definition thumb_for (E : env) (thumb_width : Z) (name : string)
    (entry : option file) : result Image.t :=
  match entry with
  | Some (JpegFile stored q o) =>
      let img := jpeg_decode E stored q o in
      thumb_height <~ thumb_height_of img thumb_width ;;
      thumbnail E img (thumb_width, thumb_height) LANCZOS
  | Some _ => Raise (Exn "UnidentifiedImageError" ("cannot identify image file " +:+ name))
  | None => Raise (Exn "FileNotFoundError" ("No such file or directory: " +:+ name))
  end.

(** ** A concrete invocation, used to run the script *)

(** A black image. *)
Definition blank (w h : Z) : Image.t := Image.Make w h (fun _ _ => (0, 0, 0)).

(** A rasterizer that scales the page rectangle and fills it with white. *)
Definition demo_pixmap (p : page) (zoom : float) : result Image.t :=
  w <~ PyNum.int_of_float (zoom * rect_width p)%float ;;
  h <~ PyNum.int_of_float (zoom * rect_height p)%float ;;
  Ok (Image.Make w h (fun _ _ => (255, 255, 255))).

(** A deck of three slides. *)
Definition demo_deck : list slide :=
  [ [Shape (Some "  Hello world ") None];
    [];
    [Shape None (Some [["a"; "bcd"]])] ]%string.

(** LibreOffice is on the PATH and turns the deck into a PDF of two pages,
    one 4:3 and one 16:9, while the deck itself has three slides. *)
Definition demo_env : env := {|
  PIL_AVAILABLE := true;
  PYMUPDF_AVAILABLE := true;
  PPTX_AVAILABLE := true;
  platform_system := "Linux";
  shutil_which := fun n =>
    if String.eqb n "soffice" then Some "/usr/bin/soffice"%string else None;
  os_path_exists := fun _ => true;
  home := "/home/user";
  subprocess_run := fun _ =>
    Completed 0 "convert deck.pptx -> deck.pdf" ""
      [("deck.pdf"%string, PdfFile [Page 800 600 0; Page 720 405 1])];
  get_pixmap := demo_pixmap;
  jpeg_decode := fun img _ _ => img;
  thumbnail := fun img size _ => Ok (Image.Make size.1 size.2 (Image.getpixel img));
  Presentation := fun _ => Ok demo_deck;
  now_isoformat := "2024-01-01T00:00:00"
|}.

(** LibreOffice is found but does not finish within the timeout. *)
Definition timeout_env : env := {|
  PIL_AVAILABLE := true;
  PYMUPDF_AVAILABLE := true;
  PPTX_AVAILABLE := true;
  platform_system := "Linux";
  shutil_which := shutil_which demo_env;
  os_path_exists := fun _ => true;
  home := "/home/user";
  subprocess_run := fun _ => TimedOut [("deck.tmp"%string, RawFile "partial")];
  get_pixmap := demo_pixmap;
  jpeg_decode := fun img _ _ => img;
  thumbnail := thumbnail demo_env;
  Presentation := fun _ => Ok demo_deck;
  now_isoformat := "2024-01-01T00:00:00"
|}.

(** Empty directories, nothing printed yet. *)
Definition demo_world : world := World ∅ ∅ [].

Definition demo_args (m : method) : arguments :=
  Args "/decks/deck.pptx" "cache" 1920 1080 300 m.

(** An output directory that holds one full-size image. *)
Definition demo_rendered : world :=
  World {["slide_001.jpg"%string := JpegFile (blank 1920 1080) 92 true]} ∅ [].

(** ** Notions used by the further properties *)

(** A character of a formatted number: a digit or the sign. *)
Definition is_numeric (c : ascii) : bool :=
  let n := nat_of_ascii c in
  ((48 <=? n)%nat && (n <=? 57)%nat) || (n =? 45)%nat.

Fixpoint numeric (s : string) : bool :=
  match s with
  | EmptyString => true
  | String c s' => is_numeric c && numeric s'
  end.

(** The name of the thumbnail of page [n]. *)
Definition slide_thumb_filename (n : Z) : string :=
  "slide_" +:+ PyStr.format_03d n +:+ "_thumb.jpg".

(** No character of [s] is [c]. *)
Fixpoint without (c : ascii) (s : string) : bool :=
  match s with
  | EmptyString => true
  | String c' s' => negb (Ascii.eqb c c') && without c s'
  end.


(** [x] is the first element of [l] that satisfies [f]. *)
Definition first_match {A} (f : A -> bool) (l : list A) (x : A) : Prop :=
  exists l1 l2, l = l1 ++ x :: l2 /\ f x = true /\ Forall (fun y => f y = false) l1.

(** [doc] is the PDF that the LibreOffice path renders when it is run from
    the world [w]: the binary is found, the process ends with exit code 0,
    and [doc] is the entry that it left under the expected name or, when
    there is none, the first entry whose name ends in [.pdf]. *)
Definition produced_pdf (E : env) (input_path : string) (w : world)
    (doc : list page) : Prop :=
  exists soffice out err written name,
    find_libreoffice E = Some soffice /\
    subprocess_run E (soffice_cmd soffice (mkdtemp w) input_path)
      = Completed 0 out err written /\
    ((is_Some (assoc (PyStr.stem input_path +:+ ".pdf") written) /\
      name = PyStr.stem input_path +:+ ".pdf") \/
     (assoc (PyStr.stem input_path +:+ ".pdf") written = None /\
      first_match (PyStr.endswith ".pdf") (map fst written) name)) /\
    assoc name written = Some (PdfFile doc).

(** A temporary directory in which the converter left a text file and two
    PDF files, none under the expected name. *)
Definition demo_listing : world :=
  World ∅
    {["tmp0"%string := [("notes.txt"%string, RawFile "n");
                        ("first.pdf"%string, PdfFile [Page 800 600 0]);
                        ("second.pdf"%string, PdfFile [])]]}
    [].

(** ** What a run does to the output directory and to standard output *)

(** [c] takes every world to one related by [R], whatever its outcome. *)
Definition respects (R : relation world) {A} (c : M A) : Prop :=
  forall w r w', c w = (r, w') -> R w w'.

(** A relation between worlds that the primitives of the script keep:
    printing a line, changing the temporary directories, and writing an
    entry of the output directory whose name is [writable]. *)
Class Footprint (R : relation world) (writable : string -> Prop) := {
  footprint_refl : Reflexive R;
  footprint_trans : Transitive R;
  footprint_print w line :
    R w (World (out_dir w) (tmp_dirs w) (stdout w ++ [line]));
  footprint_tmp w t : R w (World (out_dir w) t (stdout w));
  footprint_write w name f :
    writable name -> R w (World (<[name := f]> (out_dir w)) (tmp_dirs w) (stdout w))
}.

(** The entry [name] of the output directory is the same in both worlds. *)
Definition same_entry (name : string) : relation world :=
  fun w w' => out_dir w' !! name = out_dir w !! name.

(** Standard output has only grown. *)
Definition stdout_grows : relation world :=
  fun w w' => stdout w `prefix_of` stdout w'.

(** The output directory is the same in both worlds. *)
Definition same_files : relation world :=
  fun w w' => out_dir w' = out_dir w.

(** [line] is the progress line of page [index] of a deck of [total] pages. *)
Definition tick_line (total index : Z) (line : string) : Prop :=
  exists progress, progress_of index total = Ok progress /\ line = progress_line progress.

(** The two lines that the direct conversion prints first (lines 221-222). *)
Definition direct_warnings : list string :=
  [ "WARNING: Direct PPTX rendering has limited support for complex formatting.";
    "Consider installing LibreOffice for better results." ]%string.

(** The LibreOffice path cannot get a PDF: the binary is not found, or the
    process cannot be started, is killed at the timeout, ends with a non-zero
    exit code, or leaves no entry under the expected name nor any [*.pdf]
    entry. *)
Definition no_pdf_produced (E : env) (input_path : string) (w : world) : Prop :=
  match find_libreoffice E with
  | None => True
  | Some p =>
      match subprocess_run E (soffice_cmd p (mkdtemp w) input_path) with
      | Completed rc out err written =>
          rc <> 0 \/
          (assoc (PyStr.stem input_path +:+ ".pdf") written = None /\
           Forall (fun entry => PyStr.endswith ".pdf" entry.1 = false) written)
      | TimedOut _ | SpawnFailed _ => True
      end
  end.


(** An installation without Pillow and without LibreOffice, and a deck
    without slides. *)
Definition bare_env : env := {|
  PIL_AVAILABLE := false;
  PYMUPDF_AVAILABLE := true;
  PPTX_AVAILABLE := true;
  platform_system := "Linux";
  shutil_which := fun _ => None;
  os_path_exists := fun p => String.eqb p "/decks/empty.pptx";
  home := "/home/user";
  subprocess_run := fun _ => SpawnFailed (Exn "FileNotFoundError" "soffice");
  get_pixmap := demo_pixmap;
  jpeg_decode := fun img _ _ => img;
  thumbnail := thumbnail demo_env;
  Presentation := fun _ => Ok [];
  now_isoformat := "2024-01-01T00:00:00"
|}.

(** LibreOffice produces a PDF whose second page has no height. *)
Definition flat_page_env : env := {|
  PIL_AVAILABLE := true;
  PYMUPDF_AVAILABLE := true;
  PPTX_AVAILABLE := true;
  platform_system := "Linux";
  shutil_which := shutil_which demo_env;
  os_path_exists := fun _ => true;
  home := "/home/user";
  subprocess_run := fun _ =>
    Completed 0 "" ""
      [("deck.pdf"%string, PdfFile [Page 800 600 0; Page 800 0 1])];
  get_pixmap := demo_pixmap;
  jpeg_decode := fun img _ _ => img;
  thumbnail := thumbnail demo_env;
  Presentation := fun _ => Ok demo_deck;
  now_isoformat := "2024-01-01T00:00:00"
|}.



(** The file system accepts every directory and every file. *)
Definition demo_invocation (m : method) : invocation :=
  Invocation (Parsed (demo_args m)) (fun _ => None) (fun _ => None) (fun _ => None).



(** An output directory that holds the metadata of an earlier run. *)
Definition demo_converted : world :=
  World {["metadata.json"%string :=
            JsonFile (Metadata "old.pptx" 1 "2023-12-31T00:00:00" [])]} ∅ [].

(** * Properties *)

(** ** Inversion of the monad *)

Lemma bind_inv {A B} (c : M A) (k : A -> M B) w r w' :
  bind c k w = (r, w') ->
  (exists a w1, c w = (Ok a, w1) /\ k a w1 = (r, w')) \/
  (exists e, c w = (Raise e, w') /\ r = Raise e).
Proof.
  unfold bind. destruct (c w) as [[a|e] w1]; intros H.
  - left. eauto.
  - right. inversion H; subst. eauto.
Qed.

Lemma bind_Ok_inv {A B} (c : M A) (k : A -> M B) w b w' :
  bind c k w = (Ok b, w') ->
  exists a w1, c w = (Ok a, w1) /\ k a w1 = (Ok b, w').
Proof.
  intros H. apply bind_inv in H as [H|(e & _ & H)]; [exact H | discriminate].
Qed.

Lemma lift_inv {A} (r r' : result A) w w' :
  lift r w = (r', w') -> r = r' /\ w' = w.
Proof. unfold lift. intros H. inversion H. auto. Qed.

Lemma rbind_Ok_inv {A B} (r : result A) (k : A -> result B) b :
  rbind r k = Ok b -> exists a, r = Ok a /\ k a = Ok b.
Proof. destruct r; simpl; [eauto | discriminate]. Qed.

(** ** Strings *)

Lemma append_nil_l (t : string) : EmptyString +:+ t = t.
Proof. reflexivity. Qed.

Lemma append_cons c (s t : string) : String c s +:+ t = String c (s +:+ t).
Proof. reflexivity. Qed.

Lemma append_length (s t : string) :
  String.length (s +:+ t) = (String.length s + String.length t)%nat.
Proof.
  induction s as [|c s IH]; [reflexivity|].
  rewrite append_cons. simpl. congruence.
Qed.

Lemma append_cancel_r (t s1 s2 : string) : s1 +:+ t = s2 +:+ t -> s1 = s2.
Proof.
  revert s2. induction s1 as [|c s1 IH]; intros [|c2 s2] H.
  - reflexivity.
  - apply (f_equal String.length) in H.
    rewrite append_nil_l, append_cons in H. simpl in H. rewrite append_length in H. lia.
  - apply (f_equal String.length) in H.
    rewrite append_nil_l, append_cons in H. simpl in H. rewrite append_length in H. lia.
  - rewrite !append_cons in H. inversion H; subst. f_equal. eauto.
Qed.

(** ** Decimal names of the slides *)

Lemma decimal_value_str_of_Z n : 0 <= n -> decimal_value (PyStr.str_of_Z n) = Some n.
Proof.
  intros Hn. unfold decimal_value, PyStr.str_of_Z.
  destruct n as [|p|p]; [reflexivity| |lia].
  simpl. unfold NilZero.string_of_uint.
  pose proof (DecimalPos.Unsigned.to_uint_nonnil p) as Hnil.
  destruct (Pos.to_uint p) eqn:Hp; [congruence|..];
    rewrite <- Hp, NilEmpty.usu; simpl; unfold Z.of_uint;
    rewrite DecimalPos.Unsigned.of_to; reflexivity.
Qed.

Lemma decimal_value_zero s : decimal_value (String "0" s) = decimal_value s.
Proof.
  unfold decimal_value. simpl.
  destruct (NilEmpty.uint_of_string s); reflexivity.
Qed.

Lemma decimal_value_zfill k s : decimal_value (PyStr.zfill k s) = decimal_value s.
Proof.
  unfold PyStr.zfill. induction (k - String.length s)%nat as [|n IH]; [reflexivity|].
  change (PyStr.zeros (S n)) with (String "0" (PyStr.zeros n)). rewrite append_cons.
  rewrite decimal_value_zero. exact IH.
Qed.

Lemma decimal_value_format_03d n : 0 <= n -> decimal_value (PyStr.format_03d n) = Some n.
Proof.
  intros Hn. unfold PyStr.format_03d.
  destruct (n <? 0) eqn:Hlt; [lia|].
  rewrite decimal_value_zfill. apply decimal_value_str_of_Z, Hn.
Qed.

Lemma slide_filename_inj n m :
  0 <= n -> 0 <= m -> slide_filename n = slide_filename m -> n = m.
Proof.
  intros Hn Hm H. unfold slide_filename in H.
  injection H as H. rewrite !append_nil_l in H. apply append_cancel_r in H.
  apply (f_equal decimal_value) in H.
  rewrite !decimal_value_format_03d in H by assumption. congruence.
Qed.

(** ** Compositing on the canvas *)

Lemma Image_new_Ok w h c img :
  Image.new w h c = Ok img ->
  Image.width img = w /\ Image.height img = h /\
  forall i j, Image.getpixel img i j = c.
Proof.
  unfold Image.new. destruct ((w <? 0) || (h <? 0)); [discriminate|].
  intros [= <-]. simpl. auto.
Qed.

Lemma center_on_canvas_same pix width height :
  Image.width pix = width -> Image.height pix = height ->
  center_on_canvas pix width height = Ok pix.
Proof.
  intros Hw Hh. unfold center_on_canvas.
  rewrite Hw, Hh, !Z.eqb_refl. reflexivity.
Qed.

Lemma center_on_canvas_differ pix width height img :
  Image.width pix <> width \/ Image.height pix <> height ->
  center_on_canvas pix width height = Ok img ->
  exists canvas,
    Image.new width height (0, 0, 0) = Ok canvas /\
    img = Image.paste canvas pix (x_offset width pix) (y_offset height pix).
Proof.
  intros Hd. unfold center_on_canvas.
  destruct (negb (Image.width pix =? width) || negb (Image.height pix =? height)) eqn:Hc.
  - intros H. apply rbind_Ok_inv in H as (canvas & Hnew & [= <-]). eauto.
  - apply orb_false_iff in Hc as [H1 H2].
    apply negb_false_iff, Z.eqb_eq in H1. apply negb_false_iff, Z.eqb_eq in H2.
    destruct Hd; contradiction.
Qed.

Lemma center_on_canvas_size pix width height img :
  center_on_canvas pix width height = Ok img ->
  Image.width img = width /\ Image.height img = height.
Proof.
  intros H.
  destruct (Z.eq_dec (Image.width pix) width) as [Hw|Hw];
    [destruct (Z.eq_dec (Image.height pix) height) as [Hh|Hh]|].
  - rewrite (center_on_canvas_same _ _ _ Hw Hh) in H. injection H as <-. auto.
  - apply center_on_canvas_differ in H as (canvas & Hnew & ->); [|auto].
    apply Image_new_Ok in Hnew as (? & ? & _). auto.
  - apply center_on_canvas_differ in H as (canvas & Hnew & ->); [|auto].
    apply Image_new_Ok in Hnew as (? & ? & _). auto.
Qed.

Lemma center_on_canvas_pixels pix width height img :
  Image.width pix <> width \/ Image.height pix <> height ->
  center_on_canvas pix width height = Ok img ->
  forall i j,
    Image.getpixel img i j =
      if in_box (x_offset width pix) (y_offset height pix)
                (Image.width pix) (Image.height pix) i j
      then Image.getpixel pix (i - x_offset width pix) (j - y_offset height pix)
      else (0, 0, 0).
Proof.
  intros Hd H i j.
  apply center_on_canvas_differ in H as (canvas & Hnew & ->); [|exact Hd].
  apply Image_new_Ok in Hnew as (_ & _ & Hfill).
  unfold Image.paste, in_box. simpl. rewrite Hfill. reflexivity.
Qed.

(** The margins on the two sides of the buffer differ by one pixel at most. *)
Lemma offsets_centered width height pix :
  0 <= width - Image.width pix - 2 * x_offset width pix <= 1 /\
  0 <= height - Image.height pix - 2 * y_offset height pix <= 1.
Proof.
  unfold x_offset, y_offset.
  pose proof (Z.div_mod (width - Image.width pix) 2 ltac:(lia)).
  pose proof (Z.mod_pos_bound (width - Image.width pix) 2 ltac:(lia)).
  pose proof (Z.div_mod (height - Image.height pix) 2 ltac:(lia)).
  pose proof (Z.mod_pos_bound (height - Image.height pix) 2 ltac:(lia)).
  lia.
Qed.

(** ** The rendering loops *)

Section Loops.

Variable E : env.

Lemma save_jpeg_Ok name img q o w w' :
  save_jpeg name img q o w = (Ok tt, w') ->
  w' = World (<[name := JpegFile img q o]> (out_dir w)) (tmp_dirs w) (stdout w).
Proof.
  unfold save_jpeg. destruct ((Image.width img =? 0) || (Image.height img =? 0)).
  - discriminate.
  - unfold write_out. intros [= <-]. reflexivity.
Qed.

Lemma PIL_Image_Ok w w' :
  PIL_Image E w = (Ok tt, w') -> PIL_AVAILABLE E = true /\ w' = w.
Proof.
  unfold PIL_Image. destruct (PIL_AVAILABLE E); [|discriminate].
  intros [= <-]. auto.
Qed.

Lemma render_page_Ok width height total page_num p w w' :
  render_page E width height total page_num p w = (Ok tt, w') ->
  exists zoom pix img progress,
    fit_zoom width height p = Ok zoom /\
    get_pixmap E p zoom = Ok pix /\
    center_on_canvas pix width height = Ok img /\
    progress_of (page_num + 1) total = Ok progress /\
    w' = World (<[slide_filename (page_num + 1) := JpegFile img 92 true]> (out_dir w))
               (tmp_dirs w) (stdout w ++ [progress_line progress]).
Proof.
  unfold render_page. intros H.
  apply bind_Ok_inv in H as (zoom & w1 & Hz & H). apply lift_inv in Hz as [Hz ->].
  apply bind_Ok_inv in H as (pix & w1 & Hp & H). apply lift_inv in Hp as [Hp ->].
  apply bind_Ok_inv in H as ([] & w1 & Hpil & H). apply PIL_Image_Ok in Hpil as [_ ->].
  apply bind_Ok_inv in H as (img & w1 & Hi & H). apply lift_inv in Hi as [Hi ->].
  apply bind_Ok_inv in H as ([] & w1 & Hs & H). apply save_jpeg_Ok in Hs as ->.
  apply bind_Ok_inv in H as (progress & w2 & Hg & H). apply lift_inv in Hg as [Hg ->].
  unfold print in H. injection H as <-. simpl.
  exists zoom, pix, img, progress. auto.
Qed.

Lemma render_pages_Ok width height total pages :
  forall page_num slide_count w n w',
    0 <= page_num ->
    render_pages E width height total pages page_num slide_count w = (Ok n, w') ->
    n = slide_count + Z.of_nat (length pages) /\
    tmp_dirs w' = tmp_dirs w /\
    (forall (k : nat) p, pages !! k = Some p ->
       exists zoom pix img,
         fit_zoom width height p = Ok zoom /\
         get_pixmap E p zoom = Ok pix /\
         center_on_canvas pix width height = Ok img /\
         out_dir w' !! slide_filename (page_num + Z.of_nat k + 1)
           = Some (JpegFile img 92 true)) /\
    (forall name,
       (forall k : nat, (k < length pages)%nat ->
                        name <> slide_filename (page_num + Z.of_nat k + 1)) ->
       out_dir w' !! name = out_dir w !! name).
Proof.
  induction pages as [|p rest IH]; intros page_num slide_count w n w' Hpn H.
  - simpl in H. injection H as <- <-. simpl.
    split; [lia|]. split; [reflexivity|]. split; [|reflexivity].
    intros k p Hk. rewrite lookup_nil in Hk. discriminate.
  - simpl in H. apply bind_Ok_inv in H as ([] & w1 & Hpage & H).
    apply render_page_Ok in Hpage as (zoom & pix & img & progress & Hz & Hp & Hi & _ & ->).
    apply IH in H as (-> & Htmp & Hfiles & Hframe); [|lia].
    simpl in Htmp, Hframe.
    split; [|split; [|split]].
    + simpl length. lia.
    + exact Htmp.
    + intros [|k] q Hk; simpl in Hk.
      * injection Hk as <-. exists zoom, pix, img. repeat split; try assumption.
        rewrite Hframe.
        -- replace (page_num + Z.of_nat 0 + 1) with (page_num + 1) by lia.
           apply lookup_insert_eq.
        -- intros k _ Heq. apply slide_filename_inj in Heq; lia.
      * destruct (Hfiles k q Hk) as (z' & px' & im' & ? & ? & ? & Hl).
        exists z', px', im'. repeat split; try assumption.
        rewrite <- Hl. f_equal. f_equal. lia.
    + intros name Hname. rewrite Hframe.
      * apply lookup_insert_ne. intros Heq. apply (Hname 0%nat); [simpl; lia|].
        rewrite <- Heq. f_equal. lia.
      * intros k Hk Heq. apply (Hname (S k)); [simpl; lia|].
        rewrite Heq. f_equal. lia.
Qed.

Lemma fitz_open_Ok pdf_path w doc w' :
  fitz_open pdf_path w = (Ok doc, w') ->
  w' = w /\ assoc pdf_path.2 (default [] (tmp_dirs w !! pdf_path.1)) = Some (PdfFile doc).
Proof.
  unfold fitz_open, bind, tmp_listing.
  destruct (assoc _ _) as [[| | |]|]; unfold ret, raise; intros [= <- <-] || discriminate.
  auto.
Qed.

Lemma convert_pdf_to_images_Ok pdf_path output_dir width height w n w' :
  convert_pdf_to_images E pdf_path output_dir width height w = (Ok n, w') ->
  exists doc,
    assoc pdf_path.2 (default [] (tmp_dirs w !! pdf_path.1)) = Some (PdfFile doc) /\
    n = Z.of_nat (length doc) /\
    tmp_dirs w' = tmp_dirs w /\
    (forall (k : nat) p, doc !! k = Some p ->
       exists zoom pix img,
         fit_zoom width height p = Ok zoom /\
         get_pixmap E p zoom = Ok pix /\
         center_on_canvas pix width height = Ok img /\
         out_dir w' !! slide_filename (Z.of_nat k + 1) = Some (JpegFile img 92 true)).
Proof.
  unfold convert_pdf_to_images. destruct (negb (PYMUPDF_AVAILABLE E)); [discriminate|].
  intros H. apply bind_Ok_inv in H as (doc & w1 & Hopen & H).
  apply fitz_open_Ok in Hopen as [-> Hdoc].
  apply render_pages_Ok in H as (-> & Htmp & Hfiles & _); [|lia].
  exists doc. split; [assumption|]. split; [lia|]. split; [assumption|].
  intros k p Hk. destruct (Hfiles k p Hk) as (z & px & im & ? & ? & ? & Hl).
  exists z, px, im. repeat split; assumption.
Qed.

Lemma placeholder_page_Ok width height total idx w w' :
  placeholder_page E width height total idx w = (Ok tt, w') ->
  exists img progress,
    Image.new width height (0, 0, 32) = Ok img /\
    progress_of (idx + 1) total = Ok progress /\
    w' = World (<[slide_filename (idx + 1) := JpegFile img 92 false]> (out_dir w))
               (tmp_dirs w) (stdout w ++ [progress_line progress]).
Proof.
  unfold placeholder_page. intros H.
  apply bind_Ok_inv in H as ([] & w1 & Hpil & H). apply PIL_Image_Ok in Hpil as [_ ->].
  apply bind_Ok_inv in H as (img & w1 & Hi & H). apply lift_inv in Hi as [Hi ->].
  apply bind_Ok_inv in H as ([] & w1 & Hs & H). apply save_jpeg_Ok in Hs as ->.
  apply bind_Ok_inv in H as (progress & w2 & Hg & H). apply lift_inv in Hg as [Hg ->].
  unfold print in H. injection H as <-. simpl. eauto.
Qed.

Lemma placeholder_pages_Ok width height total prs_slides :
  forall idx w w',
    0 <= idx ->
    placeholder_pages E width height total prs_slides idx w = (Ok tt, w') ->
    tmp_dirs w' = tmp_dirs w /\
    (forall k : nat, (k < length prs_slides)%nat ->
       exists img,
         Image.new width height (0, 0, 32) = Ok img /\
         out_dir w' !! slide_filename (idx + Z.of_nat k + 1)
           = Some (JpegFile img 92 false)) /\
    (forall name,
       (forall k : nat, (k < length prs_slides)%nat ->
                        name <> slide_filename (idx + Z.of_nat k + 1)) ->
       out_dir w' !! name = out_dir w !! name).
Proof.
  induction prs_slides as [|s rest IH]; intros idx w w' Hidx H.
  - simpl in H. injection H as <-.
    split; [reflexivity|]. split; [|reflexivity].
    intros k Hk. simpl in Hk. lia.
  - simpl in H. apply bind_Ok_inv in H as ([] & w1 & Hpage & H).
    apply placeholder_page_Ok in Hpage as (img & progress & Hi & _ & ->).
    apply IH in H as (Htmp & Hfiles & Hframe); [|lia].
    simpl in Htmp, Hframe.
    split; [exact Htmp|split].
    + intros [|k] Hk.
      * exists img. split; [assumption|].
        rewrite Hframe.
        -- replace (idx + Z.of_nat 0 + 1) with (idx + 1) by lia.
           apply lookup_insert_eq.
        -- intros k _ Heq. apply slide_filename_inj in Heq; lia.
      * destruct (Hfiles k) as (im' & ? & Hl); [simpl in Hk; lia|].
        exists im'. split; [assumption|].
        rewrite <- Hl. f_equal. f_equal. lia.
    + intros name Hname. rewrite Hframe.
      * apply lookup_insert_ne. intros Heq. apply (Hname 0%nat); [simpl; lia|].
        rewrite <- Heq. f_equal. lia.
      * intros k Hk Heq. apply (Hname (S k)); [simpl; lia|].
        rewrite Heq. f_equal. lia.
Qed.

Lemma convert_with_pptx_direct_Ok input_path output_dir width height w n w' :
  convert_with_pptx_direct E input_path output_dir width height w = (Ok n, w') ->
  exists prs_slides,
    Presentation E input_path = Ok prs_slides /\
    n = Z.of_nat (length prs_slides) /\
    tmp_dirs w' = tmp_dirs w /\
    (forall k : nat, (k < length prs_slides)%nat ->
       exists img,
         Image.new width height (0, 0, 32) = Ok img /\
         out_dir w' !! slide_filename (Z.of_nat k + 1) = Some (JpegFile img 92 false)).
Proof.
  unfold convert_with_pptx_direct. destruct (negb (PPTX_AVAILABLE E)); [discriminate|].
  intros H.
  apply bind_Ok_inv in H as (prs & w1 & Hp & H). apply lift_inv in Hp as [Hp ->].
  apply bind_Ok_inv in H as ([] & w1 & Hp1 & H). injection Hp1 as <-.
  apply bind_Ok_inv in H as ([] & w2 & Hp2 & H). injection Hp2 as <-.
  apply bind_Ok_inv in H as ([] & w3 & Hloop & H). injection H as <- <-.
  apply placeholder_pages_Ok in Hloop as (Htmp & Hfiles & _); [|lia].
  simpl in Htmp.
  exists prs. split; [assumption|]. split; [reflexivity|]. split; [assumption|].
  intros k Hk. destruct (Hfiles k Hk) as (img & ? & Hl). exists img. split; assumption.
Qed.

End Loops.

(** ** What a computation does to the temporary directories *)

#[global] Instance same_outside_refl d : Reflexive (same_outside d).
Proof. intros m. reflexivity. Qed.

#[global] Instance same_outside_trans d : Transitive (same_outside d).
Proof. intros m1 m2 m3 H12 H23. unfold same_outside in *. congruence. Qed.

Create HintDb frame.

Section Frame.

Context (R : relation tmp_map) `{!Reflexive R} `{!Transitive R}.

Lemma preserves_ret {A} (a : A) : preserves R (ret a).
Proof. intros w r w' [= <- <-]. reflexivity. Qed.

Lemma preserves_raise {A} e : preserves R (@raise A e).
Proof. intros w r w' [= <- <-]. reflexivity. Qed.

Lemma preserves_lift {A} (x : result A) : preserves R (lift x).
Proof. intros w r w' [= <- <-]. reflexivity. Qed.

Lemma preserves_print line : preserves R (print line).
Proof. intros w r w' [= <- <-]. reflexivity. Qed.

Lemma preserves_write_out name f : preserves R (write_out name f).
Proof. intros w r w' [= <- <-]. reflexivity. Qed.

Lemma preserves_bind {A B} (c : M A) (k : A -> M B) :
  preserves R c -> (forall a, preserves R (k a)) -> preserves R (bind c k).
Proof.
  intros Hc Hk w r w' H. apply bind_inv in H as [(a & w1 & H1 & H2)|(e & H1 & _)].
  - transitivity (tmp_dirs w1); [eapply Hc | eapply Hk]; eassumption.
  - eapply Hc; eassumption.
Qed.

Lemma preserves_try_except {A} (c : M A) cls handler :
  preserves R c -> (forall e, preserves R (handler e)) ->
  preserves R (try_except c cls handler).
Proof.
  intros Hc Hh w r w' H. unfold try_except in H.
  destruct (c w) as [[a|e] w1] eqn:Hcw.
  - injection H as <- <-. eapply Hc; eassumption.
  - destruct (String.eqb (exn_class e) cls).
    + transitivity (tmp_dirs w1); [eapply Hc | eapply Hh]; eassumption.
    + injection H as <- <-. eapply Hc; eassumption.
Qed.

Lemma preserves_if {A} (b : bool) (c1 c2 : M A) :
  preserves R c1 -> preserves R c2 -> preserves R (if b then c1 else c2).
Proof. destruct b; auto. Qed.

Lemma preserves_save_jpeg name img q o : preserves R (save_jpeg name img q o).
Proof. unfold save_jpeg. apply preserves_if; [apply preserves_raise | apply preserves_write_out]. Qed.

Lemma preserves_for_each {A} (xs : list A) body :
  (forall x, preserves R (body x)) -> preserves R (for_each xs body).
Proof.
  intros Hb. induction xs as [|x rest IH]; simpl.
  - apply preserves_ret.
  - apply preserves_bind; auto.
Qed.

Lemma preserves_tmp_listing d : preserves R (tmp_listing d).
Proof. intros w r w' [= <- <-]. reflexivity. Qed.

End Frame.

#[global] Hint Resolve preserves_ret preserves_raise preserves_lift preserves_print
  preserves_write_out preserves_save_jpeg preserves_tmp_listing : frame.

#[global] Hint Extern 1 (Reflexive _) => apply _ : frame.
#[global] Hint Extern 1 (Transitive _) => apply _ : frame.

(** Applies the frame lemmas along the structure of a computation. *)
Ltac frame_bind := apply preserves_bind; [apply _ | | intros].

Ltac frame :=
  repeat first
    [ progress auto with frame
    | frame_bind
    | apply preserves_try_except; [apply _ | | intros]
    | apply preserves_if
    | match goal with
      | |- preserves _ (match ?x with _ => _ end) => destruct x
      end ].

Section FrameScript.

Context (E : env) (R : relation tmp_map) `{!Reflexive R} `{!Transitive R}.

Lemma preserves_fitz_open p : preserves R (fitz_open p).
Proof. unfold fitz_open. frame. Qed.

Lemma preserves_render_pages width height total pages :
  forall page_num slide_count,
    preserves R (render_pages E width height total pages page_num slide_count).
Proof.
  induction pages as [|p rest IH]; intros; simpl.
  - frame.
  - frame_bind; [unfold render_page, PIL_Image; frame | apply IH].
Qed.

Lemma preserves_convert_pdf_to_images p o width height :
  preserves R (convert_pdf_to_images E p o width height).
Proof.
  unfold convert_pdf_to_images. apply preserves_if; [frame|].
  frame_bind; [apply preserves_fitz_open | apply preserves_render_pages].
Qed.

Lemma preserves_placeholder_pages width height total prs_slides :
  forall idx, preserves R (placeholder_pages E width height total prs_slides idx).
Proof.
  induction prs_slides as [|s rest IH]; intros; simpl.
  - frame.
  - frame_bind; [unfold placeholder_page, PIL_Image; frame | apply IH].
Qed.

Lemma preserves_convert_with_pptx_direct i o width height :
  preserves R (convert_with_pptx_direct E i o width height).
Proof.
  unfold convert_with_pptx_direct. apply preserves_if; [frame|].
  do 3 (frame_bind; [frame|]).
  frame_bind; [apply preserves_placeholder_pages | frame].
Qed.

Lemma preserves_locate_pdf d i : preserves R (locate_pdf d i).
Proof. unfold locate_pdf. frame. Qed.

Lemma preserves_Image_open name : preserves R (Image_open E name).
Proof.
  intros w r w' H. unfold Image_open in H.
  destruct (out_dir w !! name) as [[| | |]|]; injection H as <- <-; reflexivity.
Qed.

Lemma preserves_generate_thumbnails o tw : preserves R (generate_thumbnails E o tw).
Proof.
  unfold generate_thumbnails. frame_bind; [frame|].
  intros w r w' H. revert H.
  apply (preserves_for_each R). intros f. unfold make_thumbnail.
  frame_bind; [apply preserves_Image_open | frame].
Qed.

Lemma preserves_extract_text_from_pptx i : preserves R (extract_text_from_pptx E i).
Proof. unfold extract_text_from_pptx. frame. Qed.

Lemma preserves_create_metadata o i n recs : preserves R (create_metadata E o i n recs).
Proof. unfold create_metadata. frame. Qed.

End FrameScript.

(** The converter process touches its own [--outdir] only. *)
Lemma preserves_run_converter E cmd d : preserves (same_outside d) (run_converter E cmd d).
Proof.
  intros w r w' H. unfold run_converter in H.
  destruct (subprocess_run E cmd); injection H as <- <-; unfold same_outside; simpl;
    try reflexivity; apply delete_insert_eq.
Qed.

(** Leaving the [with] block removes the directory: the temporary
    directories are those of before. *)
Lemma with_TemporaryDirectory_releases {A} (body : string -> M A) :
  (forall d, preserves (same_outside d) (body d)) ->
  preserves eq (with_TemporaryDirectory body).
Proof.
  intros Hb w r w' H. unfold with_TemporaryDirectory in H.
  destruct (body _ _) as [r2 w2] eqn:Hbody. injection H as <- <-. simpl.
  apply Hb in Hbody. unfold same_outside in Hbody. simpl in Hbody.
  rewrite Hbody, delete_insert_eq. symmetry. apply delete_id.
  unfold mkdtemp. apply not_elem_of_dom, is_fresh.
Qed.

Lemma convert_with_libreoffice_releases E i o width height :
  preserves eq (convert_with_libreoffice E i o width height).
Proof.
  unfold convert_with_libreoffice.
  apply preserves_if; [frame|].
  apply with_TemporaryDirectory_releases. intros d.
  do 2 (frame_bind; [frame|]).
  frame_bind.
  - apply preserves_try_except; [apply _| |intros; frame].
    apply preserves_bind; [apply _ | apply preserves_run_converter | intros [[rc out] err]].
    frame.
  - frame_bind; [apply preserves_locate_pdf; apply _|].
    frame_bind; [frame|].
    apply preserves_convert_pdf_to_images; apply _.
Qed.

Lemma preserves_choose_method E m : preserves eq (choose_method E m).
Proof. unfold choose_method. frame. Qed.

Lemma preserves_run_conversion E args m : preserves eq (run_conversion E args m).
Proof.
  unfold run_conversion, conversion_step, thumbnails_step. frame_bind.
  - apply preserves_if;
      [apply convert_with_libreoffice_releases
      |apply preserves_convert_with_pptx_direct; apply _].
  - frame_bind; [frame|].
    frame_bind; [apply preserves_if; [apply preserves_generate_thumbnails; apply _|frame]|].
    frame_bind; [apply preserves_extract_text_from_pptx; apply _|].
    frame_bind; [apply preserves_create_metadata; apply _|frame].
Qed.

Lemma preserves_prologue E args :
  preserves eq (m <- choose_method E (arg_method args) ;; print_header args m ;;; ret m).
Proof. frame_bind; [apply preserves_choose_method | unfold print_header; frame]. Qed.

(** Whatever the outcome of a run, no temporary directory outlives it. *)
Lemma main_releases E args w : tmp_dirs (main E args w).2 = tmp_dirs w.
Proof.
  unfold main. destruct (negb (os_path_exists E (arg_input args))); [reflexivity|].
  cbv zeta.
  match goal with
  | |- context [match ?c w with _ => _ end] => destruct (c w) as [[m|e] w1] eqn:Hpro
  end; apply preserves_prologue in Hpro.
  - destruct (run_conversion E args m w1) as [[[]|e] w2] eqn:Hrun;
      apply preserves_run_conversion in Hrun; simpl; congruence.
  - simpl. congruence.
Qed.

(** ** Listings of the two directories *)

Lemma elem_of_listdir (d : gmap string file) name : name ∈ listdir d <-> is_Some (d !! name).
Proof.
  unfold listdir. rewrite list_elem_of_fmap. split.
  - intros ([k f] & -> & Hin). apply elem_of_map_to_list in Hin. simpl. eauto.
  - intros [f Hf]. exists (name, f). split; [reflexivity|]. apply elem_of_map_to_list, Hf.
Qed.

Lemma elem_of_full_size_slides (d : gmap string file) name :
  name ∈ full_size_slides d <-> is_full_size name = true /\ is_Some (d !! name).
Proof.
  unfold full_size_slides, sorted. rewrite merge_sort_Permutation.
  rewrite list_elem_of_filter, elem_of_listdir. reflexivity.
Qed.

Lemma filter_head_first_match (f : string -> bool) l x rest :
  filter (fun n => f n = true) l = x :: rest -> first_match f l x.
Proof.
  unfold first_match. induction l as [|y l IH]; [discriminate|].
  destruct (f y) eqn:Hy.
  - rewrite filter_cons_True by assumption. intros [= -> _]. exists [], l. auto.
  - rewrite filter_cons_False by congruence. intros H.
    destruct (IH H) as (l1 & l2 & -> & Hx & Hl1). exists (y :: l1), l2. auto.
Qed.

Lemma locate_pdf_Ok d i w p w' :
  locate_pdf d i w = (Ok p, w') ->
  let expected := PyStr.stem i +:+ ".pdf" in
  let entries := default [] (tmp_dirs w !! d) in
  p.1 = d /\ out_dir w' = out_dir w /\ tmp_dirs w' = tmp_dirs w /\
  ((is_Some (assoc expected entries) /\ p.2 = expected) \/
   (assoc expected entries = None /\
    first_match (PyStr.endswith ".pdf") (map fst entries) p.2)).
Proof.
  unfold locate_pdf. intros H.
  apply bind_Ok_inv in H as ([] & w1 & Hp & H). injection Hp as <-.
  apply bind_Ok_inv in H as (entries & w1 & He & H). injection He as <- <-.
  simpl in H. simpl.
  destruct (bool_decide (is_Some (assoc _ _))) eqn:Hd; simpl in H.
  - injection H as <- <-. apply bool_decide_eq_true in Hd. simpl.
    split; [reflexivity|]. split; [reflexivity|]. split; [reflexivity|]. left. auto.
  - apply bool_decide_eq_false in Hd.
    apply bind_Ok_inv in H as ([] & w1 & Hp & H). injection Hp as <-.
    destruct (filter _ _) as [|first rest] eqn:Hf.
    + apply bind_Ok_inv in H as ([] & w1 & _ & H). discriminate.
    + injection H as <- <-. simpl.
      split; [reflexivity|]. split; [reflexivity|]. split; [reflexivity|].
      right. split.
      * destruct (assoc _ _) eqn:Ha; [|reflexivity]. exfalso. apply Hd. eauto.
      * eapply filter_head_first_match, Hf.
Qed.

(** ** What a computation does to the output directory *)

Section Footprints.

Context (R : relation world) (writable : string -> Prop) `{!Footprint R writable}.

#[local] Existing Instance footprint_refl.
#[local] Existing Instance footprint_trans.

Lemma respects_ret {A} (a : A) : respects R (ret a).
Proof. intros w r w' [= <- <-]. reflexivity. Qed.

Lemma respects_raise {A} e : respects R (@raise A e).
Proof. intros w r w' [= <- <-]. reflexivity. Qed.

Lemma respects_lift {A} (x : result A) : respects R (lift x).
Proof. intros w r w' [= <- <-]. reflexivity. Qed.

Lemma respects_print line : respects R (print line).
Proof. intros w r w' [= <- <-]. apply footprint_print. Qed.

Lemma respects_write_out name f : writable name -> respects R (write_out name f).
Proof. intros Hn w r w' [= <- <-]. apply footprint_write, Hn. Qed.

Lemma respects_bind {A B} (c : M A) (k : A -> M B) :
  respects R c -> (forall a, respects R (k a)) -> respects R (bind c k).
Proof.
  intros Hc Hk w r w' H. apply bind_inv in H as [(a & w1 & H1 & H2)|(e & H1 & _)].
  - transitivity w1; [eapply Hc | eapply Hk]; eassumption.
  - eapply Hc; eassumption.
Qed.

Lemma respects_try_except {A} (c : M A) cls handler :
  respects R c -> (forall e, respects R (handler e)) ->
  respects R (try_except c cls handler).
Proof.
  intros Hc Hh w r w' H. unfold try_except in H.
  destruct (c w) as [[a|e] w1] eqn:Hcw.
  - injection H as <- <-. eapply Hc; eassumption.
  - destruct (String.eqb (exn_class e) cls).
    + transitivity w1; [eapply Hc | eapply Hh]; eassumption.
    + injection H as <- <-. eapply Hc; eassumption.
Qed.

Lemma respects_if {A} (b : bool) (c1 c2 : M A) :
  respects R c1 -> respects R c2 -> respects R (if b then c1 else c2).
Proof. destruct b; auto. Qed.

Lemma respects_save_jpeg name img q o :
  writable name -> respects R (save_jpeg name img q o).
Proof.
  intros Hn. unfold save_jpeg.
  apply respects_if; [apply respects_raise | apply respects_write_out, Hn].
Qed.

Lemma respects_for_each {A} (xs : list A) body :
  (forall x, In x xs -> respects R (body x)) -> respects R (for_each xs body).
Proof.
  induction xs as [|x rest IH]; intros Hb; simpl.
  - apply respects_ret.
  - apply respects_bind; [apply Hb; left; reflexivity|].
    intros _. apply IH. intros y Hy. apply Hb. right. exact Hy.
Qed.

Lemma respects_tmp_listing d : respects R (tmp_listing d).
Proof. intros w r w' [= <- <-]. reflexivity. Qed.

Lemma respects_with_TemporaryDirectory {A} (body : string -> M A) :
  (forall d, respects R (body d)) -> respects R (with_TemporaryDirectory body).
Proof.
  intros Hb w r w' H. unfold with_TemporaryDirectory in H.
  destruct (body _ _) as [r2 w2] eqn:Hbody. injection H as <- <-.
  apply Hb in Hbody.
  transitivity w2; [|apply footprint_tmp].
  etransitivity; [|exact Hbody]. apply footprint_tmp.
Qed.

End Footprints.

(** Applies the footprint lemmas along the structure of a computation. *)
Ltac footprint_bind := eapply respects_bind; [apply _ | | intros].

Ltac footprint :=
  repeat first
    [ eapply respects_ret; apply _
    | eapply respects_raise; apply _
    | eapply respects_lift; apply _
    | eapply respects_print; apply _
    | eapply respects_tmp_listing; apply _
    | footprint_bind
    | eapply respects_try_except; [apply _ | | intros]
    | apply respects_if
    | match goal with
      | |- respects _ (match ?x with _ => _ end) => destruct x
      end ].

Section FootprintScript.

Context (E : env) (R : relation world) (writable : string -> Prop)
  `{!Footprint R writable}.

#[local] Existing Instance footprint_refl.
#[local] Existing Instance footprint_trans.

Lemma respects_fitz_open p : respects R (fitz_open p).
Proof. unfold fitz_open. footprint. Qed.

Lemma respects_run_converter cmd d : respects R (run_converter E cmd d).
Proof.
  intros w r w' H. unfold run_converter in H.
  destruct (subprocess_run E cmd); injection H as <- <-;
    [apply footprint_tmp | apply footprint_tmp | reflexivity].
Qed.

Lemma respects_locate_pdf d i : respects R (locate_pdf d i).
Proof. unfold locate_pdf. footprint. Qed.

Lemma respects_Image_open name : respects R (Image_open E name).
Proof.
  intros w r w' H. unfold Image_open in H.
  destruct (out_dir w !! name) as [[| | |]|]; injection H as <- <-; reflexivity.
Qed.

Lemma respects_extract_text_from_pptx i : respects R (extract_text_from_pptx E i).
Proof. unfold extract_text_from_pptx. footprint. Qed.

Lemma respects_choose_method m : respects R (choose_method E m).
Proof. unfold choose_method. footprint. Qed.

Lemma respects_print_header args m : respects R (print_header args m).
Proof. unfold print_header. footprint. Qed.

Lemma respects_create_metadata o i n recs :
  writable "metadata.json" -> respects R (create_metadata E o i n recs).
Proof.
  intros Hm. unfold create_metadata.
  eapply respects_bind; [apply _ | eapply respects_write_out; [apply _ | exact Hm] | intros; footprint].
Qed.

Lemma respects_make_thumbnail tw f :
  writable (thumb_filename f) -> respects R (make_thumbnail E tw f).
Proof.
  intros Hf. unfold make_thumbnail.
  eapply respects_bind; [apply _ | apply respects_Image_open | intros].
  do 2 (eapply respects_bind; [apply _ | footprint | intros]).
  eapply respects_save_jpeg; [apply _ | exact Hf].
Qed.

(** The files of the pages *)
Hypothesis writable_slides : forall n, writable (slide_filename n).

Lemma respects_render_pages width height total pages :
  forall page_num slide_count,
    respects R (render_pages E width height total pages page_num slide_count).
Proof.
  induction pages as [|p rest IH]; intros; simpl.
  - footprint.
  - eapply respects_bind; [apply _ | |intros; apply IH].
    unfold render_page, PIL_Image.
    do 2 (eapply respects_bind; [apply _ | footprint | intros]).
    eapply respects_bind; [apply _ | footprint | intros].
    eapply respects_bind; [apply _ | footprint | intros].
    eapply respects_bind; [apply _ | eapply respects_save_jpeg; [apply _ | apply writable_slides] | intros].
    footprint.
Qed.

Lemma respects_convert_pdf_to_images p o width height :
  respects R (convert_pdf_to_images E p o width height).
Proof.
  unfold convert_pdf_to_images. apply respects_if; [footprint|].
  eapply respects_bind; [apply _ | apply respects_fitz_open | intros].
  apply respects_render_pages.
Qed.

Lemma respects_placeholder_pages width height total prs_slides :
  forall idx, respects R (placeholder_pages E width height total prs_slides idx).
Proof.
  induction prs_slides as [|s rest IH]; intros; simpl.
  - footprint.
  - eapply respects_bind; [apply _ | |intros; apply IH].
    unfold placeholder_page, PIL_Image.
    do 2 (eapply respects_bind; [apply _ | footprint | intros]).
    eapply respects_bind; [apply _ | eapply respects_save_jpeg; [apply _ | apply writable_slides] | intros].
    footprint.
Qed.

Lemma respects_convert_with_pptx_direct i o width height :
  respects R (convert_with_pptx_direct E i o width height).
Proof.
  unfold convert_with_pptx_direct. apply respects_if; [footprint|].
  do 3 (eapply respects_bind; [apply _ | footprint | intros]).
  eapply respects_bind; [apply _ | apply respects_placeholder_pages | intros; footprint].
Qed.

Lemma respects_convert_with_libreoffice i o width height :
  respects R (convert_with_libreoffice E i o width height).
Proof.
  unfold convert_with_libreoffice. apply respects_if; [footprint|].
  eapply respects_with_TemporaryDirectory; [apply _|]. intros d.
  do 2 (eapply respects_bind; [apply _ | footprint | intros]).
  eapply respects_bind; [apply _ | | intros].
  - eapply respects_try_except; [apply _ | | intros; footprint].
    eapply respects_bind; [apply _ | apply respects_run_converter | intros [[rc out] err]].
    footprint.
  - eapply respects_bind; [apply _ | apply respects_locate_pdf | intros].
    eapply respects_bind; [apply _ | footprint | intros].
    apply respects_convert_pdf_to_images.
Qed.

Lemma respects_conversion_step args m : respects R (conversion_step E args m).
Proof.
  unfold conversion_step.
  apply respects_if;
    [apply respects_convert_with_libreoffice | apply respects_convert_with_pptx_direct].
Qed.

(** The files of the thumbnails *)
Hypothesis writable_thumbs : forall f, is_full_size f = true -> writable (thumb_filename f).

Lemma respects_generate_thumbnails o tw : respects R (generate_thumbnails E o tw).
Proof.
  unfold generate_thumbnails.
  eapply respects_bind; [apply _ | footprint | intros _].
  intros w r w' H. revert H. eapply respects_for_each; [apply _|].
  intros f Hf. apply respects_make_thumbnail, writable_thumbs.
  apply list_elem_of_In, elem_of_full_size_slides in Hf. tauto.
Qed.

Lemma respects_thumbnails_step args : respects R (thumbnails_step E args).
Proof.
  unfold thumbnails_step.
  apply respects_if; [apply respects_generate_thumbnails | footprint].
Qed.


Hypothesis writable_metadata : writable "metadata.json".

Lemma respects_run_conversion args m : respects R (run_conversion E args m).
Proof.
  unfold run_conversion.
  eapply respects_bind; [apply _ | apply respects_conversion_step | intros].
  eapply respects_bind; [apply _ | footprint | intros].
  eapply respects_bind; [apply _ | apply respects_thumbnails_step | intros].
  eapply respects_bind; [apply _ | apply respects_extract_text_from_pptx | intros].
  eapply respects_bind; [apply _ | apply respects_create_metadata, writable_metadata | intros].
  footprint.
Qed.

Lemma main_respects args w : R w (main E args w).2.
Proof.
  unfold main. destruct (negb (os_path_exists E (arg_input args))).
  - simpl. apply footprint_print.
  - cbv zeta.
    match goal with
    | |- context [match ?c w with _ => _ end] => destruct (c w) as [[m|e] w1] eqn:Hpro
    end.
    + assert (R w w1).
      { revert Hpro. eapply respects_bind; [apply _ | apply respects_choose_method|].
        intros m'. eapply respects_bind; [apply _ | apply respects_print_header | intros].
        footprint. }
      destruct (run_conversion E args m w1) as [[[]|e] w2] eqn:Hrun;
        apply respects_run_conversion in Hrun; simpl.
      * etransitivity; eassumption.
      * transitivity w2; [etransitivity; eassumption | apply footprint_print].
    + simpl. revert Hpro. eapply respects_bind; [apply _ | apply respects_choose_method|].
      intros m'. eapply respects_bind; [apply _ | apply respects_print_header | intros].
      footprint.
Qed.

End FootprintScript.

#[global] Instance same_entry_footprint name :
  Footprint (same_entry name) (fun n => n <> name).
Proof.
  split; unfold same_entry.
  - intros w. reflexivity.
  - intros w1 w2 w3 H12 H23. congruence.
  - reflexivity.
  - reflexivity.
  - intros w n f Hn. simpl. apply lookup_insert_ne, Hn.
Qed.

#[global] Instance stdout_grows_footprint : Footprint stdout_grows (fun _ => True).
Proof.
  split; unfold stdout_grows.
  - intros w. reflexivity.
  - intros w1 w2 w3 H12 H23. etransitivity; eassumption.
  - intros w line. simpl. apply prefix_app_r. reflexivity.
  - reflexivity.
  - reflexivity.
Qed.

(** ** C1: every full-size image has the target size *)

Lemma center_on_canvas_fitted pix width height img :
  center_on_canvas pix width height = Ok img -> fitted_on_black pix img width height.
Proof.
  intros H. unfold fitted_on_black.
  destruct (center_on_canvas_size _ _ _ _ H) as [Hw Hh].
  split; [exact Hw|]. split; [exact Hh|].
  destruct (Z.eq_dec (Image.width pix) width) as [Hpw|Hpw];
    [destruct (Z.eq_dec (Image.height pix) height) as [Hph|Hph]|].
  - left. rewrite (center_on_canvas_same _ _ _ Hpw Hph) in H. injection H as <-. auto.
  - right. split; [auto|]. intros i j.
    apply (center_on_canvas_pixels pix width height img); auto.
  - right. split; [auto|]. intros i j.
    apply (center_on_canvas_pixels pix width height img); auto.
Qed.

Section AnyOutcome.

Variable E : env.

Lemma save_jpeg_any name img q o w r w' :
  save_jpeg name img q o w = (r, w') ->
  (w' = w /\ exists e, r = Raise e) \/
  (r = Ok tt /\
   w' = World (<[name := JpegFile img q o]> (out_dir w)) (tmp_dirs w) (stdout w)).
Proof.
  unfold save_jpeg. destruct ((Image.width img =? 0) || (Image.height img =? 0)).
  - intros [= <- <-]. left. eauto.
  - intros [= <- <-]. right. auto.
Qed.

(** A page that is not saved leaves the world as it is; a page that is
    saved may still fail at its progress line. *)
Lemma render_page_any width height total page_num p w r w' :
  render_page E width height total page_num p w = (r, w') ->
  (w' = w /\ exists e, r = Raise e) \/
  (exists zoom pix img,
     fit_zoom width height p = Ok zoom /\
     get_pixmap E p zoom = Ok pix /\
     center_on_canvas pix width height = Ok img /\
     out_dir w' = <[slide_filename (page_num + 1) := JpegFile img 92 true]> (out_dir w) /\
     tmp_dirs w' = tmp_dirs w).
Proof.
  unfold render_page. intros H.
  apply bind_inv in H as [(zoom & w1 & Hz & H)|(e & Hz & ->)];
    [|apply lift_inv in Hz as [_ ->]; left; eauto].
  apply lift_inv in Hz as [Hz ->].
  apply bind_inv in H as [(pix & w1 & Hp & H)|(e & Hp & ->)];
    [|apply lift_inv in Hp as [_ ->]; left; eauto].
  apply lift_inv in Hp as [Hp ->].
  apply bind_inv in H as [([] & w1 & Hpil & H)|(e & Hpil & ->)].
  2:{ unfold PIL_Image in Hpil. destruct (PIL_AVAILABLE E); [discriminate|].
      injection Hpil as _ <-. left. eauto. }
  apply PIL_Image_Ok in Hpil as [_ ->].
  apply bind_inv in H as [(img & w1 & Hi & H)|(e & Hi & ->)];
    [|apply lift_inv in Hi as [_ ->]; left; eauto].
  apply lift_inv in Hi as [Hi ->].
  apply bind_inv in H as [([] & w1 & Hs & H)|(e & Hs & ->)].
  2:{ apply save_jpeg_any in Hs as [[-> _]|[Hs _]]; [left; eauto|discriminate]. }
  apply save_jpeg_Ok in Hs as ->.
  right. exists zoom, pix, img.
  split; [exact Hz|]. split; [exact Hp|]. split; [exact Hi|].
  apply bind_inv in H as [(progress & w2 & Hg & H)|(e & Hg & ->)].
  - apply lift_inv in Hg as [_ ->]. injection H as _ <-. simpl. auto.
  - apply lift_inv in Hg as [_ ->]. simpl. auto.
Qed.

Lemma render_pages_any width height total pages :
  forall page_num slide_count w r w',
    0 <= page_num ->
    render_pages E width height total pages page_num slide_count w = (r, w') ->
    exists done : nat,
      (done <= length pages)%nat /\
      (forall n, r = Ok n ->
                 done = length pages /\ n = slide_count + Z.of_nat (length pages)) /\
      (forall k : nat, (k < done)%nat ->
         exists p zoom pix img,
           pages !! k = Some p /\
           fit_zoom width height p = Ok zoom /\
           get_pixmap E p zoom = Ok pix /\
           center_on_canvas pix width height = Ok img /\
           out_dir w' !! slide_filename (page_num + Z.of_nat k + 1)
             = Some (JpegFile img 92 true)) /\
      (forall name,
         (forall k : nat, (k < done)%nat ->
                          name <> slide_filename (page_num + Z.of_nat k + 1)) ->
         out_dir w' !! name = out_dir w !! name).
Proof.
  induction pages as [|p rest IH]; intros page_num slide_count w r w' Hpn H.
  - simpl in H. injection H as <- <-. exists 0%nat.
    split; [reflexivity|]. split; [intros n [= <-]; simpl; split; [reflexivity|lia]|].
    split; [intros k Hk; lia|]. reflexivity.
  - simpl in H. apply bind_inv in H as [([] & w1 & Hpage & H)|(e & Hpage & ->)].
    + apply render_page_any in Hpage as [[_ [e He]]|Hsaved]; [discriminate|].
      destruct Hsaved as (zoom & pix & img & Hz & Hp & Hi & Hout & _).
      apply IH in H as (done & Hle & Hok & Hfiles & Hframe); [|lia].
      exists (S done). split; [simpl; lia|]. split; [|split].
      * intros n Hn. destruct (Hok n Hn) as [-> ->]. simpl length. split; [reflexivity|lia].
      * intros [|k] Hk.
        -- exists p, zoom, pix, img. repeat split; try assumption.
           rewrite Hframe, Hout.
           ++ replace (page_num + Z.of_nat 0 + 1) with (page_num + 1) by lia.
              apply lookup_insert_eq.
           ++ intros k _ Heq. apply slide_filename_inj in Heq; lia.
        -- destruct (Hfiles k) as (q & z' & px' & im' & ? & ? & ? & ? & Hl); [lia|].
           exists q, z', px', im'. repeat split; try assumption.
           rewrite <- Hl. f_equal. f_equal. lia.
      * intros name Hname. rewrite Hframe, Hout.
        -- apply lookup_insert_ne. intros Heq. apply (Hname 0%nat); [lia|].
           rewrite <- Heq. f_equal. lia.
        -- intros k Hk Heq. apply (Hname (S k)); [lia|]. rewrite Heq. f_equal. lia.
    + apply render_page_any in Hpage as [[-> _]|Hsaved].
      * exists 0%nat. split; [simpl; lia|]. split; [discriminate|].
        split; [intros k Hk; lia|]. reflexivity.
      * destruct Hsaved as (zoom & pix & img & Hz & Hp & Hi & Hout & _).
        exists 1%nat. split; [simpl; lia|]. split; [discriminate|]. split.
        -- intros k Hk. assert (k = 0%nat) as -> by lia.
           exists p, zoom, pix, img. repeat split; try assumption.
           rewrite Hout. replace (page_num + Z.of_nat 0 + 1) with (page_num + 1) by lia.
           apply lookup_insert_eq.
        -- intros name Hname. rewrite Hout. apply lookup_insert_ne.
           intros Heq. apply (Hname 0%nat); [lia|]. rewrite <- Heq. f_equal. lia.
Qed.

Lemma fitz_open_any pdf_path w r w' : fitz_open pdf_path w = (r, w') -> w' = w.
Proof.
  unfold fitz_open, bind, tmp_listing.
  destruct (assoc _ _) as [[| | |]|]; unfold ret, raise; intros [= _ <-]; reflexivity.
Qed.

Lemma convert_pdf_to_images_any pdf_path output_dir width height w r w' :
  convert_pdf_to_images E pdf_path output_dir width height w = (r, w') ->
  exists done : nat,
    (forall n, r = Ok n -> n = Z.of_nat done) /\
    (forall k : nat, (k < done)%nat ->
       exists doc p zoom pix img,
         assoc pdf_path.2 (default [] (tmp_dirs w !! pdf_path.1)) = Some (PdfFile doc) /\
         doc !! k = Some p /\
         fit_zoom width height p = Ok zoom /\
         get_pixmap E p zoom = Ok pix /\
         center_on_canvas pix width height = Ok img /\
         out_dir w' !! slide_filename (Z.of_nat k + 1) = Some (JpegFile img 92 true)) /\
    (forall name,
       (forall k : nat, (k < done)%nat -> name <> slide_filename (Z.of_nat k + 1)) ->
       out_dir w' !! name = out_dir w !! name).
Proof.
  unfold convert_pdf_to_images. destruct (negb (PYMUPDF_AVAILABLE E)).
  { intros [= <- <-]. exists 0%nat. split; [discriminate|].
    split; [intros k Hk; lia|]. reflexivity. }
  intros H. apply bind_inv in H as [(doc & w1 & Hopen & H)|(e & Hopen & ->)].
  - apply fitz_open_Ok in Hopen as [-> Hdoc].
    apply render_pages_any in H as (done & _ & Hok & Hfiles & Hframe); [|lia].
    exists done. split; [|split].
    + intros n Hn. destruct (Hok n Hn) as [-> ->]. lia.
    + intros k Hk. destruct (Hfiles k Hk) as (p & zoom & pix & img & ? & ? & ? & ? & Hl).
      exists doc, p, zoom, pix, img. repeat split; assumption.
    + exact Hframe.
  - apply fitz_open_any in Hopen as ->. exists 0%nat. split; [discriminate|].
    split; [intros k Hk; lia|]. reflexivity.
Qed.

End AnyOutcome.

#[global] Instance same_files_footprint : Footprint same_files (fun _ => False).
Proof.
  split; unfold same_files.
  - intros w. reflexivity.
  - intros w1 w2 w3 H12 H23. congruence.
  - reflexivity.
  - reflexivity.
  - intros w n f [].
Qed.

Section AnyOutcomeOfThePaths.

Variable E : env.

(** The steps of the LibreOffice path that come before the rendering write
    no file. *)
Lemma respects_run_soffice soffice temp_dir input_path :
  respects same_files
    (try_except
       ( res <- run_converter E (soffice_cmd soffice temp_dir input_path) temp_dir ;;
         let '(returncode, out, err) := res in
         print ("LibreOffice stdout: " +:+ out) ;;;
         (if negb (String.eqb err "")
          then print ("LibreOffice stderr: " +:+ err) else ret tt) ;;;
         if negb (returncode =? 0)
         then
           let error_msg :=
             PyStr.or_else err
               (PyStr.or_else out
                  ("Unknown error (exit code: " +:+ PyStr.str_of_Z returncode +:+ ")")) in
           raise (RuntimeError ("LibreOffice conversion failed: " +:+ error_msg))
         else ret tt )
       "TimeoutExpired"
       (fun _ => raise (RuntimeError "LibreOffice conversion timed out after 5 minutes"))).
Proof.
  eapply respects_try_except; [apply _ | | intros; footprint].
  eapply respects_bind; [apply _ | apply (respects_run_converter E same_files (fun _ => False)) | intros [[rc out] err]].
  footprint.
Qed.

Lemma convert_with_libreoffice_any i o width height w r w' :
  convert_with_libreoffice E i o width height w = (r, w') ->
  (out_dir w' = out_dir w /\ exists e, r = Raise e) \/
  (exists soffice out err written name w1 w2,
     find_libreoffice E = Some soffice /\
     subprocess_run E (soffice_cmd soffice (mkdtemp w) i) = Completed 0 out err written /\
     ((is_Some (assoc (PyStr.stem i +:+ ".pdf") written) /\ name = PyStr.stem i +:+ ".pdf") \/
      (assoc (PyStr.stem i +:+ ".pdf") written = None /\
       first_match (PyStr.endswith ".pdf") (map fst written) name)) /\
     out_dir w1 = out_dir w /\
     tmp_dirs w1 !! mkdtemp w = Some written /\
     convert_pdf_to_images E (mkdtemp w, name) o width height w1 = (r, w2) /\
     out_dir w' = out_dir w2).
Proof.
  unfold convert_with_libreoffice.
  destruct (find_libreoffice E) as [soffice|] eqn:Hf;
    [|intros [= <- <-]; left; eauto].
  simpl. destruct (String.eqb soffice ""); [intros [= <- <-]; left; eauto|]. simpl.
  unfold with_TemporaryDirectory.
  match goal with |- context [let '(_, _) := ?b in _] => destruct b as [r2 w2] eqn:Hbody end.
  intros [= -> <-]. simpl.
  apply bind_inv in Hbody as [([] & wa & Hp & Hbody)|(e & Hp & _)]; [|discriminate].
  injection Hp as <-.
  apply bind_inv in Hbody as [([] & wb & Hp & Hbody)|(e & Hp & _)]; [|discriminate].
  injection Hp as <-.
  apply bind_inv in Hbody as [([] & wc & Htry & Hbody)|(e & Htry & ->)].
  2:{ apply respects_run_soffice in Htry. left. split; [exact Htry|eauto]. }
  pose proof Htry as Hc. apply respects_run_soffice in Hc. simpl in Hc.
  unfold try_except in Htry.
  match type of Htry with
  | match ?c ?x with _ => _ end = _ => destruct (c x) as [[[]|e] wd] eqn:Hrun
  end; [|destruct (String.eqb (exn_class e) "TimeoutExpired"); discriminate].
  injection Htry as <-.
  apply bind_Ok_inv in Hrun as ([[rc out] err] & we & Hproc & Hrun).
  unfold run_converter in Hproc. simpl in Hproc.
  destruct (subprocess_run E _) as [rc' out' err' written| |] eqn:Hsub; try discriminate.
  injection Hproc as -> -> -> <-.
  apply bind_Ok_inv in Hrun as ([] & wf & Hp & Hrun). injection Hp as <-.
  apply bind_Ok_inv in Hrun as ([] & wg & Herr & Hrun).
  destruct (rc =? 0) eqn:Hrc; [|discriminate]. apply Z.eqb_eq in Hrc. subst rc.
  simpl in Hrun. injection Hrun as <-.
  assert (Hgt : tmp_dirs wg = <[mkdtemp w := written]> (tmp_dirs w)).
  { destruct (negb (String.eqb err "")); injection Herr as <-; simpl;
      rewrite lookup_insert_eq; simpl; apply insert_insert_eq. }
  apply bind_inv in Hbody as [(pdf_path & wh & Hloc & Hbody)|(e & Hloc & ->)].
  2:{ apply (respects_locate_pdf same_files (fun _ => False)) in Hloc.
      left. split; [unfold same_files in *; simpl in *; congruence|eauto]. }
  pose proof Hloc as Hlo. apply (respects_locate_pdf same_files (fun _ => False)) in Hlo.
  apply locate_pdf_Ok in Hloc as (Hp1 & _ & Hht & Hsel).
  rewrite Hgt, lookup_insert_eq in Hsel. simpl in Hsel.
  destruct pdf_path as [d name]. simpl in Hp1, Hsel. subst d.
  apply bind_inv in Hbody as [([] & wi & Hp & Hbody)|(e & Hp & _)]; [|discriminate].
  injection Hp as <-.
  right. exists soffice, out, err, written, name. eexists. exists w2.
  split; [reflexivity|]. split; [exact Hsub|]. split; [exact Hsel|].
  split; [|split; [|split; [exact Hbody|reflexivity]]]; simpl.
  - unfold same_files in *. simpl in *. congruence.
  - rewrite Hht, Hgt. apply lookup_insert_eq.
Qed.

Lemma placeholder_page_any width height total idx w r w' :
  placeholder_page E width height total idx w = (r, w') ->
  (w' = w /\ exists e, r = Raise e) \/
  (exists img,
     Image.new width height (0, 0, 32) = Ok img /\
     out_dir w' = <[slide_filename (idx + 1) := JpegFile img 92 false]> (out_dir w)).
Proof.
  unfold placeholder_page. intros H.
  apply bind_inv in H as [([] & w1 & Hpil & H)|(e & Hpil & ->)].
  2:{ unfold PIL_Image in Hpil. destruct (PIL_AVAILABLE E); [discriminate|].
      injection Hpil as _ <-. left. eauto. }
  apply PIL_Image_Ok in Hpil as [_ ->].
  apply bind_inv in H as [(img & w1 & Hi & H)|(e & Hi & ->)];
    [|apply lift_inv in Hi as [_ ->]; left; eauto].
  apply lift_inv in Hi as [Hi ->].
  apply bind_inv in H as [([] & w1 & Hs & H)|(e & Hs & ->)].
  2:{ apply save_jpeg_any in Hs as [[-> _]|[Hs _]]; [left; eauto|discriminate]. }
  apply save_jpeg_Ok in Hs as ->.
  right. exists img. split; [exact Hi|].
  apply bind_inv in H as [(progress & w2 & Hg & H)|(e & Hg & ->)].
  - apply lift_inv in Hg as [_ ->]. injection H as _ <-. reflexivity.
  - apply lift_inv in Hg as [_ ->]. reflexivity.
Qed.

Lemma placeholder_pages_any width height total prs_slides :
  forall idx w r w',
    0 <= idx ->
    placeholder_pages E width height total prs_slides idx w = (r, w') ->
    exists done : nat,
      (done <= length prs_slides)%nat /\
      (r = Ok tt -> done = length prs_slides) /\
      (forall k : nat, (k < done)%nat ->
         exists img,
           Image.new width height (0, 0, 32) = Ok img /\
           out_dir w' !! slide_filename (idx + Z.of_nat k + 1)
             = Some (JpegFile img 92 false)) /\
      (forall name,
         (forall k : nat, (k < done)%nat ->
                          name <> slide_filename (idx + Z.of_nat k + 1)) ->
         out_dir w' !! name = out_dir w !! name).
Proof.
  induction prs_slides as [|s rest IH]; intros idx w r w' Hidx H.
  - simpl in H. injection H as <- <-. exists 0%nat.
    split; [reflexivity|]. split; [reflexivity|].
    split; [intros k Hk; lia|]. reflexivity.
  - simpl in H. apply bind_inv in H as [([] & w1 & Hpage & H)|(e & Hpage & ->)].
    + apply placeholder_page_any in Hpage as [[_ [e He]]|(img & Hi & Hout)]; [discriminate|].
      apply IH in H as (done & Hle & Hok & Hfiles & Hframe); [|lia].
      exists (S done). split; [simpl; lia|]. split; [|split].
      * intros Hr. rewrite (Hok Hr). reflexivity.
      * intros [|k] Hk.
        -- exists img. split; [exact Hi|]. rewrite Hframe, Hout.
           ++ replace (idx + Z.of_nat 0 + 1) with (idx + 1) by lia.
              apply lookup_insert_eq.
           ++ intros k _ Heq. apply slide_filename_inj in Heq; lia.
        -- destruct (Hfiles k) as (im' & ? & Hl); [lia|].
           exists im'. split; [assumption|]. rewrite <- Hl. f_equal. f_equal. lia.
      * intros name Hname. rewrite Hframe, Hout.
        -- apply lookup_insert_ne. intros Heq. apply (Hname 0%nat); [lia|].
           rewrite <- Heq. f_equal. lia.
        -- intros k Hk Heq. apply (Hname (S k)); [lia|]. rewrite Heq. f_equal. lia.
    + apply placeholder_page_any in Hpage as [[-> _]|(img & Hi & Hout)].
      * exists 0%nat. split; [simpl; lia|]. split; [discriminate|].
        split; [intros k Hk; lia|]. reflexivity.
      * exists 1%nat. split; [simpl; lia|]. split; [discriminate|]. split.
        -- intros k Hk. assert (k = 0%nat) as -> by lia.
           exists img. split; [exact Hi|].
           rewrite Hout. replace (idx + Z.of_nat 0 + 1) with (idx + 1) by lia.
           apply lookup_insert_eq.
        -- intros name Hname. rewrite Hout. apply lookup_insert_ne.
           intros Heq. apply (Hname 0%nat); [lia|]. rewrite <- Heq. f_equal. lia.
Qed.

Lemma convert_with_pptx_direct_any i o width height w r w' :
  convert_with_pptx_direct E i o width height w = (r, w') ->
  exists done : nat,
    (forall n, r = Ok n -> n = Z.of_nat done) /\
    (forall k : nat, (k < done)%nat ->
       exists img,
         Image.new width height (0, 0, 32) = Ok img /\
         out_dir w' !! slide_filename (Z.of_nat k + 1) = Some (JpegFile img 92 false)) /\
    (forall name,
       (forall k : nat, (k < done)%nat -> name <> slide_filename (Z.of_nat k + 1)) ->
       out_dir w' !! name = out_dir w !! name).
Proof.
  unfold convert_with_pptx_direct. destruct (negb (PPTX_AVAILABLE E)).
  { intros [= <- <-]. exists 0%nat. split; [discriminate|].
    split; [intros k Hk; lia|]. reflexivity. }
  intros H. apply bind_inv in H as [(prs & w1 & Hp & H)|(e & Hp & ->)].
  2:{ apply lift_inv in Hp as [_ ->]. exists 0%nat. split; [discriminate|].
      split; [intros k Hk; lia|]. reflexivity. }
  apply lift_inv in Hp as [Hp ->].
  apply bind_inv in H as [([] & w1 & Hp1 & H)|(e & Hp1 & _)]; [|discriminate].
  injection Hp1 as <-.
  apply bind_inv in H as [([] & w2 & Hp2 & H)|(e & Hp2 & _)]; [|discriminate].
  injection Hp2 as <-.
  apply bind_inv in H as [([] & w3 & Hloop & H)|(e & Hloop & ->)].
  - injection H as <- <-.
    apply placeholder_pages_any in Hloop as (done & _ & Hok & Hfiles & Hframe); [|lia].
    exists done. split; [|split].
    + intros n [= <-]. rewrite (Hok eq_refl). reflexivity.
    + exact Hfiles.
    + exact Hframe.
  - apply placeholder_pages_any in Hloop as (done & _ & _ & Hfiles & Hframe); [|lia].
    exists done. split; [discriminate|]. split; [exact Hfiles | exact Hframe].
Qed.

End AnyOutcomeOfThePaths.

(** C1.  Whatever the outcome of a conversion, by LibreOffice or direct,
    returned or stopped by an exception after some pages, the files that it
    has written are those of the pages 1 to [done], every other entry of the
    output directory is what it was, and a conversion that returns [n] has
    written all [n] pages.  The file of every page written holds an image of
    exactly the target size.  On the LibreOffice path it is the image of the
    k-th page of the PDF that the process produced, rasterized at the zoom of
    the fitter: the buffer itself when it has the target size, and otherwise
    an image that shows the buffer in the box at the centring offsets and is
    black, (0, 0, 0), at every other pixel.  On the direct path it is filled
    with (0, 0, 32). *)
Theorem full_size_images_have_target_size
    E input_path output_dir width height w r w' :
  convert_with_libreoffice E input_path output_dir width height w = (r, w') \/
  convert_with_pptx_direct E input_path output_dir width height w = (r, w') ->
  exists done : nat,
    (forall n, r = Ok n -> n = Z.of_nat done) /\
    (forall k, 1 <= k <= Z.of_nat done ->
       exists img quality optimize,
         out_dir w' !! slide_filename k = Some (JpegFile img quality optimize) /\
         Image.width img = width /\ Image.height img = height /\
         ((optimize = true /\
           exists doc p zoom pix,
             produced_pdf E input_path w doc /\
             doc !! Z.to_nat (k - 1) = Some p /\
             fit_zoom width height p = Ok zoom /\
             get_pixmap E p zoom = Ok pix /\
             fitted_on_black pix img width height) \/
          (optimize = false /\
           forall i j, Image.getpixel img i j = (0, 0, 32)))) /\
    (forall name,
       (forall k, 1 <= k <= Z.of_nat done -> name <> slide_filename k) ->
       out_dir w' !! name = out_dir w !! name).
Proof.
  intros [H|H].
  - apply convert_with_libreoffice_any in H
      as [[Hout [e ->]]|(soffice & out & err & written & name & w1 & w2
                         & Hf & Hsub & Hsel & Ho1 & Ht1 & Hconv & Ho2)].
    { exists 0%nat. split; [discriminate|]. split; [intros k Hk; lia|].
      intros other _. rewrite Hout. reflexivity. }
    apply convert_pdf_to_images_any in Hconv as (done & Hok & Hfiles & Hframe).
    exists done. split; [exact Hok|]. split.
    + intros k Hk. destruct (Hfiles (Z.to_nat (k - 1))) as
        (doc & p & zoom & pix & img & Hdoc & Hp & Hz & Hpix & Hc & Hl); [lia|].
      replace (Z.of_nat (Z.to_nat (k - 1)) + 1) with k in Hl by lia.
      simpl in Hdoc. rewrite Ht1 in Hdoc. simpl in Hdoc.
      pose proof (center_on_canvas_fitted _ _ _ _ Hc) as Hfit.
      exists img, 92, true. rewrite Ho2. split; [exact Hl|].
      split; [apply Hfit|]. split; [apply Hfit|].
      left. split; [reflexivity|]. exists doc, p, zoom, pix.
      split; [exists soffice, out, err, written, name; auto|]. auto.
    + intros other Hname. rewrite Ho2, <- Ho1. apply Hframe.
      intros k Hk. apply Hname. lia.
  - apply convert_with_pptx_direct_any in H as (done & Hok & Hfiles & Hframe).
    exists done. split; [exact Hok|]. split.
    + intros k Hk. destruct (Hfiles (Z.to_nat (k - 1))) as (img & Hnew & Hl); [lia|].
      replace (Z.of_nat (Z.to_nat (k - 1)) + 1) with k in Hl by lia.
      apply Image_new_Ok in Hnew as (Hw & Hh & Hfill).
      exists img, 92, false. split; [exact Hl|]. split; [exact Hw|]. split; [exact Hh|].
      right. split; [reflexivity | exact Hfill].
    + intros name Hname. apply Hframe. intros k Hk. apply Hname. lia.
Qed.

(** A run that stops at its second page, which has no height: the first
    page has been written, with the target size. *)
Lemma full_size_images_have_target_size_witness :
  (convert_with_libreoffice flat_page_env "/decks/deck.pptx" "cache" 1920 1080
     demo_world).1 = Raise (ZeroDivisionError "float division by zero") /\
  exists img quality optimize,
    out_dir (convert_with_libreoffice flat_page_env "/decks/deck.pptx" "cache" 1920 1080
               demo_world).2 !! slide_filename 1
      = Some (JpegFile img quality optimize) /\
    Image.width img = 1920 /\ Image.height img = 1080.
Proof.
  split; [vm_compute; reflexivity|].
  destruct (full_size_images_have_target_size flat_page_env "/decks/deck.pptx" "cache"
              1920 1080 demo_world
              (Raise (ZeroDivisionError "float division by zero"))
              (convert_with_libreoffice flat_page_env "/decks/deck.pptx" "cache" 1920 1080
                 demo_world).2)
    as (done & _ & Hfiles & Hframe).
  - left. apply injective_projections; [vm_compute; reflexivity | reflexivity].
  - destruct done as [|done].
    + exfalso.
      assert (Hnew : is_Some
                (out_dir (convert_with_libreoffice flat_page_env "/decks/deck.pptx" "cache"
                            1920 1080 demo_world).2 !! slide_filename 1))
        by (vm_compute; eauto).
      rewrite Hframe in Hnew by (intros k Hk; simpl in Hk; lia).
      destruct Hnew as [f Hf]. simpl in Hf. rewrite lookup_empty in Hf. discriminate.
    + destruct (Hfiles 1) as (img & q & o & Hl & Hw & Hh & _); [lia|].
      exists img, q, o. auto.
Defined.

(** ** C2: the fitter *)

Lemma fit_zoom_Ok width height p fw fh :
  PyNum.float_of_Z width = Ok fw ->
  PyNum.float_of_Z height = Ok fh ->
  is_zero (rect_width p) = false ->
  is_zero (rect_height p) = false ->
  fit_zoom width height p
    = Ok (PyNum.min (fw / rect_width p)%float (fh / rect_height p)%float).
Proof.
  intros Hw Hh Hzw Hzh. unfold fit_zoom, PyNum.truediv_int_float.
  rewrite Hw, Hh. simpl. rewrite Hzw, Hzh. reflexivity.
Qed.

(** ** Binary64 division, on the mantissas *)

Lemma digits2_pos_size (m : positive) : digits2_pos m = Pos.size m.
Proof. induction m; simpl; congruence. Qed.

Lemma digits2_pos_bounds (m : positive) :
  2 ^ (Z.pos (digits2_pos m) - 1) <= Z.pos m < 2 ^ Z.pos (digits2_pos m).
Proof.
  rewrite digits2_pos_size.
  pose proof (Pos.size_gt m) as Hgt. pose proof (Pos.size_le m) as Hle.
  apply Pos2Z.pos_lt_pos in Hgt. apply Pos2Z.pos_le_pos in Hle.
  rewrite Pos2Z.inj_pow in Hgt, Hle. change (Z.pos m~0) with (2 * Z.pos m) in Hle.
  replace (Z.pos (Pos.size m)) with (Z.succ (Z.pos (Pos.size m) - 1)) in Hle by lia.
  rewrite Z.pow_succ_r in Hle by lia. lia.
Qed.

Lemma digits2_pos_unique (m : positive) (d : Z) :
  2 ^ (d - 1) <= Z.pos m < 2 ^ d -> Z.pos (digits2_pos m) = d.
Proof.
  intros [Hlo Hhi]. pose proof (digits2_pos_bounds m) as [Hlo' Hhi'].
  assert (0 < d).
  { destruct (Z.ltb_spec 0 d); [assumption|].
    destruct (Z.eqb_spec d 0) as [->|]; [simpl in Hhi; lia|].
    rewrite Z.pow_neg_r in Hhi by lia. lia. }
  destruct (Z.lt_trichotomy (Z.pos (digits2_pos m)) d) as [Hlt|[Heq|Hgt]].
  - pose proof (Z.pow_le_mono_r 2 (Z.pos (digits2_pos m)) (d - 1) ltac:(lia) ltac:(lia)). lia.
  - exact Heq.
  - pose proof (Z.pow_le_mono_r 2 d (Z.pos (digits2_pos m) - 1) ltac:(lia) ltac:(lia)). lia.
Qed.

Lemma Zdigits2_53 (q : Z) : 2 ^ 52 <= q < 2 ^ 53 -> Zdigits2 q = 53.
Proof.
  intros H. destruct q as [|p|p]; try lia.
  unfold Zdigits2. apply digits2_pos_unique. exact H.
Qed.

Lemma Zdigits2_54 (q : Z) : 2 ^ 53 <= q < 2 ^ 54 -> Zdigits2 q = 54.
Proof.
  intros H. destruct q as [|p|p]; try lia.
  unfold Zdigits2. apply digits2_pos_unique. exact H.
Qed.

Lemma fexp_normal (d : Z) : -1021 <= d -> fexp prec emax d = d - 53.
Proof. unfold fexp, SpecFloat.emin, prec, emax. lia. Qed.

Lemma shr_1_nonneg m r s :
  0 <= m ->
  shr_1 (Build_shr_record m r s) = Build_shr_record (m / 2) (Z.odd m) (r || s).
Proof.
  intros Hm. destruct m as [|[p|p|]|p]; try lia; try reflexivity.
  - simpl shr_1. f_equal.
    rewrite Pos2Z.inj_xI. apply (Z.div_unique _ 2 _ 1); lia.
  - simpl shr_1. f_equal.
    rewrite Pos2Z.inj_xO. apply (Z.div_unique _ 2 _ 0); lia.
Qed.

Lemma shr_1_represents mrs N D :
  represents mrs N D -> represents (shr_1 mrs) N (2 * D).
Proof.
  destruct mrs as [m r s]. intros (HD & HN & Hm & Hr & Hs). simpl in Hm, Hr, Hs.
  assert (Hm0 : 0 <= m) by (subst m; apply Z.div_pos; lia).
  rewrite shr_1_nonneg by exact Hm0.
  pose proof (Z.div_mod N D ltac:(lia)) as HND.
  pose proof (Z.mod_pos_bound N D HD) as Hrho.
  pose proof (Z.div_mod m 2 ltac:(lia)) as Hm2.
  pose proof (Z.mod_pos_bound m 2 ltac:(lia)) as Hb.
  assert (Hdiv : N / (2 * D) = m / 2).
  { rewrite Z.mul_comm, <- Z.div_div by lia. congruence. }
  assert (Hmod : N mod (2 * D) = N mod D + D * (m mod 2)).
  { rewrite Z.mul_comm, Z.rem_mul_r by lia. congruence. }
  assert (Hodd : Z.odd m = true <-> m mod 2 = 1).
  { rewrite Zodd_mod. split; intros H.
    - apply Z.eqb_eq in H. exact H.
    - apply Z.eqb_eq. exact H. }
  unfold represents. simpl. rewrite Hdiv, Hmod.
  split; [lia|]. split; [lia|]. split; [reflexivity|]. split.
  - rewrite Hodd. split; intros H; nia.
  - intros Hrs. apply orb_false_iff in Hrs as [-> ->].
    destruct (Hs eq_refl) as [H0|Hhalf].
    + assert (m mod 2 = 0 \/ m mod 2 = 1) as [->| ->] by lia; lia.
    + exfalso. assert (false = true) as Ht by (apply Hr; lia). discriminate.
Qed.

Lemma round_nearest_even_represents mrs N D :
  represents mrs N D ->
  let q := round_nearest_even (shr_m mrs) (loc_of_shr_record mrs) in
  N / D <= q <= N / D + 1 /\ 2 * Z.abs (q * D - N) <= D.
Proof.
  destruct mrs as [m r s]. intros (HD & HN & Hm & Hr & Hs). simpl in Hm, Hr, Hs.
  pose proof (Z.div_mod N D ltac:(lia)) as HND.
  pose proof (Z.mod_pos_bound N D HD) as Hrho.
  subst m. set (m := N / D) in *. set (rho := N mod D) in *.
  destruct r, s; simpl.
  - assert (D <= 2 * rho) by (apply Hr; reflexivity). nia.
  - assert (D <= 2 * rho) by (apply Hr; reflexivity).
    destruct (Hs eq_refl) as [H0|Hh]; [lia|].
    destruct (Z.even m); nia.
  - assert (~ D <= 2 * rho) by (intros Hc; apply Hr in Hc; discriminate). nia.
  - assert (~ D <= 2 * rho) by (intros Hc; apply Hr in Hc; discriminate).
    destruct (Hs eq_refl) as [H0|Hh]; [|lia]. nia.
Qed.

Lemma new_location_represents N D :
  0 < D -> 0 <= N ->
  represents (shr_record_of_loc (N / D) (new_location D (N mod D))) N D.
Proof.
  intros HD HN.
  pose proof (Z.mod_pos_bound N D HD) as Hrho.
  set (rho := N mod D) in *.
  assert (Hparity : Z.even D = true /\ (exists k, D = 2 * k) \/
                    Z.even D = false /\ (exists k, D = 2 * k + 1)).
  { destruct (Z.even D) eqn:He.
    - left. split; [reflexivity|]. apply Z.even_spec. exact He.
    - right. split; [reflexivity|]. apply Z.odd_spec. rewrite <- Z.negb_even, He. reflexivity. }
  unfold new_location, new_location_even, new_location_odd.
  destruct Hparity as [[-> [k Hk]]|[-> [k Hk]]];
    destruct (Z.eqb_spec rho 0) as [H0|H0];
    try destruct (Z.compare_spec (2 * rho) D);
    try destruct (Z.compare_spec (2 * rho + 1) D);
    unfold represents; simpl; fold rho;
    repeat split; intros; try discriminate; try lia.
Qed.

Lemma shr_zero mrs e : shr mrs e 0 = (mrs, e).
Proof. reflexivity. Qed.

Lemma shr_one mrs e : shr mrs e 1 = (shr_1 mrs, e + 1).
Proof. reflexivity. Qed.

(** Rounding a quotient whose integer part has 53 or 54 bits: the result is
    a normal number within half a unit of its last place of the quotient. *)
Lemma binary_round_aux_quotient (N D e : Z) :
  0 < D -> 0 <= N ->
  2 ^ 52 <= N / D < 2 ^ 54 ->
  -1074 <= e <= 969 ->
  exists (mz : positive) (k : Z),
    binary_round_aux prec emax false (N / D) e (new_location D (N mod D))
      = S754_finite false mz (e + k) /\
    0 <= k <= 2 /\
    2 ^ 52 <= Z.pos mz < 2 ^ 53 /\
    2 * Z.abs (Z.pos mz * 2 ^ k * D - N) <= 2 ^ k * D.
Proof.
  intros HD HN Hq He.
  pose proof (new_location_represents N D HD HN) as Hrep.
  unfold binary_round_aux, shr_fexp.
  set (mrs0 := shr_record_of_loc (N / D) (new_location D (N mod D))) in *.
  assert (Hfirst : exists mrs1 n1,
            shr mrs0 e (fexp prec emax (Zdigits2 (N / D) + e) - e) = (mrs1, e + n1) /\
            0 <= n1 <= 1 /\ represents mrs1 N (2 ^ n1 * D) /\
            2 ^ 52 <= shr_m mrs1 < 2 ^ 53).
  { destruct (Z.lt_ge_cases (N / D) (2 ^ 53)) as [Hlt|Hge].
    - exists mrs0, 0. rewrite Zdigits2_53, fexp_normal by lia.
      replace (53 + e - 53 - e) with 0 by lia. rewrite shr_zero, Z.add_0_r.
      split; [reflexivity|]. split; [lia|]. split.
      + change (2 ^ 0) with 1. rewrite Z.mul_1_l. exact Hrep.
      + destruct Hrep as (_ & _ & -> & _). lia.
    - exists (shr_1 mrs0), 1. rewrite Zdigits2_54, fexp_normal by lia.
      replace (54 + e - 53 - e) with 1 by lia. rewrite shr_one.
      split; [reflexivity|]. split; [lia|]. split.
      + change (2 ^ 1) with 2. apply shr_1_represents. exact Hrep.
      + pose proof (shr_1_represents _ _ _ Hrep) as (_ & _ & -> & _).
        rewrite Z.mul_comm, <- Z.div_div by lia.
        split; [apply Z.div_le_lower_bound; lia | apply Z.div_lt_upper_bound; lia]. }
  destruct Hfirst as (mrs1 & n1 & -> & Hn1 & Hrep1 & Hq1).
  pose proof (round_nearest_even_represents _ _ _ Hrep1) as [Hq2 Herr].
  cbv zeta in Hq2, Herr.
  destruct Hrep1 as (HD1 & _ & Hm1 & _). rewrite <- Hm1 in Hq2.
  set (q2 := round_nearest_even (shr_m mrs1) (loc_of_shr_record mrs1)) in *.
  destruct (Z.lt_ge_cases q2 (2 ^ 53)) as [Hlt|Hge].
  - rewrite Zdigits2_53, fexp_normal by lia.
    replace (53 + (e + n1) - 53 - (e + n1)) with 0 by lia.
    unfold shr_record_of_loc. rewrite shr_zero. simpl shr_m.
    destruct q2 as [|mz|mz] eqn:Hmz; try lia.
    exists mz, n1. replace (e + n1 <=? emax - prec) with true
      by (symmetry; apply Z.leb_le; unfold emax, prec; lia).
    split; [reflexivity|]. split; [lia|]. split; [lia|].
    rewrite <- Z.mul_assoc. exact Herr.
  - assert (q2 = 2 ^ 53) as Hq253 by lia.
    rewrite Zdigits2_54, fexp_normal by lia.
    replace (54 + (e + n1) - 53 - (e + n1)) with 1 by lia.
    unfold shr_record_of_loc. rewrite shr_one, Hq253.
    exists (4503599627370496)%positive, (n1 + 1).
    replace (e + n1 + 1 <=? emax - prec) with true
      by (symmetry; apply Z.leb_le; unfold emax, prec; lia).
    split; [simpl; f_equal; lia|]. split; [lia|]. split; [lia|].
    rewrite Hq253 in Herr. rewrite Z.pow_add_r by lia.
    change (Z.pos 4503599627370496) with (2 ^ 52). change (2 ^ 53) with (2 ^ 52 * 2 ^ 1) in Herr.
    assert (0 < 2 ^ n1) by (apply Z.pow_pos_nonneg; lia).
    remember (2 ^ n1) as t. remember (2 ^ 52) as c. change (2 ^ 1) with 2 in *.
    replace (c * (t * 2) * D - N) with (c * 2 * (t * D) - N) by ring.
    replace (t * 2 * D) with (2 * (t * D)) by ring. remember (t * D) as u. lia.
Qed.

(** The quotient of two normal numbers, away from overflow and underflow. *)
Lemma SFdiv_normal (mx my : positive) (ex ey : Z) :
  2 ^ 52 <= Z.pos mx < 2 ^ 53 ->
  2 ^ 52 <= Z.pos my < 2 ^ 53 ->
  -1021 <= ex - ey - 53 <= 969 ->
  exists (mz : positive) (k : Z),
    SFdiv prec emax (S754_finite false mx ex) (S754_finite false my ey)
      = S754_finite false mz (ex - ey - 53 + k) /\
    0 <= k <= 2 /\
    2 ^ 52 <= Z.pos mz < 2 ^ 53 /\
    2 * Z.abs (Z.pos mz * 2 ^ k * Z.pos my - Z.pos mx * 2 ^ 53) <= 2 ^ k * Z.pos my.
Proof.
  intros Hmx Hmy He.
  unfold SFdiv, SFdiv_core_binary.
  rewrite !Zdigits2_53 by assumption.
  replace (53 + ex - (53 + ey)) with (ex - ey) by lia.
  rewrite fexp_normal by lia.
  rewrite Z.min_l by lia.
  replace (ex - ey - (ex - ey - 53)) with 53 by lia.
  cbv iota.
  rewrite Z.shiftl_mul_pow2 by lia.
  set (N := Z.pos mx * 2 ^ 53). set (D := Z.pos my).
  assert (HN : 0 <= N) by (unfold N; lia).
  assert (HD : 0 < D) by (unfold D; lia).
  assert (Hq : 2 ^ 52 <= N / D < 2 ^ 54).
  { split; [apply Z.div_le_lower_bound | apply Z.div_lt_upper_bound]; unfold N, D; lia. }
  destruct (binary_round_aux_quotient N D (ex - ey - 53) HD HN Hq ltac:(lia))
    as (mz & k & Hround & Hk & Hmz & Herr).
  exists mz, k.
  assert (Heucl : Z.div_eucl N D = (N / D, N mod D)).
  { unfold Z.div, Z.modulo. destruct (Z.div_eucl N D). reflexivity. }
  rewrite Heucl. simpl xorb. rewrite Hround. auto.
Qed.

Lemma iter_xO (k m : positive) : Z.pos (Pos.iter xO m k) = Z.pos m * 2 ^ Z.pos k.
Proof.
  revert m. induction k using Pos.peano_ind; intros m.
  - simpl. lia.
  - rewrite Pos.iter_succ, Pos2Z.inj_xO, IHk, Pos2Z.inj_succ, Z.pow_succ_r by lia. ring.
Qed.

(** A mantissa of 53 bits is left as it is. *)
Lemma binary_round_aux_exact s (m : positive) (e : Z) :
  2 ^ 52 <= Z.pos m < 2 ^ 53 -> -1074 <= e <= 971 ->
  binary_round_aux prec emax s (Z.pos m) e loc_Exact = S754_finite s m e.
Proof.
  intros Hm He. unfold binary_round_aux, shr_fexp.
  rewrite Zdigits2_53, fexp_normal by lia.
  replace (53 + e - 53 - e) with 0 by lia.
  unfold shr_record_of_loc. rewrite shr_zero. simpl.
  replace (Z.pos (digits2_pos m)) with 53 by (symmetry; apply digits2_pos_unique; exact Hm).
  rewrite fexp_normal by lia.
  replace (53 + e - 53 - e) with 0 by lia. rewrite shr_zero. simpl.
  replace (e <=? emax - prec) with true
    by (symmetry; apply Z.leb_le; unfold emax, prec; lia).
  reflexivity.
Qed.

Lemma valid_binary_normal s (m : positive) (e : Z) :
  2 ^ 52 <= Z.pos m < 2 ^ 53 -> -1074 <= e <= 971 ->
  valid_binary (S754_finite s m e) = true.
Proof.
  intros Hm He. unfold valid_binary, SpecFloat.valid_binary, bounded, canonical_mantissa.
  rewrite (digits2_pos_unique m 53 Hm), fexp_normal by lia.
  apply andb_true_intro. split; [apply Z.eqb_eq; lia|].
  apply Z.leb_le. unfold emax, prec. lia.
Qed.

Lemma is_infinity_finite (x : float) s m e :
  Prim2SF x = S754_finite s m e -> is_infinity x = false.
Proof.
  intros Hx. unfold is_infinity. rewrite FloatAxioms.eqb_spec, abs_spec, Hx. reflexivity.
Qed.

(** An integer below [2^53] converts to the float that stands for it. *)
Lemma float_of_Z_exact (z : Z) :
  0 < z < 2 ^ 53 ->
  exists fz (m : positive) (e : Z),
    PyNum.float_of_Z z = Ok fz /\
    Prim2SF fz = S754_finite false m e /\
    2 ^ 52 <= Z.pos m < 2 ^ 53 /\ -52 <= e <= 0 /\
    Z.pos m = z * 2 ^ (- e).
Proof.
  intros Hz. destruct z as [|p|p]; try lia.
  pose proof (digits2_pos_bounds p) as Hd.
  set (d := Z.pos (digits2_pos p)) in *.
  assert (Hd53 : 1 <= d <= 53).
  { split; [unfold d; lia|].
    destruct (Z.le_gt_cases d 53) as [H|H]; [exact H|].
    pose proof (Z.pow_le_mono_r 2 53 (d - 1) ltac:(lia) ltac:(lia)). lia. }
  assert (Hnorm : exists m : positive,
            binary_normalize prec emax (Z.pos p) 0 false = S754_finite false m (d - 53) /\
            2 ^ 52 <= Z.pos m < 2 ^ 53 /\ Z.pos m = Z.pos p * 2 ^ (53 - d)).
  { unfold binary_normalize, binary_round. fold d.
    rewrite Z.add_0_r, fexp_normal by lia. unfold shl_align.
    assert (Hscaled : forall m : positive,
              Z.pos m = Z.pos p * 2 ^ (53 - d) -> 2 ^ 52 <= Z.pos m < 2 ^ 53).
    { intros m ->.
      assert (E1 : 2 ^ 52 = 2 ^ (d - 1) * 2 ^ (53 - d))
        by (rewrite <- Z.pow_add_r by lia; f_equal; lia).
      assert (E2 : 2 ^ 53 = 2 ^ d * 2 ^ (53 - d))
        by (rewrite <- Z.pow_add_r by lia; f_equal; lia).
      rewrite E1, E2.
      assert (0 < 2 ^ (53 - d)) by (apply Z.pow_pos_nonneg; lia).
      split; [apply Z.mul_le_mono_nonneg_r; lia | apply Z.mul_lt_mono_pos_r; lia]. }
    destruct (d - 53 - 0) as [|k|k] eqn:Hk; try lia.
    - assert (d = 53) as Hd' by lia. exists p.
      assert (Hp : Z.pos p = Z.pos p * 2 ^ (53 - d)).
      { rewrite Hd'. change (2 ^ (53 - 53)) with 1. lia. }
      split; [|split; [apply Hscaled; exact Hp | exact Hp]].
      replace (d - 53) with 0 by lia.
      apply binary_round_aux_exact; [apply Hscaled; exact Hp | lia].
    - exists (Pos.iter xO p k).
      assert (Hp : Z.pos (Pos.iter xO p k) = Z.pos p * 2 ^ (53 - d)).
      { rewrite iter_xO. f_equal. f_equal. lia. }
      split; [|split; [apply Hscaled; exact Hp | exact Hp]].
      apply binary_round_aux_exact; [apply Hscaled; exact Hp | lia]. }
  destruct Hnorm as (m & Hnorm & Hm & Hmp).
  assert (Hprim : Prim2SF (SF2Prim (S754_finite false m (d - 53))) = S754_finite false m (d - 53)).
  { apply Prim2SF_SF2Prim. apply valid_binary_normal; [exact Hm | lia]. }
  exists (SF2Prim (S754_finite false m (d - 53))), m, (d - 53).
  split.
  - unfold PyNum.float_of_Z. rewrite Hnorm.
    rewrite (is_infinity_finite _ _ _ _ Hprim). reflexivity.
  - split; [exact Hprim|]. split; [exact Hm|]. split; [lia|].
    rewrite Hmp. f_equal. f_equal. lia.
Qed.

(** ** The numbers that the floats stand for *)

Lemma Qpow2_pos (e : Z) : (0 < 2 ^ e)%Q.
Proof. apply Qpower_0_lt. reflexivity. Qed.

Lemma Qpow2_add (a b : Z) : (2 ^ (a + b) == 2 ^ a * 2 ^ b)%Q.
Proof. apply Qpower_plus. discriminate. Qed.

Lemma Qpow2_inject (k : Z) : 0 <= k -> (2 ^ k == inject_Z (2 ^ k))%Q.
Proof. intros Hk. symmetry. apply (Zpower_Qpower 2 k Hk). Qed.

Lemma Q_of_float_finite (x : float) (m : positive) (e : Z) :
  Prim2SF x = S754_finite false m e ->
  Q_of_float x = (inject_Z (Z.pos m) * 2 ^ e)%Q.
Proof. intros Hx. unfold Q_of_float. rewrite Hx. reflexivity. Qed.

Lemma normal_pos x m e : normal x m e -> (0 < Q_of_float x)%Q.
Proof.
  intros [Hx Hm]. rewrite (Q_of_float_finite x m e Hx).
  apply Qmult_lt_0_compat; [|apply Qpow2_pos].
  change 0%Q with (inject_Z 0). rewrite <- Zlt_Qlt. lia.
Qed.

Lemma plain_side_normal (x : float) :
  plain_side x = true ->
  exists m e, normal x m e /\ -1012 <= e <= 908.
Proof.
  unfold plain_side. intros H. apply andb_prop in H as [Hlo Hhi].
  rewrite leb_spec in Hlo, Hhi.
  change (Prim2SF 0x1p-960) with (S754_finite false 4503599627370496 (-1012)) in Hlo.
  change (Prim2SF 0x1p+960) with (S754_finite false 4503599627370496 908) in Hhi.
  pose proof (Prim2SF_valid x) as Hvalid.
  unfold SFleb, SFcompare in Hlo, Hhi.
  destruct (Prim2SF x) as [[|]|[|]| |[|] m e] eqn:Hx; try discriminate.
  - assert (Hlo' : -1012 <= e).
    { destruct (Z.compare_spec (-1012) e); [lia|lia|discriminate]. }
    assert (Hhi' : e <= 908).
    { destruct (Z.compare_spec e 908); [lia|lia|discriminate]. }
    unfold valid_binary, SpecFloat.valid_binary, bounded, canonical_mantissa in Hvalid.
    apply andb_prop in Hvalid as [Hcanon _]. apply Z.eqb_eq in Hcanon.
    rewrite fexp_normal in Hcanon by lia.
    pose proof (digits2_pos_bounds m) as Hd.
    replace (Z.pos (digits2_pos m)) with 53 in Hd by lia.
    exists m, e. split; [split; [exact Hx|exact Hd]|lia].
Qed.

(** On normal numbers, the order of the floats is that of the numbers. *)
Lemma Q_of_normal_lt_exp (m1 m2 : positive) (e1 e2 : Z) :
  2 ^ 52 <= Z.pos m1 < 2 ^ 53 -> 2 ^ 52 <= Z.pos m2 < 2 ^ 53 -> e1 < e2 ->
  (inject_Z (Z.pos m1) * 2 ^ e1 < inject_Z (Z.pos m2) * 2 ^ e2)%Q.
Proof.
  intros H1 H2 He.
  assert (Hstep : (2 * 2 ^ e1 <= 2 ^ e2)%Q).
  { assert (Hle : (2 ^ (e1 + 1) <= 2 ^ e2)%Q)
      by (apply Qpower_le_compat_l; [lia|discriminate]).
    rewrite Qpow2_add in Hle. change (2 ^ 1)%Q with 2%Q in Hle. lra. }
  pose proof (Qpow2_pos e1) as Hp1. pose proof (Qpow2_pos e2) as Hp2.
  assert (Hm1 : (inject_Z (Z.pos m1) < 9007199254740992)%Q).
  { change 9007199254740992%Q with (inject_Z (2 ^ 53)). rewrite <- Zlt_Qlt. lia. }
  assert (Hm2 : (4503599627370496 <= inject_Z (Z.pos m2))%Q).
  { change 4503599627370496%Q with (inject_Z (2 ^ 52)). rewrite <- Zle_Qle. lia. }
  set (a := (2 ^ e1)%Q) in *. set (b := (2 ^ e2)%Q) in *.
  set (M1 := inject_Z (Z.pos m1)) in *. set (M2 := inject_Z (Z.pos m2)) in *.
  apply Qlt_le_trans with (9007199254740992 * a)%Q; [nra|].
  apply Qle_trans with (4503599627370496 * b)%Q; nra.
Qed.

Lemma ltb_normal (x y : float) mx ex my ey :
  normal x mx ex -> normal y my ey ->
  ((x <? y)%float = true -> (Q_of_float x < Q_of_float y)%Q) /\
  ((x <? y)%float = false -> (Q_of_float y <= Q_of_float x)%Q).
Proof.
  intros [Hx Hmx] [Hy Hmy].
  rewrite (Q_of_float_finite x mx ex Hx), (Q_of_float_finite y my ey Hy).
  rewrite ltb_spec, Hx, Hy. unfold SFltb, SFcompare.
  destruct (Z.compare_spec ex ey) as [->|Hlt|Hgt].
  - rewrite Pos.compare_cont_spec. simpl.
    pose proof (Qpow2_pos ey) as Hp.
    destruct (Pos.compare_spec mx my) as [->|Hm|Hm]; split; intros H;
      try discriminate.
    + apply Qle_refl.
    + apply Qmult_lt_compat_r; [exact Hp|]. rewrite <- Zlt_Qlt. lia.
    + apply Qmult_le_compat_r; [|apply Qlt_le_weak, Hp]. rewrite <- Zle_Qle. lia.
  - split; intros H; [|discriminate]. apply Q_of_normal_lt_exp; assumption.
  - split; intros H; [discriminate|]. apply Qlt_le_weak.
    apply Q_of_normal_lt_exp; assumption || lia.
Qed.

(** The quotient of a canvas side by a page side: a normal number that,
    multiplied back, gives the canvas side up to one part in [2^53]. *)
Lemma quotient_times_side (z : Z) (fz side : float) :
  0 < z < 2 ^ 53 -> PyNum.float_of_Z z = Ok fz -> plain_side side = true ->
  exists m e,
    normal (fz / side)%float m e /\
    (Q_of_float (fz / side) * Q_of_float side * (1 - 2 ^ (-53)) <= inject_Z z)%Q /\
    (inject_Z z <= Q_of_float (fz / side) * Q_of_float side * (1 + 2 ^ (-53)))%Q.
Proof.
  intros Hz Hfz Hside.
  destruct (float_of_Z_exact z Hz) as (fz' & mx & ex & Hfz' & Hx & Hmx & Hex & Hzx).
  rewrite Hfz in Hfz'. injection Hfz' as <-.
  destruct (plain_side_normal side Hside) as (my & ey & [Hy Hmy] & Hey).
  destruct (SFdiv_normal mx my ex ey Hmx Hmy ltac:(lia))
    as (mz & k & Hdiv & Hk & Hmz & Herr).
  assert (Hq : Prim2SF (fz / side) = S754_finite false mz (ex - ey - 53 + k))
    by (rewrite div_spec, Hx, Hy; exact Hdiv).
  exists mz, (ex - ey - 53 + k). split; [split; assumption|].
  rewrite (Q_of_float_finite _ _ _ Hq), (Q_of_float_finite _ _ _ Hy).
  set (A := Z.pos mz * 2 ^ k * Z.pos my) in *.
  set (B := Z.pos mx * 2 ^ 53) in *.
  assert (Hpow : 0 < 2 ^ k) by (apply Z.pow_pos_nonneg; lia).
  assert (Hbig : 2 ^ 52 * (2 ^ k * Z.pos my) <= A).
  { unfold A. rewrite <- Z.mul_assoc. apply Z.mul_le_mono_nonneg_r; lia. }
  assert (Hlow : A * 9007199254740991 <= 9007199254740992 * B).
  { change (2 ^ 52) with 4503599627370496 in Hbig. lia. }
  assert (Hupp : 9007199254740992 * B <= A * 9007199254740993).
  { change (2 ^ 52) with 4503599627370496 in Hbig. lia. }
  set (P := (2 ^ (ex - 53))%Q).
  assert (HP : (0 < P)%Q) by apply Qpow2_pos.
  assert (Hprod : (inject_Z (Z.pos mz) * 2 ^ (ex - ey - 53 + k) * (inject_Z (Z.pos my) * 2 ^ ey)
                   == inject_Z A * P)%Q).
  { unfold A, P. rewrite !inject_Z_mult.
    replace (ex - ey - 53 + k) with ((ex - 53) + k + - ey) by lia.
    rewrite !Qpow2_add, (Qpow2_inject k) by lia.
    assert (Hinv : (2 ^ (- ey) * 2 ^ ey == 1)%Q).
    { rewrite <- Qpow2_add. replace (- ey + ey) with 0 by lia. reflexivity. }
    set (a := (2 ^ (- ey))%Q) in *. set (b := (2 ^ ey)%Q) in *.
    transitivity (inject_Z (Z.pos mz) * inject_Z (2 ^ k) * inject_Z (Z.pos my)
                  * 2 ^ (ex - 53) * (a * b))%Q; [ring|].
    rewrite Hinv. ring. }
  assert (Hz' : (inject_Z z == inject_Z B * P)%Q).
  { unfold B, P. rewrite inject_Z_mult.
    assert (Hzq : (inject_Z (Z.pos mx) == inject_Z z * 2 ^ (- ex))%Q).
    { rewrite Hzx, inject_Z_mult, (Qpow2_inject (- ex)) by lia. reflexivity. }
    assert (Hinv : (2 ^ (- ex) * (2 ^ 53 * 2 ^ (ex - 53)) == 1)%Q).
    { rewrite <- !Qpow2_add. replace (- ex + (53 + (ex - 53))) with 0 by lia. reflexivity. }
    rewrite Hzq, <- (Qpow2_inject 53) by lia.
    set (a := (2 ^ (- ex))%Q) in *. set (b := (2 ^ 53 * 2 ^ (ex - 53))%Q) in *.
    transitivity (inject_Z z * (a * b))%Q; [rewrite Hinv; ring|].
    unfold b. ring. }
  rewrite Hprod, Hz'.
  rewrite Zle_Qle in Hlow, Hupp. rewrite !inject_Z_mult in Hlow, Hupp.
  change (2 ^ (-53))%Q with (1 # 9007199254740992)%Q.
  change (inject_Z 9007199254740991) with 9007199254740991%Q in Hlow.
  change (inject_Z 9007199254740992) with 9007199254740992%Q in Hlow, Hupp.
  change (inject_Z 9007199254740993) with 9007199254740993%Q in Hupp.
  set (a := inject_Z A) in *. set (b := inject_Z B) in *.
  split; nra.
Qed.

Lemma center_on_canvas_runs pix width height :
  0 <= width -> 0 <= height -> exists img, center_on_canvas pix width height = Ok img.
Proof.
  intros Hw Hh. unfold center_on_canvas, Image.new.
  destruct (negb (Image.width pix =? width) || negb (Image.height pix =? height));
    [|eauto].
  replace (width <? 0) with false by (symmetry; apply Z.ltb_ge; lia).
  replace (height <? 0) with false by (symmetry; apply Z.ltb_ge; lia).
  simpl. eauto.
Qed.

(** C2, as the code has it.  The canvas sides are ints below [2^53] and the
    page sides lie between [2^-960] and [2^960].  The scale is the smaller of
    the two binary64 quotients [width / w] and [height / h].  Taken as exact
    numbers, the products [scale * w] and [scale * h] exceed [width] and
    [height] by less than one part in [2^53], and one of them falls short of
    its bound by no more than that: the fit is tight up to the rounding of
    one division.  The buffer is copied to the box that starts at
    [(width - bufW) // 2] and [(height - bufH) // 2] of a black canvas, which
    leaves margins that differ by one pixel at most.  An 800x600 page fits
    1920x1080 at scale 1.8, where the float products [scale * 800] and
    [scale * 600] are 1440 and 1080, and a 1440x1080 buffer is pasted at
    offsets 240 and 0. *)
Theorem fit_zoom_fits_up_to_rounding width height p :
  0 < width < 2 ^ 53 -> 0 < height < 2 ^ 53 ->
  plain_side (rect_width p) = true -> plain_side (rect_height p) = true ->
  exists fw fh scale,
    PyNum.float_of_Z width = Ok fw /\ PyNum.float_of_Z height = Ok fh /\
    fit_zoom width height p = Ok scale /\
    let zoom_x := (fw / rect_width p)%float in
    let zoom_y := (fh / rect_height p)%float in
    let scaled_w := (Q_of_float scale * Q_of_float (rect_width p))%Q in
    let scaled_h := (Q_of_float scale * Q_of_float (rect_height p))%Q in
    (scale = zoom_x \/ scale = zoom_y) /\
    (0 < Q_of_float scale)%Q /\
    (Q_of_float scale <= Q_of_float zoom_x)%Q /\
    (Q_of_float scale <= Q_of_float zoom_y)%Q /\
    (scaled_w * (1 - 2 ^ (-53)) <= inject_Z width)%Q /\
    (scaled_h * (1 - 2 ^ (-53)) <= inject_Z height)%Q /\
    ((inject_Z width <= scaled_w * (1 + 2 ^ (-53)))%Q \/
     (inject_Z height <= scaled_h * (1 + 2 ^ (-53)))%Q) /\
    (forall pix, exists img,
       center_on_canvas pix width height = Ok img /\
       fitted_on_black pix img width height /\
       0 <= width - Image.width pix - 2 * ((width - Image.width pix) / 2) <= 1 /\
       0 <= height - Image.height pix - 2 * ((height - Image.height pix) / 2) <= 1) /\
    (forall content pix,
       fit_zoom 1920 1080 (Page 800 600 content) = Ok 1.8%float /\
       (1.8 * 800 =? 1440)%float = true /\ (1.8 * 600 =? 1080)%float = true /\
       (Image.width pix = 1440 -> Image.height pix = 1080 ->
        x_offset 1920 pix = 240 /\ y_offset 1080 pix = 0)).
Proof.
  intros Hwidth Hheight Hw Hh.
  destruct (float_of_Z_exact width Hwidth) as (fw & _ & _ & Hfw & _).
  destruct (float_of_Z_exact height Hheight) as (fh & _ & _ & Hfh & _).
  destruct (quotient_times_side width fw _ Hwidth Hfw Hw) as (mx & ex & Hzx & Hxlo & Hxhi).
  destruct (quotient_times_side height fh _ Hheight Hfh Hh) as (my & ey & Hzy & Hylo & Hyhi).
  destruct (plain_side_normal _ Hw) as (mw & ew & Hnw & _).
  destruct (plain_side_normal _ Hh) as (mh & eh & Hnh & _).
  pose proof (normal_pos _ _ _ Hnw) as Hposw.
  pose proof (normal_pos _ _ _ Hnh) as Hposh.
  pose proof (normal_pos _ _ _ Hzx) as Hposx.
  pose proof (normal_pos _ _ _ Hzy) as Hposy.
  destruct (ltb_normal _ _ _ _ _ _ Hzy Hzx) as [Hlt Hge].
  assert (Hnzw : is_zero (rect_width p) = false).
  { unfold is_zero. rewrite FloatAxioms.eqb_spec. destruct Hnw as [-> _]. reflexivity. }
  assert (Hnzh : is_zero (rect_height p) = false).
  { unfold is_zero. rewrite FloatAxioms.eqb_spec. destruct Hnh as [-> _]. reflexivity. }
  exists fw, fh, (PyNum.min (fw / rect_width p) (fh / rect_height p)).
  split; [exact Hfw|]. split; [exact Hfh|].
  split; [apply fit_zoom_Ok; assumption|].
  cbv zeta.
  change (2 ^ (-53))%Q with (1 # 9007199254740992)%Q in *.
  set (zx := Q_of_float (fw / rect_width p)) in *.
  set (zy := Q_of_float (fh / rect_height p)) in *.
  set (qw := Q_of_float (rect_width p)) in *.
  set (qh := Q_of_float (rect_height p)) in *.
  assert (Hfit :
    (PyNum.min (fw / rect_width p) (fh / rect_height p) = (fh / rect_height p)%float /\
     (zy <= zx)%Q) \/
    (PyNum.min (fw / rect_width p) (fh / rect_height p) = (fw / rect_width p)%float /\
     (zx <= zy)%Q)).
  { unfold PyNum.min.
    destruct (fh / rect_height p <? fw / rect_width p)%float.
    - left. split; [reflexivity|]. apply Qlt_le_weak, Hlt. reflexivity.
    - right. split; [reflexivity|]. apply Hge. reflexivity. }
  split; [destruct Hfit as [[-> _]|[-> _]]; auto|].
  split; [destruct Hfit as [[-> _]|[-> _]]; assumption|].
  split; [destruct Hfit as [[-> Hle]|[-> Hle]]; fold zx zy; lra|].
  split; [destruct Hfit as [[-> Hle]|[-> Hle]]; fold zx zy; lra|].
  split; [destruct Hfit as [[-> Hle]|[-> Hle]]; fold zx zy; nra|].
  split; [destruct Hfit as [[-> Hle]|[-> Hle]]; fold zx zy; nra|].
  split; [destruct Hfit as [[-> Hle]|[-> Hle]]; fold zx zy; [right|left]; assumption|].
  split.
  - intros pix.
    destruct (center_on_canvas_runs pix width height) as [img Himg]; [lia|lia|].
    exists img. split; [exact Himg|].
    split; [apply center_on_canvas_fitted; exact Himg|].
    apply (offsets_centered width height pix).
  - intros content pix. split; [vm_compute; reflexivity|].
    split; [vm_compute; reflexivity|]. split; [vm_compute; reflexivity|].
    intros Hbw Hbh. unfold x_offset, y_offset. rewrite Hbw, Hbh. split; reflexivity.
Qed.

(** For a US Letter page on a 1600x900 canvas the bound is needed: the exact
    product [scale * 612] is above 900. *)
Lemma fit_zoom_fits_up_to_rounding_witness :
  exists scale,
    fit_zoom 1600 900 (Page 792 612 0) = Ok scale /\
    (Q_of_float scale * Q_of_float 612 * (1 - 2 ^ (-53)) <= inject_Z 900)%Q /\
    (inject_Z 900 < Q_of_float scale * Q_of_float 612)%Q.
Proof.
  destruct (fit_zoom_fits_up_to_rounding 1600 900 (Page 792 612 0))
    as (fw & fh & scale & _ & _ & Hfit & _ & _ & _ & _ & _ & Hh & _).
  - lia.
  - lia.
  - vm_compute; reflexivity.
  - vm_compute; reflexivity.
  - exists scale. split; [exact Hfit|]. split; [exact Hh|].
    assert (Hscale : Ok scale = Ok (900 / 612)%float :> result float)
      by (rewrite <- Hfit; vm_compute; reflexivity).
    injection Hscale as ->. vm_compute. reflexivity.
Defined.

(** The products do not obey the bounds of the claim: for a US Letter page
    (792x612 points) and a 1600x900 canvas, [scale * h] evaluates above 900
    and neither product equals its bound.  The same holds of the exact
    products of the scale, which is 6622940628486024 / 2^52. *)
Lemma fit_zoom_products_not_tight :
  exists scale,
    fit_zoom 1600 900 (Page 792 612 0) = Ok scale /\
    (scale * 612 <=? 900)%float = false /\
    (scale * 792 =? 1600)%float = false /\
    (scale * 612 =? 900)%float = false /\
    Prim2SF scale = S754_finite false 6622940628486024 (-52) /\
    900 * 2 ^ 52 < 6622940628486024 * 612 /\
    6622940628486024 * 792 < 1600 * 2 ^ 52.
Proof.
  exists (900 / 612)%float. repeat split; vm_compute; reflexivity.
Qed.

(** ** C3: a page without width or height *)

(** C3, as the code has it.  A page whose width or height is zero makes the
    division of the scale computation raise [ZeroDivisionError]; the page is
    neither rasterized nor written, and nothing is printed for it. *)
Theorem degenerate_page_raises_ZeroDivisionError E width height total page_num p fw fh w :
  PyNum.float_of_Z width = Ok fw ->
  PyNum.float_of_Z height = Ok fh ->
  is_zero (rect_width p) = true \/ is_zero (rect_height p) = true ->
  fit_zoom width height p = Raise (ZeroDivisionError "float division by zero") /\
  render_page E width height total page_num p w
    = (Raise (ZeroDivisionError "float division by zero"), w).
Proof.
  intros Hw Hh Hz.
  assert (Hfit : fit_zoom width height p
                 = Raise (ZeroDivisionError "float division by zero")).
  { unfold fit_zoom, PyNum.truediv_int_float. rewrite Hw, Hh. simpl.
    destruct (is_zero (rect_width p)); [reflexivity|].
    destruct Hz as [Hz|Hz]; [discriminate|]. simpl. rewrite Hz. reflexivity. }
  split; [exact Hfit|].
  unfold render_page, bind, lift. rewrite Hfit. reflexivity.
Qed.

Lemma degenerate_page_raises_ZeroDivisionError_witness :
  fit_zoom 1920 1080 (Page 800 0 0) = Raise (ZeroDivisionError "float division by zero").
Proof.
  apply (degenerate_page_raises_ZeroDivisionError demo_env 1920 1080 1 0 (Page 800 0 0)
           1920%float 1080%float demo_world).
  - vm_compute; reflexivity.
  - vm_compute; reflexivity.
  - right. vm_compute; reflexivity.
Defined.

(** There is no [InvalidGeometry] error: the class raised for a page of
    width zero is [ZeroDivisionError]. *)
Lemma degenerate_page_is_not_InvalidGeometry :
  exists e,
    fit_zoom 1920 1080 (Page 0 600 0) = Raise e /\
    exn_class e = "ZeroDivisionError"%string /\
    exn_class e <> "InvalidGeometry"%string.
Proof.
  exists (ZeroDivisionError "float division by zero").
  split; [vm_compute; reflexivity|]. split; [reflexivity|discriminate].
Qed.

(** ** C4: the choice of the method *)

Lemma append_nonempty_r (s t : string) : t <> EmptyString -> s +:+ t <> EmptyString.
Proof.
  intros Ht H. apply (f_equal String.length) in H. rewrite append_length in H.
  destruct t; [congruence|]. simpl in H. lia.
Qed.

Lemma possible_paths_nonempty E p : In p (possible_paths E) -> p <> EmptyString.
Proof.
  unfold possible_paths.
  destruct (String.eqb (platform_system E) "Windows");
    [|destruct (String.eqb (platform_system E) "Darwin")];
    simpl; intros H;
    repeat (destruct H as [<-|H];
            [first [discriminate | apply append_nonempty_r; discriminate]|]);
    contradiction.
Qed.

Lemma find_libreoffice_truthy E :
  truthy (find_libreoffice E) = true <-> find_libreoffice E <> None.
Proof.
  unfold find_libreoffice.
  destruct (truthy (shutil_which E "soffice")); [simpl; split; [discriminate|reflexivity]|].
  destruct (truthy (shutil_which E "soffice.exe")); [simpl; split; [discriminate|reflexivity]|].
  destruct (find (os_path_exists E) (possible_paths E)) as [p|] eqn:Hf; simpl.
  - apply find_some in Hf as [Hin _]. apply possible_paths_nonempty in Hin.
    destruct (String.eqb_spec p ""); [contradiction|]. simpl. split; [discriminate|reflexivity].
  - split; [discriminate|congruence].
Qed.

Lemma find_libreoffice_discoverable E : find_libreoffice E <> None <-> discoverable E.
Proof.
  unfold find_libreoffice, discoverable.
  destruct (truthy (shutil_which E "soffice")); [split; [auto|discriminate]|].
  destruct (truthy (shutil_which E "soffice.exe")); [split; [auto|discriminate]|].
  destruct (find (os_path_exists E) (possible_paths E)) as [p|] eqn:Hf.
  - apply find_some in Hf. split; [eauto|discriminate].
  - split; [congruence|]. intros [H|[H|(p & Hin & Hp)]]; try discriminate.
    apply (find_none _ _ Hf) in Hin. congruence.
Qed.

(** C4.  With [auto], LibreOffice is chosen exactly when the binary can be
    found and PyMuPDF is available, and nothing is printed; otherwise the
    direct path is chosen and the warning is printed.  A method given by the
    caller is kept as it is, whatever the environment, and nothing is
    printed. *)
Theorem method_selection E m w :
  exists chosen w',
    choose_method E m w = (Ok chosen, w') /\
    (find_libreoffice E <> None <-> discoverable E) /\
    (m = auto ->
       (chosen = libreoffice <-> discoverable E /\ PYMUPDF_AVAILABLE E = true) /\
       (chosen = libreoffice -> w' = w) /\
       (chosen <> libreoffice ->
          chosen = direct /\
          w' = World (out_dir w) (tmp_dirs w) (stdout w ++ [auto_warning]))) /\
    (m <> auto -> chosen = m /\ w' = w).
Proof.
  pose proof (find_libreoffice_truthy E) as Ht.
  pose proof (find_libreoffice_discoverable E) as Hd.
  unfold choose_method. destruct m; simpl.
  - exists libreoffice, w. split; [reflexivity|]. split; [exact Hd|].
    split; [discriminate|auto].
  - exists direct, w. split; [reflexivity|]. split; [exact Hd|].
    split; [discriminate|auto].
  - destruct (truthy (find_libreoffice E)) eqn:Hf; simpl.
    + destruct (PYMUPDF_AVAILABLE E) eqn:Hp; simpl.
      * exists libreoffice, w. split; [reflexivity|]. split; [exact Hd|].
        split; [|congruence]. intros _.
        split; [|split; [reflexivity|congruence]].
        split; [|reflexivity]. intros _. split; [|reflexivity].
        apply Hd, Ht. reflexivity.
      * eexists direct, _. split; [reflexivity|]. split; [exact Hd|].
        split; [|congruence]. intros _.
        split; [|split; [discriminate|auto]].
        split; [discriminate|]. intros [_ ?]. discriminate.
    + eexists direct, _. split; [reflexivity|]. split; [exact Hd|].
      split; [|congruence]. intros _.
      split; [|split; [discriminate|auto]].
      split; [discriminate|]. intros [Hdisc _].
      apply Hd, Ht in Hdisc. discriminate.
Qed.

Lemma method_selection_witness :
  choose_method demo_env auto demo_world = (Ok libreoffice, demo_world).
Proof.
  destruct (method_selection demo_env auto demo_world)
    as (chosen & w' & Hc & _ & Hauto & _).
  destruct (Hauto eq_refl) as (Hiff & Hsame & _).
  assert (Hlo : chosen = libreoffice).
  { apply Hiff. split; [|reflexivity]. left. reflexivity. }
  rewrite Hc, Hlo, (Hsame Hlo). reflexivity.
Defined.

(** ** C5: the failures of the LibreOffice path *)

Section LibreOfficeFailures.

Variables (E : env) (input_path output_dir : string) (width height : Z) (w : world).

Lemma libreoffice_not_found :
  find_libreoffice E = None ->
  convert_with_libreoffice E input_path output_dir width height w
    = (Raise (RuntimeError not_found_msg), w).
Proof.
  intros H. unfold convert_with_libreoffice. rewrite H. reflexivity.
Qed.

Lemma truthy_Some p : find_libreoffice E = Some p -> truthy (find_libreoffice E) = true.
Proof. intros H. apply find_libreoffice_truthy. congruence. Qed.

Lemma libreoffice_timed_out p written :
  find_libreoffice E = Some p ->
  subprocess_run E (soffice_cmd p (mkdtemp w) input_path) = TimedOut written ->
  exists w',
    convert_with_libreoffice E input_path output_dir width height w
      = (Raise (RuntimeError timed_out_msg), w').
Proof.
  intros Hf Hrun. unfold convert_with_libreoffice.
  rewrite (truthy_Some p Hf), Hf. simpl.
  unfold with_TemporaryDirectory, bind, try_except, run_converter, print. simpl.
  rewrite Hrun. simpl. eexists. reflexivity.
Qed.

Lemma libreoffice_exit_code p rc out err written :
  find_libreoffice E = Some p ->
  subprocess_run E (soffice_cmd p (mkdtemp w) input_path) = Completed rc out err written ->
  rc <> 0 ->
  exists w',
    convert_with_libreoffice E input_path output_dir width height w
      = (Raise (RuntimeError (failed_msg rc out err)), w').
Proof.
  intros Hf Hrun Hrc. unfold convert_with_libreoffice.
  rewrite (truthy_Some p Hf), Hf. simpl.
  unfold with_TemporaryDirectory, bind, try_except, run_converter, print. simpl.
  rewrite Hrun. simpl.
  apply Z.eqb_neq in Hrc. rewrite Hrc. simpl.
  destruct (negb (String.eqb err "")); simpl; eexists; reflexivity.
Qed.

Lemma libreoffice_no_pdf p out err written :
  find_libreoffice E = Some p ->
  subprocess_run E (soffice_cmd p (mkdtemp w) input_path) = Completed 0 out err written ->
  assoc (PyStr.stem input_path +:+ ".pdf") written = None ->
  Forall (fun entry => PyStr.endswith ".pdf" entry.1 = false) written ->
  exists w',
    convert_with_libreoffice E input_path output_dir width height w
      = (Raise (RuntimeError (no_pdf_msg input_path)), w').
Proof.
  intros Hf Hrun Hexp Hglob. unfold convert_with_libreoffice.
  rewrite (truthy_Some p Hf), Hf. simpl.
  assert (Hfilter : filter (fun n => PyStr.endswith ".pdf" n = true) (map fst written) = []).
  { clear -Hglob. induction written as [|[n f] rest IH]; [reflexivity|].
    inversion Hglob as [|? ? Hn Hrest]; subst. simpl in Hn. simpl.
    rewrite filter_cons_False by congruence. auto. }
  unfold with_TemporaryDirectory, bind, try_except, run_converter, print, locate_pdf,
    tmp_listing, add_entries, bind, print. simpl.
  rewrite Hrun. simpl.
  destruct (negb (String.eqb err "")); simpl;
    rewrite !lookup_insert_eq; simpl; rewrite Hexp; simpl; rewrite Hfilter; simpl;
    eexists; reflexivity.
Qed.

End LibreOfficeFailures.

Lemma print_header_after_header args m w :
  print_header args m w = (Ok tt, after_header args m w).
Proof. reflexivity. Qed.

(** [main] once the input file is known to exist. *)
Lemma main_unfold E args w m w0 :
  os_path_exists E (arg_input args) = true ->
  choose_method E (arg_method args) w = (Ok m, w0) ->
  main E args w =
    match run_conversion E args m (after_header args m w0) with
    | (Ok _, w2) => (0, w2)
    | (Raise e, w2) =>
        (1, World (out_dir w2) (tmp_dirs w2) (stdout w2 ++ ["ERROR: " +:+ exn_msg e]))
    end.
Proof.
  intros Hin Hm. unfold main. rewrite Hin. simpl.
  unfold bind at 1. rewrite Hm.
  unfold bind at 1. rewrite print_header_after_header. unfold ret. reflexivity.
Qed.

Lemma choose_method_libreoffice E m w w0 :
  choose_method E m w = (Ok libreoffice, w0) -> w0 = w.
Proof.
  unfold choose_method. destruct (method_eqb m auto).
  - destruct (truthy (find_libreoffice E) && PYMUPDF_AVAILABLE E).
    + intros [= <-]. reflexivity.
    + unfold bind, print, ret. discriminate.
  - intros [= _ <-]. reflexivity.
Qed.

Lemma run_conversion_raises E args w e w2 :
  convert_with_libreoffice E (arg_input args) (arg_output args)
    (arg_width args) (arg_height args) w = (Raise e, w2) ->
  run_conversion E args libreoffice w = (Raise e, w2).
Proof.
  intros H. unfold run_conversion, conversion_step, bind. simpl. rewrite H. reflexivity.
Qed.

Lemma aborts_with_intro E args w w0 msg w2 :
  os_path_exists E (arg_input args) = true ->
  choose_method E (arg_method args) w = (Ok libreoffice, w0) ->
  convert_with_libreoffice E (arg_input args) (arg_output args)
    (arg_width args) (arg_height args) (after_header args libreoffice w)
    = (Raise (RuntimeError msg), w2) ->
  aborts_with E args w msg.
Proof.
  intros Hin Hm H. unfold aborts_with.
  pose proof (choose_method_libreoffice _ _ _ _ Hm) as ->.
  rewrite (main_unfold _ _ _ _ _ Hin Hm).
  rewrite (run_conversion_raises _ _ _ _ _ H), H. simpl.
  split; [reflexivity|]. split; [reflexivity|]. apply last_snoc.
Qed.

(** C5.  When the LibreOffice path is the one that runs, a binary that is
    not found, a non-zero exit code, a timeout and a PDF found neither under
    its expected name nor as any [*.pdf] entry each raise a [RuntimeError]
    with a message of its own; [main] reports it and exits with status 1.
    Whatever the outcome of the run, the temporary directories after it are
    those of before. *)
Theorem libreoffice_failures_abort_and_release E args w :
  os_path_exists E (arg_input args) = true ->
  (choose_method E (arg_method args) w).1 = Ok libreoffice ->
  tmp_dirs (main E args w).2 = tmp_dirs w /\
  (find_libreoffice E = None -> aborts_with E args w not_found_msg) /\
  (forall p, find_libreoffice E = Some p ->
     match subprocess_run E (soffice_cmd p (mkdtemp w) (arg_input args)) with
     | Completed rc out err written =>
         (rc <> 0 -> aborts_with E args w (failed_msg rc out err)) /\
         (rc = 0 ->
          assoc (PyStr.stem (arg_input args) +:+ ".pdf") written = None ->
          Forall (fun entry => PyStr.endswith ".pdf" entry.1 = false) written ->
          aborts_with E args w (no_pdf_msg (arg_input args)))
     | TimedOut _ => aborts_with E args w timed_out_msg
     | SpawnFailed _ => True
     end) /\
  (forall rc out err input_path,
     not_found_msg <> failed_msg rc out err /\
     not_found_msg <> timed_out_msg /\
     failed_msg rc out err <> timed_out_msg /\
     no_pdf_msg input_path <> not_found_msg /\
     no_pdf_msg input_path <> failed_msg rc out err /\
     no_pdf_msg input_path <> timed_out_msg).
Proof.
  intros Hin Hm.
  destruct (choose_method E (arg_method args) w) as [r w0] eqn:Hchoose.
  simpl in Hm. subst r.
  split; [apply main_releases|].
  split; [|split].
  - intros Hf. eapply aborts_with_intro; [eassumption..|].
    apply libreoffice_not_found, Hf.
  - intros p Hf.
    destruct (subprocess_run E (soffice_cmd p (mkdtemp w) (arg_input args)))
      as [rc out err written|written|e] eqn:Hrun; [| |exact I].
    + split.
      * intros Hrc.
        destruct (libreoffice_exit_code E (arg_input args) (arg_output args)
                    (arg_width args) (arg_height args) (after_header args libreoffice w)
                    p rc out err written Hf Hrun Hrc) as [w2 H].
        eapply aborts_with_intro; eassumption.
      * intros -> Hexp Hglob.
        destruct (libreoffice_no_pdf E (arg_input args) (arg_output args)
                    (arg_width args) (arg_height args) (after_header args libreoffice w)
                    p out err written Hf Hrun Hexp Hglob) as [w2 H].
        eapply aborts_with_intro; eassumption.
    + destruct (libreoffice_timed_out E (arg_input args) (arg_output args)
                  (arg_width args) (arg_height args) (after_header args libreoffice w)
                  p written Hf Hrun) as [w2 H].
      eapply aborts_with_intro; eassumption.
  - intros rc out err input_path. unfold not_found_msg, timed_out_msg, failed_msg, no_pdf_msg.
    repeat split; intros H; vm_compute in H; discriminate.
Qed.

Lemma libreoffice_failures_abort_and_release_witness :
  tmp_dirs (main timeout_env (demo_args libreoffice) demo_world).2 = tmp_dirs demo_world /\
  aborts_with timeout_env (demo_args libreoffice) demo_world timed_out_msg.
Proof.
  destruct (libreoffice_failures_abort_and_release timeout_env (demo_args libreoffice)
              demo_world eq_refl eq_refl) as (Hrel & _ & Hcase & _).
  split; [exact Hrel|].
  exact (Hcase "soffice"%string eq_refl).
Defined.

(** ** C6: the progress ticks *)

(** C6 at a 50-page deck.  The tick of page 29 is computed as
    [int(29 / 50 * 100)] in binary64, where [29 / 50 * 100] is
    57.999999999999993: the script prints [PROGRESS:57] and not the 58 of
    the exact floor. *)
Theorem progress_tick_29_of_50 :
  progress_of 29 50 = Ok 57 /\
  floor_percent 29 50 = 58 /\
  stdout (render_page demo_env 1920 1080 50 28 (Page 800 600 0) demo_world).2
    = ["PROGRESS:57"%string].
Proof. repeat split; vm_compute; reflexivity. Qed.

(** What remains of the claim on the decks of up to 300 pages, by
    evaluation: the ticks of a deck never go down and the last one is 100. *)
Lemma ticks_checked_up_to_300 : forallb ticks_ok (seq 1 300) = true.
Proof. vm_compute. reflexivity. Qed.

(** ** C7: the size asked of the thumbnail *)

(** For a 1920x1080 image and a thumbnail width of 300 the quotient is
    168.75: the script asks for a height of 168, rounding gives 169. *)
Lemma thumb_height_is_not_rounded :
  thumb_height_of (blank 1920 1080) 300 = Ok 168 /\
  rounded_thumb_height (blank 1920 1080) 300 = Ok 169.
Proof. split; vm_compute; reflexivity. Qed.

Lemma int_of_float_vs_round x t r :
  PyNum.int_of_float x = Ok t -> PyNum.round_of_float x = Ok r ->
  Z.abs t <= Z.abs r <= Z.abs t + 1.
Proof.
  unfold PyNum.int_of_float, PyNum.round_of_float.
  destruct (Prim2SF x) as [s|s| |s m e]; try discriminate.
  - intros [= <-] [= <-]. lia.
  - intros [= <-] [= <-]. destruct e as [|p|p].
    + destruct s; lia.
    + destruct s; lia.
    + pose proof (Z.shiftr_nonneg (Z.pos m) (Z.pos p)) as Hq.
      assert (0 <= Z.shiftr (Z.pos m) (Z.pos p)) by (apply Hq; lia).
      set (q := Z.shiftr (Z.pos m) (Z.pos p)) in *.
      destruct (_ <? _); [destruct s; lia|].
      destruct (_ <? _); [destruct s; lia|].
      destruct (Z.even q); destruct s; lia.
Qed.

(** C7, as the code has it.  For a full-size file that is thumbnailed, the
    height asked of the resampler is [int(thumb_width / (width / height))]
    of the opened image: the binary64 quotient truncated toward zero, which
    is the rounded quotient or one less in magnitude.  The thumbnail is
    resampled with LANCZOS and saved as JPEG at quality 85. *)
Theorem thumbnail_height_truncates E thumb_width slide_file w w' :
  make_thumbnail E thumb_width slide_file w = (Ok tt, w') ->
  exists stored q o aspect quotient thumb_height thumb,
    out_dir w !! slide_file = Some (JpegFile stored q o) /\
    let img := jpeg_decode E stored q o in
    PyNum.truediv_int_int (Image.width img) (Image.height img) = Ok aspect /\
    PyNum.truediv_int_float thumb_width aspect = Ok quotient /\
    PyNum.int_of_float quotient = Ok thumb_height /\
    (forall rounded, PyNum.round_of_float quotient = Ok rounded ->
       Z.abs thumb_height <= Z.abs rounded <= Z.abs thumb_height + 1) /\
    thumbnail E img (thumb_width, thumb_height) LANCZOS = Ok thumb /\
    w' = World (<[thumb_filename slide_file := JpegFile thumb 85 false]> (out_dir w))
               (tmp_dirs w) (stdout w).
Proof.
  unfold make_thumbnail. intros H.
  apply bind_Ok_inv in H as (img & w1 & Hopen & H).
  unfold Image_open in Hopen.
  destruct (out_dir w !! slide_file) as [[stored q o| | |]|] eqn:Hfile; try discriminate.
  injection Hopen as <- <-.
  apply bind_Ok_inv in H as (th & w1 & Hth & H). apply lift_inv in Hth as [Hth ->].
  apply bind_Ok_inv in H as (thumb & w1 & Hthumb & H). apply lift_inv in Hthumb as [Hthumb ->].
  apply save_jpeg_Ok in H as ->.
  unfold thumb_height_of in Hth.
  apply rbind_Ok_inv in Hth as (aspect & Ha & Hth).
  apply rbind_Ok_inv in Hth as (quotient & Hq & Hth).
  exists stored, q, o, aspect, quotient, th, thumb.
  split; [reflexivity|]. simpl.
  split; [exact Ha|]. split; [exact Hq|]. split; [exact Hth|].
  split; [intros rounded Hr; eapply int_of_float_vs_round; eassumption|].
  split; [exact Hthumb|reflexivity].
Qed.

Lemma thumbnail_height_truncates_witness :
  exists thumb,
    out_dir (make_thumbnail demo_env 300 "slide_001.jpg" demo_rendered).2
      !! thumb_filename "slide_001.jpg" = Some (JpegFile thumb 85 false).
Proof.
  destruct (thumbnail_height_truncates demo_env 300 "slide_001.jpg" demo_rendered
              (make_thumbnail demo_env 300 "slide_001.jpg" demo_rendered).2)
    as (stored & q & o & aspect & quotient & th & thumb & _ & _ & _ & _ & _ & _ & Hw).
  - apply injective_projections; [vm_compute; reflexivity | reflexivity].
  - exists thumb. rewrite Hw. simpl. apply lookup_insert_eq.
Defined.

(** ** C8: thumbnails are not thumbnailed again *)

Lemma prefix_refl (s : string) : String.prefix s s = true.
Proof.
  induction s as [|c s IH]; [reflexivity|]. simpl.
  destruct (ascii_dec c c); [exact IH|congruence].
Qed.

Lemma endswith_contains suf s : PyStr.endswith suf s = true -> PyStr.contains suf s = true.
Proof.
  induction s as [|c s IH]; simpl.
  - rewrite orb_false_r. intros H%String.eqb_eq. subst. reflexivity.
  - intros [H%String.eqb_eq|H]%orb_true_iff.
    + subst. change (String.prefix (String c s) (String c s) || PyStr.contains (String c s) s = true).
      rewrite (prefix_refl (String c s)). reflexivity.
    + rewrite (IH H). apply orb_true_r.
Qed.

Lemma replace_jpg_contains_thumb s :
  PyStr.contains ".jpg" s = true ->
  PyStr.contains "_thumb" (PyStr.replace_from ".jpg" "_thumb.jpg" O s) = true.
Proof.
  induction s as [|c s IH]; [discriminate|].
  change (PyStr.contains ".jpg" (String c s))
    with (String.prefix ".jpg" (String c s) || PyStr.contains ".jpg" s).
  change (PyStr.replace_from ".jpg" "_thumb.jpg" 0 (String c s))
    with (if String.prefix ".jpg" (String c s)
          then "_thumb.jpg" +:+ PyStr.replace_from ".jpg" "_thumb.jpg" 3 s
          else String c (PyStr.replace_from ".jpg" "_thumb.jpg" 0 s)).
  destruct (String.prefix ".jpg" (String c s)); simpl orb; intros H.
  - reflexivity.
  - change (PyStr.contains "_thumb" (String c ?t))
      with (String.prefix "_thumb" (String c t) || PyStr.contains "_thumb" t).
    rewrite (IH H). apply orb_true_r.
Qed.

Lemma thumb_filename_contains_thumb f :
  PyStr.endswith ".jpg" f = true -> PyStr.contains "_thumb" (thumb_filename f) = true.
Proof. intros H. apply replace_jpg_contains_thumb, endswith_contains, H. Qed.

Lemma is_full_size_inv f :
  is_full_size f = true ->
  PyStr.startswith "slide_" f = true /\ PyStr.endswith ".jpg" f = true /\
  PyStr.contains "_thumb" f = false.
Proof.
  unfold is_full_size. intros [[H1 H2]%andb_true_iff H3%negb_true_iff]%andb_true_iff. auto.
Qed.

Lemma thumb_filename_not_full_size f :
  is_full_size f = true -> is_full_size (thumb_filename f) = false.
Proof.
  intros (_ & He & _)%is_full_size_inv. unfold is_full_size.
  rewrite (thumb_filename_contains_thumb f He). simpl. apply andb_false_r.
Qed.

Lemma make_thumbnail_unfold E thumb_width f w :
  make_thumbnail E thumb_width f w =
    match thumb_for E thumb_width f (out_dir w !! f) with
    | Ok thumb => save_jpeg (thumb_filename f) thumb 85 false w
    | Raise e => (Raise e, w)
    end.
Proof.
  unfold make_thumbnail, thumb_for, bind, Image_open, lift.
  destruct (out_dir w !! f) as [[stored q o| | |]|]; try reflexivity.
  destruct (thumb_height_of _ _) as [th|e]; [|reflexivity]. simpl.
  destruct (thumbnail E _ _ _); reflexivity.
Qed.

(** A run of the loop over full-size names adds a map [W] of thumbnails,
    none under a full-size name, and does the same from every directory that
    holds the same full-size files. *)
Lemma thumbnails_loop E thumb_width names :
  Forall (fun f => is_full_size f = true) names ->
  forall wa wa',
    for_each names (make_thumbnail E thumb_width) wa = (Ok tt, wa') ->
    exists W : gmap string file,
      wa' = World (W ∪ out_dir wa) (tmp_dirs wa) (stdout wa) /\
      (forall k, is_full_size k = true -> W !! k = None) /\
      (forall wb,
         (forall g, is_full_size g = true -> out_dir wb !! g = out_dir wa !! g) ->
         for_each names (make_thumbnail E thumb_width) wb
           = (Ok tt, World (W ∪ out_dir wb) (tmp_dirs wb) (stdout wb))).
Proof.
  induction 1 as [|f rest Hf Hrest IH]; intros wa wa' Hrun.
  - simpl in Hrun. injection Hrun as <-. exists ∅.
    split; [destruct wa; simpl; f_equal; symmetry; apply (left_id ∅ (∪))|].
    split; [intros; apply lookup_empty|].
    intros wb _. simpl. unfold ret. f_equal. destruct wb; simpl. f_equal.
    symmetry; apply (left_id ∅ (∪)).
  - simpl in Hrun. apply bind_Ok_inv in Hrun as ([] & wa1 & Hstep & Hrun).
    rewrite make_thumbnail_unfold in Hstep.
    destruct (thumb_for E thumb_width f (out_dir wa !! f)) as [thumb|e] eqn:Hthumb;
      [|discriminate].
    pose proof Hstep as Hsave. unfold save_jpeg in Hsave.
    destruct ((Image.width thumb =? 0) || (Image.height thumb =? 0)) eqn:Hempty;
      [discriminate|].
    apply save_jpeg_Ok in Hstep as ->.
    destruct (IH _ _ Hrun) as (W & -> & Hkeys & Hother). simpl in *.
    pose proof (thumb_filename_not_full_size f Hf) as Hnot.
    exists (W ∪ {[thumb_filename f := JpegFile thumb 85 false]}).
    split; [|split].
    + f_equal. rewrite insert_union_singleton_l. apply (assoc_L (∪)).
    + intros k Hk. apply lookup_union_None. split; [auto|].
      apply lookup_singleton_ne. intros <-. congruence.
    + intros wb Hagree. simpl. unfold bind.
      rewrite make_thumbnail_unfold, (Hagree f Hf), Hthumb.
      unfold save_jpeg. rewrite Hempty. unfold write_out.
      rewrite Hother.
      * simpl. f_equal. f_equal.
        rewrite insert_union_singleton_l. apply (assoc_L (∪)).
      * intros g Hg. simpl. rewrite !lookup_insert_ne by (intros <-; congruence).
        auto.
Qed.

(** Files whose names are not full-size names do not change the selection. *)
Lemma full_size_slides_union (W d : gmap string file) :
  (forall k, is_full_size k = true -> W !! k = None) ->
  full_size_slides (W ∪ d) = full_size_slides d.
Proof.
  intros HW. unfold full_size_slides, sorted.
  apply (Sorted_unique String.le); try apply Sorted_merge_sort; try apply _.
  rewrite !merge_sort_Permutation.
  apply NoDup_Permutation.
  - apply NoDup_filter, NoDup_fst_map_to_list.
  - apply NoDup_filter, NoDup_fst_map_to_list.
  - intros name. rewrite !list_elem_of_filter, !elem_of_listdir.
    split; intros [Hfull Hsome]; (split; [exact Hfull|]).
    + rewrite lookup_union_r in Hsome by auto. exact Hsome.
    + rewrite lookup_union_r by auto. exact Hsome.
Qed.

(** C8.  When the thumbnail generator has run, a second run selects the
    same files, each a full-size name without [_thumb] whose thumbnail name
    does contain [_thumb] and is therefore never selected, and leaves the
    output directory as the first run left it. *)
Theorem generate_thumbnails_idempotent E output_dir thumb_width w w1 :
  generate_thumbnails E output_dir thumb_width w = (Ok tt, w1) ->
  full_size_slides (out_dir w1) = full_size_slides (out_dir w) /\
  Forall (fun f => is_full_size f = true /\
                   PyStr.contains "_thumb" f = false /\
                   PyStr.contains "_thumb" (thumb_filename f) = true /\
                   is_full_size (thumb_filename f) = false)
         (full_size_slides (out_dir w1)) /\
  exists w2,
    generate_thumbnails E output_dir thumb_width w1 = (Ok tt, w2) /\
    out_dir w2 = out_dir w1.
Proof.
  unfold generate_thumbnails. intros H.
  apply bind_Ok_inv in H as ([] & wp & Hp & H). injection Hp as <-. simpl in H.
  assert (Hfull : Forall (fun f => is_full_size f = true) (full_size_slides (out_dir w))).
  { apply Forall_forall. intros f Hf. apply elem_of_full_size_slides in Hf. tauto. }
  destruct (thumbnails_loop E thumb_width _ Hfull _ _ H) as (W & -> & HW & Hagain).
  simpl in *.
  assert (Hsel : full_size_slides (W ∪ out_dir w) = full_size_slides (out_dir w))
    by (apply full_size_slides_union, HW).
  split; [exact Hsel|]. split.
  - rewrite Hsel. apply Forall_forall. intros f Hf.
    apply elem_of_full_size_slides in Hf as [Hf _].
    pose proof (is_full_size_inv f Hf) as (_ & He & Hc).
    auto using thumb_filename_contains_thumb, thumb_filename_not_full_size.
  - unfold bind, print. simpl. rewrite Hsel.
    rewrite Hagain.
    + eexists. split; [reflexivity|]. simpl.
      rewrite (assoc_L (∪)), (idemp_L (∪) W). reflexivity.
    + intros g Hg. simpl. apply lookup_union_r, HW, Hg.
Qed.

Lemma generate_thumbnails_idempotent_witness :
  exists w2,
    generate_thumbnails demo_env "cache" 300
      (generate_thumbnails demo_env "cache" 300 demo_rendered).2 = (Ok tt, w2) /\
    out_dir w2 = out_dir (generate_thumbnails demo_env "cache" 300 demo_rendered).2.
Proof.
  destruct (generate_thumbnails_idempotent demo_env "cache" 300 demo_rendered
              (generate_thumbnails demo_env "cache" 300 demo_rendered).2)
    as (_ & _ & Hagain).
  - apply injective_projections; [vm_compute; reflexivity | reflexivity].
  - exact Hagain.
Defined.

(** ** C9: the counts of pages and of text records *)

(** C9, as the code has it.  The count of rendered pages and the list of
    text records are never compared: once the conversion has returned [n]
    and the extraction [recs], whatever their sizes, the metadata file is
    written with [slideCount = n] and [slides = recs], the only lines printed
    after the extraction are those of the metadata, the final progress and
    the completion, and the run exits with status 0. *)
Theorem metadata_written_whatever_the_counts E args w m w1 n w2 w3 recs w4 :
  os_path_exists E (arg_input args) = true ->
  choose_method E (arg_method args) w = (Ok m, w1) ->
  conversion_step E args m (after_header args m w1) = (Ok n, w2) ->
  thumbnails_step E args
    (World (out_dir w2) (tmp_dirs w2) (stdout w2 ++ [converted_line n])) = (Ok tt, w3) ->
  extract_text_from_pptx E (arg_input args) w3 = (Ok recs, w4) ->
  main E args w =
    (0, World
          (<["metadata.json"%string :=
               JsonFile (Metadata (PyStr.basename (arg_input args)) n (now_isoformat E) recs)]>
             (out_dir w4))
          (tmp_dirs w4)
          (((stdout w4
               ++ ["Metadata saved to " +:+ PyStr.os_path_join (arg_output args) "metadata.json"])
              ++ ["PROGRESS:100"%string])
             ++ ["Conversion complete!"%string])).
Proof.
  intros Hin Hm Hconv Hthumb Hrecs.
  rewrite (main_unfold _ _ _ _ _ Hin Hm).
  unfold run_conversion, bind.
  rewrite Hconv. unfold print at 1. rewrite Hthumb, Hrecs.
  reflexivity.
Qed.

Lemma metadata_written_whatever_the_counts_witness :
  (main demo_env (demo_args auto) demo_world).1 = 0.
Proof.
  set (a := demo_args auto).
  pose (c := conversion_step demo_env a libreoffice (after_header a libreoffice demo_world)).
  pose (t := thumbnails_step demo_env a
               (World (out_dir c.2) (tmp_dirs c.2) (stdout c.2 ++ [converted_line 2]))).
  pose (x := extract_text_from_pptx demo_env (arg_input a) t.2).
  rewrite (metadata_written_whatever_the_counts demo_env a demo_world libreoffice demo_world
             2 c.2 t.2 (map slide_record demo_deck) x.2).
  - reflexivity.
  - reflexivity.
  - reflexivity.
  - apply injective_projections; [vm_compute; reflexivity | reflexivity].
  - apply injective_projections; [vm_compute; reflexivity | reflexivity].
  - apply injective_projections; [vm_compute; reflexivity | reflexivity].
Defined.

(** LibreOffice renders two pages of a deck of three slides: the run exits
    with status 0, the metadata has [slideCount = 2] and three text records,
    and no line of the output is a warning. *)
Lemma count_mismatch_is_not_logged :
  (main demo_env (demo_args libreoffice) demo_world).1 = 0 /\
  (exists m,
     out_dir (main demo_env (demo_args libreoffice) demo_world).2 !! "metadata.json"%string
       = Some (JsonFile m) /\
     slideCount m = 2 /\ length (slides m) = 3%nat) /\
  forallb (fun line => negb (PyStr.contains "WARNING" line) &&
                       negb (PyStr.contains "mismatch" line))
          (stdout (main demo_env (demo_args libreoffice) demo_world).2) = true.
Proof.
  split; [vm_compute; reflexivity|]. split; [|vm_compute; reflexivity].
  eexists. split; [vm_compute; reflexivity|]. split; reflexivity.
Qed.

(** ** C10: the background of the placeholders *)

(** C10.  Every image of the direct path is filled with (0, 0, 32); where an
    image of the LibreOffice path shows its canvas, outside the pasted
    buffer, the pixel is (0, 0, 0), which differs from the pixel of the
    placeholder at the same place. *)
Theorem placeholder_background_differs E input_path output_dir width height w n w' :
  convert_with_pptx_direct E input_path output_dir width height w = (Ok n, w') ->
  forall k, 1 <= k <= n ->
    exists img,
      out_dir w' !! slide_filename k = Some (JpegFile img 92 false) /\
      (forall i j, Image.getpixel img i j = (0, 0, 32)) /\
      (forall pix rendered,
         center_on_canvas pix width height = Ok rendered ->
         Image.width pix <> width \/ Image.height pix <> height ->
         forall i j,
           in_box (x_offset width pix) (y_offset height pix)
                  (Image.width pix) (Image.height pix) i j = false ->
           Image.getpixel rendered i j = (0, 0, 0) /\
           Image.getpixel rendered i j <> Image.getpixel img i j).
Proof.
  intros H k Hk.
  apply convert_with_pptx_direct_Ok in H as (prs & _ & -> & _ & Hfiles).
  destruct (Hfiles (Z.to_nat (k - 1))) as (img & Hnew & Hl); [lia|].
  replace (Z.of_nat (Z.to_nat (k - 1)) + 1) with k in Hl by lia.
  exists img. split; [exact Hl|].
  apply Image_new_Ok in Hnew as (_ & _ & Hfill).
  split; [exact Hfill|].
  intros pix rendered Hc Hd i j Hout.
  rewrite (center_on_canvas_pixels _ _ _ _ Hd Hc), Hout, Hfill.
  split; [reflexivity|discriminate].
Qed.

Lemma placeholder_background_differs_witness :
  exists img,
    out_dir (convert_with_pptx_direct demo_env "/decks/deck.pptx" "cache" 1920 1080
               demo_world).2 !! slide_filename 3 = Some (JpegFile img 92 false) /\
    Image.getpixel img 0 0 = (0, 0, 32).
Proof.
  destruct (placeholder_background_differs demo_env "/decks/deck.pptx" "cache" 1920 1080
              demo_world 3
              (convert_with_pptx_direct demo_env "/decks/deck.pptx" "cache" 1920 1080
                 demo_world).2) with (k := 3) as (img & Hl & Hfill & _).
  - apply injective_projections; [vm_compute; reflexivity | reflexivity].
  - lia.
  - exists img. split; [exact Hl | apply Hfill].
Defined.

(** * Further properties of the script *)

(** ** The names of the slide files *)

Lemma numeric_app (s t : string) : numeric s = true -> numeric t = true -> numeric (s +:+ t) = true.
Proof.
  induction s as [|c s IH]; [auto|]. rewrite append_cons. simpl.
  intros [Hc Hs]%andb_true_iff Ht. rewrite Hc. simpl. auto.
Qed.

Lemma numeric_uint (d : Decimal.uint) : numeric (NilEmpty.string_of_uint d) = true.
Proof. induction d; simpl; auto. Qed.

Lemma numeric_str_of_Z (n : Z) : numeric (PyStr.str_of_Z n) = true.
Proof.
  unfold PyStr.str_of_Z. destruct n as [|p|p]; [reflexivity|..]; simpl;
    unfold NilZero.string_of_uint; destruct (Pos.to_uint p) eqn:Hp;
    try reflexivity; rewrite <- Hp; try apply numeric_uint.
  all: change (numeric (String "-" (NilEmpty.string_of_uint (Pos.to_uint p))) = true);
    simpl; apply numeric_uint.
Qed.

Lemma numeric_zeros (k : nat) : numeric (PyStr.zeros k) = true.
Proof. induction k; simpl; auto. Qed.

Lemma numeric_format_03d (n : Z) : numeric (PyStr.format_03d n) = true.
Proof.
  unfold PyStr.format_03d, PyStr.zfill.
  destruct (n <? 0).
  - rewrite append_cons, append_nil_l. simpl.
    apply numeric_app; [apply numeric_zeros | apply numeric_str_of_Z].
  - apply numeric_app; [apply numeric_zeros | apply numeric_str_of_Z].
Qed.

Lemma numeric_without c s : is_numeric c = false -> numeric s = true -> without c s = true.
Proof.
  intros Hc. induction s as [|c' s IH]; [reflexivity|]. simpl.
  intros [Hc' Hs]%andb_true_iff. rewrite (IH Hs), andb_true_r.
  destruct (Ascii.eqb_spec c c'); [congruence|reflexivity].
Qed.

Lemma without_app c (s t : string) :
  without c s = true -> without c t = true -> without c (s +:+ t) = true.
Proof.
  induction s as [|c' s IH]; [auto|]. rewrite append_cons. simpl.
  intros [Hc Hs]%andb_true_iff Ht. rewrite Hc. simpl. auto.
Qed.

Lemma prefix_first c p c' s :
  Ascii.eqb c c' = false -> String.prefix (String c p) (String c' s) = false.
Proof.
  intros Hc. simpl. destruct (ascii_dec c c') as [->|]; [|reflexivity].
  rewrite Ascii.eqb_refl in Hc. discriminate.
Qed.

Lemma prefix_without c p s : without c s = true -> String.prefix (String c p) s = false.
Proof.
  destruct s as [|c' s]; [reflexivity|]. simpl without.
  intros [Hc _]%andb_true_iff. apply prefix_first, negb_true_iff, Hc.
Qed.

Lemma contains_without c p s : without c s = true -> PyStr.contains (String c p) s = false.
Proof.
  induction s as [|c' s IH]; [reflexivity|]. intros H.
  change (String.prefix (String c p) (String c' s) || PyStr.contains (String c p) s = false).
  rewrite (prefix_without c p _ H). simpl in H. apply andb_true_iff in H as [_ H]. auto.
Qed.

Lemma endswith_app suf s : PyStr.endswith suf (s +:+ suf) = true.
Proof.
  induction s as [|c s IH].
  - rewrite append_nil_l. destruct suf; simpl; rewrite ?String.eqb_refl, ?Ascii.eqb_refl; reflexivity.
  - rewrite append_cons. simpl. rewrite IH. apply orb_true_r.
Qed.

(** A replacement leaves a text without dot as it is. *)
Lemma replace_without_dot new s rest :
  without "." s = true ->
  PyStr.replace_from ".jpg" new O (s +:+ rest)
    = s +:+ PyStr.replace_from ".jpg" new O rest.
Proof.
  induction s as [|c s IH]; [reflexivity|]. simpl without.
  intros [Hc Hs]%andb_true_iff. rewrite !append_cons.
  change (PyStr.replace_from ".jpg" new 0 (String c (s +:+ rest)))
    with (if String.prefix ".jpg" (String c (s +:+ rest))
          then new +:+ PyStr.replace_from ".jpg" new 3 (s +:+ rest)
          else String c (PyStr.replace_from ".jpg" new 0 (s +:+ rest))).
  rewrite prefix_first by (apply negb_true_iff, Hc).
  rewrite (IH Hs). reflexivity.
Qed.

Lemma format_03d_without c : is_numeric c = false -> forall n, without c (PyStr.format_03d n) = true.
Proof. intros Hc n. apply numeric_without; [exact Hc | apply numeric_format_03d]. Qed.

(** The name of a page is a full-size name, and its thumbnail is named by
    the same number. *)
Lemma slide_filename_without c :
  is_numeric c = false -> without c (PyStr.format_03d 0 +:+ ".jpg") = true ->
  forall n, without c (PyStr.format_03d n +:+ ".jpg") = true.
Proof.
  intros Hc H0 n. apply without_app; [apply format_03d_without, Hc|].
  destruct (Ascii.eqb_spec c "."), (Ascii.eqb_spec c "j"), (Ascii.eqb_spec c "p"),
    (Ascii.eqb_spec c "g"); subst; try discriminate; simpl;
    repeat match goal with
           | H : ?a <> ?b |- context [Ascii.eqb ?a ?b] =>
               destruct (Ascii.eqb_spec a b); [contradiction|]
           end; reflexivity.
Qed.

Lemma thumb_filename_slide n : thumb_filename (slide_filename n) = slide_thumb_filename n.
Proof.
  unfold thumb_filename, PyStr.replace, slide_filename, slide_thumb_filename.
  rewrite (replace_without_dot "_thumb.jpg" "slide_") by reflexivity.
  rewrite (replace_without_dot "_thumb.jpg" (PyStr.format_03d n))
    by (apply format_03d_without; reflexivity).
  reflexivity.
Qed.

Lemma contains_thumb_slide n : PyStr.contains "_thumb" (slide_filename n) = false.
Proof.
  unfold slide_filename.
  assert (Ht : String.prefix "thumb" (PyStr.format_03d n +:+ ".jpg") = false)
    by (apply prefix_without, slide_filename_without; reflexivity).
  assert (Hu : PyStr.contains "_thumb" (PyStr.format_03d n +:+ ".jpg") = false)
    by (apply contains_without, slide_filename_without; reflexivity).
  rewrite !append_cons, append_nil_l. simpl. rewrite Ht, Hu. reflexivity.
Qed.

Lemma endswith_jpg_slide n : PyStr.endswith ".jpg" (slide_filename n) = true.
Proof.
  unfold slide_filename. rewrite !append_cons, append_nil_l. simpl.
  rewrite (endswith_app ".jpg" (PyStr.format_03d n)). reflexivity.
Qed.

Lemma is_full_size_slide n : is_full_size (slide_filename n) = true.
Proof.
  unfold is_full_size. rewrite contains_thumb_slide, endswith_jpg_slide.
  unfold slide_filename, PyStr.startswith. rewrite !append_cons, append_nil_l.
  simpl. destruct (PyStr.format_03d n +:+ ".jpg"); reflexivity.
Qed.

Lemma slide_thumb_filename_inj n m :
  0 <= n -> 0 <= m -> slide_thumb_filename n = slide_thumb_filename m -> n = m.
Proof.
  intros Hn Hm H. unfold slide_thumb_filename in H.
  injection H as H. rewrite !append_nil_l in H. apply append_cancel_r in H.
  apply (f_equal decimal_value) in H.
  rewrite !decimal_value_format_03d in H by assumption. congruence.
Qed.

Lemma contains_thumb_slide_thumb n : PyStr.contains "_thumb" (slide_thumb_filename n) = true.
Proof.
  rewrite <- thumb_filename_slide.
  apply thumb_filename_contains_thumb, endswith_jpg_slide.
Qed.

Lemma slide_filename_not_thumb n m : slide_filename n <> slide_thumb_filename m.
Proof.
  intros H. pose proof (contains_thumb_slide n) as Hn.
  rewrite H, contains_thumb_slide_thumb in Hn. discriminate.
Qed.

(** X1.  The files of two different pages have different names, and so have
    their thumbnails; no page file has the name of a thumbnail.  The page
    numbers of the loops start at 1. *)
Theorem slide_names_distinct n m :
  0 <= n -> 0 <= m ->
  (slide_filename n = slide_filename m -> n = m) /\
  (slide_thumb_filename n = slide_thumb_filename m -> n = m) /\
  slide_filename n <> slide_thumb_filename m /\
  slide_filename m <> slide_thumb_filename n.
Proof.
  intros Hn Hm.
  split; [apply slide_filename_inj; assumption|].
  split; [apply slide_thumb_filename_inj; assumption|].
  split; apply slide_filename_not_thumb.
Qed.

Lemma slide_names_distinct_witness :
  slide_filename 7 <> slide_filename 1007 /\
  slide_thumb_filename 7 <> slide_thumb_filename 1007.
Proof.
  destruct (slide_names_distinct 7 1007) as (H1 & H2 & _); [lia|lia|].
  split; intros H; [apply H1 in H | apply H2 in H]; discriminate.
Defined.

(** X2.  The name that the converters give to the file of a page is one that
    the thumbnail generator selects; the thumbnail is named by the same page
    number, and is itself not selected. *)
Theorem page_names_are_selected n :
  is_full_size (slide_filename n) = true /\
  thumb_filename (slide_filename n) = slide_thumb_filename n /\
  is_full_size (slide_thumb_filename n) = false.
Proof.
  split; [apply is_full_size_slide|]. split; [apply thumb_filename_slide|].
  rewrite <- thumb_filename_slide.
  apply thumb_filename_not_full_size, is_full_size_slide.
Qed.

(** ** The search for the converter and for its PDF *)

Lemma find_first_match {A} (f : A -> bool) l x :
  List.find f l = Some x <-> first_match f l x.
Proof.
  unfold first_match. induction l as [|y l IH]; simpl.
  - split; [discriminate|]. intros ([|? ?] & l2 & H & _); discriminate.
  - destruct (f y) eqn:Hy.
    + split.
      * intros [= <-]. exists [], l. auto.
      * intros ([|z l1] & l2 & H & Hx & Hl1); simpl in H; injection H as -> ->.
        -- reflexivity.
        -- inversion Hl1; congruence.
    + rewrite IH. split.
      * intros (l1 & l2 & -> & Hx & Hl1). exists (y :: l1), l2. auto.
      * intros ([|z l1] & l2 & H & Hx & Hl1); simpl in H; injection H as -> ->.
        -- congruence.
        -- inversion Hl1; subst. eauto.
Qed.

Lemma find_none_Forall {A} (f : A -> bool) l :
  List.find f l = None <-> Forall (fun y => f y = false) l.
Proof.
  induction l as [|y l IH]; simpl.
  - split; auto.
  - destruct (f y) eqn:Hy.
    + split; [discriminate|]. inversion 1; congruence.
    + rewrite IH. split; [auto|]. inversion 1; assumption.
Qed.

(** X3.  The search for LibreOffice has three stages, each tried only when
    the ones before it found nothing: [soffice] on the PATH, [soffice.exe]
    on the PATH, then the usual places of the platform in their order, of
    which the first that exists is returned.  A binary found on the PATH is
    returned by its bare name.  Nothing is returned exactly when all three
    stages find nothing. *)
Theorem find_libreoffice_precedence E :
  (forall p,
     find_libreoffice E = Some p <->
     (truthy (shutil_which E "soffice") = true /\ p = "soffice"%string) \/
     (truthy (shutil_which E "soffice") = false /\
      truthy (shutil_which E "soffice.exe") = true /\ p = "soffice.exe"%string) \/
     (truthy (shutil_which E "soffice") = false /\
      truthy (shutil_which E "soffice.exe") = false /\
      first_match (os_path_exists E) (possible_paths E) p)) /\
  (find_libreoffice E = None <->
     truthy (shutil_which E "soffice") = false /\
     truthy (shutil_which E "soffice.exe") = false /\
     Forall (fun p => os_path_exists E p = false) (possible_paths E)).
Proof.
  unfold find_libreoffice. split; [intros p|].
  - destruct (truthy (shutil_which E "soffice")).
    { split; [intros [= <-]; auto|].
      intros [[_ ->]|[(H & _)|(H & _)]]; [reflexivity|discriminate..]. }
    destruct (truthy (shutil_which E "soffice.exe")).
    { split; [intros [= <-]; auto|].
      intros [[H _]|[(_ & _ & ->)|(_ & H & _)]]; [discriminate|reflexivity|discriminate]. }
    rewrite find_first_match. split; [auto|].
    intros [[H _]|[(_ & H & _)|(_ & _ & H)]]; [discriminate..|exact H].
  - destruct (truthy (shutil_which E "soffice")).
    { split; [discriminate|]. intros [H _]. discriminate. }
    destruct (truthy (shutil_which E "soffice.exe")).
    { split; [discriminate|]. intros (_ & H & _). discriminate. }
    rewrite find_none_Forall. tauto.
Qed.

(** X4.  The PDF that is rendered is searched in the temporary directory
    under its expected name, the stem of the input with [.pdf]; an entry of
    that name is taken whatever the other entries are, and only when there
    is none the first entry of the listing whose name ends in [.pdf] is
    taken.  The search prints the path it looks for, and the list of the PDF
    files found when it has to fall back on it; it writes no file. *)
Theorem locate_pdf_precedence d i w p w' :
  locate_pdf d i w = (Ok p, w') ->
  let expected := PyStr.stem i +:+ ".pdf" in
  let entries := default [] (tmp_dirs w !! d) in
  let looking := "Looking for PDF at: " +:+ str_of_path (d, expected) in
  let found :=
    "Found PDF files in temp dir: "
      +:+ repr_paths d (filter (fun n => PyStr.endswith ".pdf" n = true) (map fst entries)) in
  p.1 = d /\ out_dir w' = out_dir w /\ tmp_dirs w' = tmp_dirs w /\
  ((is_Some (assoc expected entries) /\ p.2 = expected /\
    stdout w' = stdout w ++ [looking]) \/
   (assoc expected entries = None /\
    first_match (PyStr.endswith ".pdf") (map fst entries) p.2 /\
    stdout w' = stdout w ++ [looking; found])).
Proof.
  intros H. pose proof (locate_pdf_Ok _ _ _ _ _ H) as (Hd & Ho & Ht & Hsel).
  cbv zeta in Hsel. cbv zeta.
  split; [exact Hd|]. split; [exact Ho|]. split; [exact Ht|].
  unfold locate_pdf in H.
  apply bind_Ok_inv in H as ([] & w1 & Hp & H). injection Hp as <-.
  apply bind_Ok_inv in H as (entries & w1 & He & H). injection He as <- <-.
  simpl in H.
  destruct (bool_decide (is_Some (assoc _ _))) eqn:Hdec; simpl in H.
  - injection H as <- <-. apply bool_decide_eq_true in Hdec. left. auto.
  - apply bool_decide_eq_false in Hdec.
    apply bind_Ok_inv in H as ([] & w1 & Hp & H). injection Hp as <-.
    destruct (filter _ _) as [|first rest] eqn:Hf.
    + apply bind_Ok_inv in H as ([] & w1 & _ & H). discriminate.
    + injection H as <- <-. simpl.
      destruct Hsel as [[Hsome _]|[Hnone Hmatch]]; [contradiction|].
      right. split; [exact Hnone|]. split; [exact Hmatch|].
      rewrite <- app_assoc. reflexivity.
Qed.

Lemma locate_pdf_precedence_witness :
  first_match (PyStr.endswith ".pdf") ["notes.txt"; "first.pdf"; "second.pdf"]%string
    "first.pdf"%string.
Proof.
  destruct (locate_pdf_precedence "tmp0" "/decks/deck.pptx" demo_listing
              ("tmp0", "first.pdf")%string
              (locate_pdf "tmp0" "/decks/deck.pptx" demo_listing).2)
    as (_ & _ & _ & [[[f Hf] _]|(_ & H & _)]).
  - apply injective_projections; [vm_compute; reflexivity | reflexivity].
  - vm_compute in Hf. discriminate.
  - exact H.
Defined.

Lemma find_libreoffice_precedence_witness :
  find_libreoffice demo_env = Some "soffice"%string.
Proof.
  apply (proj1 (find_libreoffice_precedence demo_env)).
  left. split; reflexivity.
Defined.

(** ** The footprint of a run *)

Lemma prefix_append (p x : string) : String.prefix p (p +:+ x) = true.
Proof.
  induction p as [|c p IH].
  - rewrite append_nil_l. destruct x; reflexivity.
  - rewrite append_cons. simpl. destruct (ascii_dec c c); [exact IH|congruence].
Qed.

Lemma prefix_append_inv (p s : string) :
  String.prefix p s = true -> exists rest, s = p +:+ rest.
Proof.
  revert s. induction p as [|c p IH]; intros s H.
  - exists s. reflexivity.
  - destruct s as [|c' s]; [discriminate|]. simpl in H.
    destruct (ascii_dec c c') as [<-|]; [|discriminate].
    destruct (IH s H) as [rest ->]. exists rest. reflexivity.
Qed.

Lemma startswith_slide_filename n : PyStr.startswith "slide_" (slide_filename n) = true.
Proof. apply (is_full_size_inv _ (is_full_size_slide n)). Qed.

(** The thumbnail of a file named [slide_...] is named [slide_...] too. *)
Lemma startswith_thumb_filename f :
  PyStr.startswith "slide_" f = true -> PyStr.startswith "slide_" (thumb_filename f) = true.
Proof.
  unfold PyStr.startswith. intros [rest ->]%prefix_append_inv.
  unfold thumb_filename, PyStr.replace.
  rewrite (replace_without_dot "_thumb.jpg" "slide_") by reflexivity.
  apply prefix_append.
Qed.

Lemma metadata_not_slide : PyStr.startswith "slide_" "metadata.json" = false.
Proof. reflexivity. Qed.

(** X5.  A run touches no entry of the output directory but those named
    [slide_...] and [metadata.json]: every other entry is after the run,
    whatever its outcome, what it was before. *)
Theorem main_touches_only_its_files E args w name :
  PyStr.startswith "slide_" name = false ->
  name <> "metadata.json"%string ->
  out_dir (main E args w).2 !! name = out_dir w !! name.
Proof.
  intros Hname Hmeta.
  apply (main_respects E (same_entry name) (fun n => n <> name)).
  - intros n <-. rewrite startswith_slide_filename in Hname. discriminate.
  - intros f Hf <-. apply is_full_size_inv in Hf as (Hs & _ & _).
    rewrite (startswith_thumb_filename f Hs) in Hname. discriminate.
  - congruence.
Qed.

Lemma main_touches_only_its_files_witness :
  out_dir (main demo_env (demo_args auto) demo_rendered).2 !! "notes.txt"%string = None.
Proof.
  rewrite (main_touches_only_its_files demo_env (demo_args auto) demo_rendered "notes.txt").
  - reflexivity.
  - reflexivity.
  - discriminate.
Defined.

(** Standard output of a run extends what was printed before it. *)
Lemma main_stdout_grows E args w : stdout w `prefix_of` stdout (main E args w).2.
Proof. apply (main_respects E stdout_grows (fun _ => True)); auto. Qed.

(** ** The outcome of a run *)

Lemma choose_method_Ok E m w :
  exists chosen w', choose_method E m w = (Ok chosen, w') /\ chosen <> auto.
Proof.
  unfold choose_method. destruct m; simpl.
  - exists libreoffice, w. split; [reflexivity|discriminate].
  - exists direct, w. split; [reflexivity|discriminate].
  - destruct (truthy (find_libreoffice E) && PYMUPDF_AVAILABLE E).
    + exists libreoffice, w. split; [reflexivity|discriminate].
    + eexists direct, _. split; [reflexivity|discriminate].
Qed.

(** Once the input file is known to exist, [main] is the [try] block run by
    a method that is not [auto], after the header. *)
Lemma main_runs E args w :
  os_path_exists E (arg_input args) = true ->
  exists m w0,
    choose_method E (arg_method args) w = (Ok m, w0) /\ m <> auto /\
    main E args w =
      match run_conversion E args m (after_header args m w0) with
      | (Ok _, w2) => (0, w2)
      | (Raise e, w2) =>
          (1, World (out_dir w2) (tmp_dirs w2) (stdout w2 ++ ["ERROR: " +:+ exn_msg e]))
      end.
Proof.
  intros Hin. destruct (choose_method_Ok E (arg_method args) w) as (m & w0 & Hm & Hauto).
  exists m, w0. split; [exact Hm|]. split; [exact Hauto|].
  apply main_unfold; assumption.
Qed.

Lemma main_missing_input E args w :
  os_path_exists E (arg_input args) = false ->
  main E args w =
    (1, World (out_dir w) (tmp_dirs w)
          (stdout w ++ ["ERROR: " +:+ ("Input file not found: " +:+ arg_input args)])).
Proof. intros Hin. unfold main. rewrite Hin. reflexivity. Qed.

Lemma create_metadata_Ok E o i n recs w :
  create_metadata E o i n recs w =
    (Ok tt,
     World (<["metadata.json"%string :=
                JsonFile (Metadata (PyStr.basename i) n (now_isoformat E) recs)]> (out_dir w))
           (tmp_dirs w)
           (stdout w ++ ["Metadata saved to " +:+ PyStr.os_path_join o "metadata.json"])).
Proof. reflexivity. Qed.

(** The steps of a [try] block that ends without exception. *)
Lemma run_conversion_Ok_inv E args m w1 w' :
  run_conversion E args m w1 = (Ok tt, w') ->
  exists n w2 w3 recs w4,
    conversion_step E args m w1 = (Ok n, w2) /\
    thumbnails_step E args
      (World (out_dir w2) (tmp_dirs w2) (stdout w2 ++ [converted_line n])) = (Ok tt, w3) /\
    extract_text_from_pptx E (arg_input args) w3 = (Ok recs, w4) /\
    w' = World
           (<["metadata.json"%string :=
                JsonFile (Metadata (PyStr.basename (arg_input args)) n (now_isoformat E) recs)]>
              (out_dir w4))
           (tmp_dirs w4)
           (((stdout w4
                ++ ["Metadata saved to " +:+ PyStr.os_path_join (arg_output args) "metadata.json"])
               ++ ["PROGRESS:100"%string])
              ++ ["Conversion complete!"%string]).
Proof.
  unfold run_conversion. intros H.
  apply bind_Ok_inv in H as (n & w2 & Hconv & H).
  apply bind_Ok_inv in H as ([] & wp & Hp & H). injection Hp as <-.
  apply bind_Ok_inv in H as ([] & w3 & Hthumb & H).
  apply bind_Ok_inv in H as (recs & w4 & Hrecs & H).
  apply bind_Ok_inv in H as ([] & w5 & Hmeta & H).
  rewrite create_metadata_Ok in Hmeta. injection Hmeta as <-.
  apply bind_Ok_inv in H as ([] & w6 & Hp & H). injection Hp as <-.
  injection H as <-.
  exists n, w2, w3, recs, w4. auto.
Qed.

(** ** The script from the command line on *)

Lemma prologue_runs E args w :
  exists m w0,
    choose_method E (arg_method args) w = (Ok m, w0) /\
    (m <- choose_method E (arg_method args) ;; print_header args m ;;; ret m) w
      = (Ok m, after_header args m w0).
Proof.
  destruct (choose_method_Ok E (arg_method args) w) as (m & w0 & Hm & _).
  exists m, w0. split; [exact Hm|].
  unfold bind at 1. rewrite Hm.
  unfold bind at 1. rewrite print_header_after_header. reflexivity.
Qed.

Lemma script_unfold E inv w args :
  parse_args inv = Parsed args ->
  os_path_exists E (arg_input args) = true ->
  os_makedirs inv (arg_output args) = None ->
  exists m w0,
    choose_method E (arg_method args) w = (Ok m, w0) /\
    script E inv w =
      match try_block E inv args m (after_header args m w0) with
      | (Ok _, w2) => (0, w2)
      | (Raise e, w2) =>
          (1, World (out_dir w2) (tmp_dirs w2) (stdout w2 ++ ["ERROR: " +:+ exn_msg e]))
      end.
Proof.
  intros Hp Hin Hmk. destruct (prologue_runs E args w) as (m & w0 & Hm & Hpro).
  exists m, w0. split; [exact Hm|].
  unfold script. rewrite Hp, Hin, Hmk. simpl. rewrite Hpro. reflexivity.
Qed.

(** The four ways in which the [try] block ends. *)
Lemma try_block_inv E inv args m w r w' :
  try_block E inv args m w = (r, w') ->
  (exists e, r = Raise e /\ before_metadata E args m w = (Raise e, w')) \/
  (exists n recs w1,
     before_metadata E args m w = (Ok (n, recs), w1) /\
     let meta := Metadata (PyStr.basename (arg_input args)) n (now_isoformat E) recs in
     let path := PyStr.os_path_join (arg_output args) "metadata.json" in
     (exists e, open_for_writing inv path = Some e /\ r = Raise e /\ w' = w1) \/
     (exists written e,
        open_for_writing inv path = None /\ json_dump inv meta = Some (written, e) /\
        r = Raise e /\
        w' = World (<["metadata.json"%string := RawFile written]> (out_dir w1))
               (tmp_dirs w1) (stdout w1)) \/
     (open_for_writing inv path = None /\ json_dump inv meta = None /\
      r = Ok tt /\
      w' = World (<["metadata.json"%string := JsonFile meta]> (out_dir w1))
             (tmp_dirs w1)
             (((stdout w1 ++ ["Metadata saved to " +:+ path])
                 ++ ["PROGRESS:100"%string]) ++ ["Conversion complete!"%string]))).
Proof.
  unfold try_block. intros H.
  apply bind_inv in H as [([n recs] & w1 & Hsteps & H)|(e & Hsteps & ->)];
    [|left; eauto].
  right. exists n, recs, w1. split; [exact Hsteps|]. cbv zeta.
  unfold write_metadata in H. simpl in H.
  destruct (open_for_writing inv _) as [e|].
  - left. exists e. injection H as <- <-. auto.
  - right. destruct (json_dump inv _) as [[written e]|].
    + left. exists written, e. injection H as <- <-. auto.
    + right. injection H as <- <-. auto.
Qed.

(** When the file system accepts the output directory and the metadata
    file, the script is the run of [main] on the parsed arguments. *)
Lemma script_is_main E inv w args :
  parse_args inv = Parsed args ->
  (os_path_exists E (arg_input args) = true -> os_makedirs inv (arg_output args) = None) ->
  (forall path, open_for_writing inv path = None) ->
  (forall meta, json_dump inv meta = None) ->
  script E inv w = main E args w.
Proof.
  intros Hp Hmk Hopen Hdump. unfold script, main. rewrite Hp.
  destruct (os_path_exists E (arg_input args)); [|reflexivity].
  rewrite (Hmk eq_refl). simpl.
  match goal with
  | |- context [match ?c w with _ => _ end] => destruct (c w) as [[m|e] w1]
  end; [|reflexivity].
  assert (Hsame : try_block E inv args m w1 = run_conversion E args m w1).
  { unfold try_block, run_conversion, before_metadata, write_metadata, create_metadata, bind.
    destruct (conversion_step E args m w1) as [[n|e] w2]; [|reflexivity].
    destruct (print (converted_line n) w2) as [[[]|e] w3]; [|reflexivity].
    destruct (thumbnails_step E args w3) as [[[]|e] w4]; [|reflexivity].
    destruct (extract_text_from_pptx E (arg_input args) w4) as [[recs|e] w5]; [|reflexivity].
    simpl. rewrite Hopen, Hdump. reflexivity. }
  rewrite Hsame. reflexivity.
Qed.


Section FootprintOfTheScript.

Context (E : env) (R : relation world) (writable : string -> Prop)
  `{!Footprint R writable}.

#[local] Existing Instance footprint_refl.
#[local] Existing Instance footprint_trans.

Hypothesis writable_slides : forall n, writable (slide_filename n).
Hypothesis writable_thumbs : forall f, is_full_size f = true -> writable (thumb_filename f).
Hypothesis writable_metadata : writable "metadata.json".




End FootprintOfTheScript.



(** ** What a failed run leaves of the metadata *)



(** ** What the two converters print and write *)

Section Contracts.

Variable E : env.

Lemma render_pages_stdout width height total pages :
  forall page_num slide_count w n w',
    render_pages E width height total pages page_num slide_count w = (Ok n, w') ->
    exists lines,
      stdout w' = stdout w ++ lines /\
      length lines = length pages /\
      forall (k : nat) line,
        lines !! k = Some line -> tick_line total (page_num + Z.of_nat k + 1) line.
Proof.
  induction pages as [|p rest IH]; intros page_num slide_count w n w' H.
  - simpl in H. injection H as <- <-. exists []. rewrite app_nil_r.
    split; [reflexivity|]. split; [reflexivity|].
    intros k line Hk. rewrite lookup_nil in Hk. discriminate.
  - simpl in H. apply bind_Ok_inv in H as ([] & w1 & Hpage & H).
    apply render_page_Ok in Hpage as (zoom & pix & img & progress & _ & _ & _ & Hg & ->).
    apply IH in H as (lines & Hout & Hlen & Hlines). simpl in Hout.
    exists (progress_line progress :: lines).
    split; [rewrite Hout, <- app_assoc; reflexivity|].
    split; [simpl; congruence|].
    intros [|k] line Hk; simpl in Hk.
    + injection Hk as <-. exists progress.
      replace (page_num + Z.of_nat 0 + 1) with (page_num + 1) by lia. auto.
    + replace (page_num + Z.of_nat (S k) + 1) with (page_num + 1 + Z.of_nat k + 1) by lia.
      apply Hlines, Hk.
Qed.

Lemma render_pages_PIL width height total p rest page_num slide_count w n w' :
  render_pages E width height total (p :: rest) page_num slide_count w = (Ok n, w') ->
  PIL_AVAILABLE E = true.
Proof.
  simpl. intros H. apply bind_Ok_inv in H as ([] & w1 & Hpage & _).
  unfold render_page in Hpage.
  apply bind_Ok_inv in Hpage as (zoom & w2 & _ & Hpage).
  apply bind_Ok_inv in Hpage as (pix & w3 & _ & Hpage).
  apply bind_Ok_inv in Hpage as ([] & w4 & Hpil & _).
  apply PIL_Image_Ok in Hpil as [Hpil _]. exact Hpil.
Qed.

Lemma placeholder_pages_stdout width height total prs_slides :
  forall idx w w',
    placeholder_pages E width height total prs_slides idx w = (Ok tt, w') ->
    exists lines,
      stdout w' = stdout w ++ lines /\
      length lines = length prs_slides /\
      forall (k : nat) line,
        lines !! k = Some line -> tick_line total (idx + Z.of_nat k + 1) line.
Proof.
  induction prs_slides as [|s rest IH]; intros idx w w' H.
  - simpl in H. injection H as <-. exists []. rewrite app_nil_r.
    split; [reflexivity|]. split; [reflexivity|].
    intros k line Hk. rewrite lookup_nil in Hk. discriminate.
  - simpl in H. apply bind_Ok_inv in H as ([] & w1 & Hpage & H).
    apply placeholder_page_Ok in Hpage as (img & progress & _ & Hg & ->).
    apply IH in H as (lines & Hout & Hlen & Hlines). simpl in Hout.
    exists (progress_line progress :: lines).
    split; [rewrite Hout, <- app_assoc; reflexivity|].
    split; [simpl; congruence|].
    intros [|k] line Hk; simpl in Hk.
    + injection Hk as <-. exists progress.
      replace (idx + Z.of_nat 0 + 1) with (idx + 1) by lia. auto.
    + replace (idx + Z.of_nat (S k) + 1) with (idx + 1 + Z.of_nat k + 1) by lia.
      apply Hlines, Hk.
Qed.

Lemma placeholder_pages_PIL width height total s rest idx w w' :
  placeholder_pages E width height total (s :: rest) idx w = (Ok tt, w') ->
  PIL_AVAILABLE E = true.
Proof.
  simpl. intros H. apply bind_Ok_inv in H as ([] & w1 & Hpage & _).
  unfold placeholder_page in Hpage.
  apply bind_Ok_inv in Hpage as ([] & w4 & Hpil & _).
  apply PIL_Image_Ok in Hpil as [Hpil _]. exact Hpil.
Qed.

(** The names written by a loop over [n] pages are those of pages 1 to [n]. *)
Lemma page_names (n : nat) name :
  (forall k, 1 <= k <= Z.of_nat n -> name <> slide_filename k) ->
  forall k : nat, (k < n)%nat -> name <> slide_filename (0 + Z.of_nat k + 1).
Proof. intros H k Hk. apply H. lia. Qed.

Lemma convert_pdf_to_images_inv pdf_path output_dir width height w n w' :
  convert_pdf_to_images E pdf_path output_dir width height w = (Ok n, w') ->
  exists doc,
    PYMUPDF_AVAILABLE E = true /\
    assoc pdf_path.2 (default [] (tmp_dirs w !! pdf_path.1)) = Some (PdfFile doc) /\
    render_pages E width height (Z.of_nat (length doc)) doc 0 0 w = (Ok n, w').
Proof.
  unfold convert_pdf_to_images. destruct (PYMUPDF_AVAILABLE E); [|discriminate].
  simpl. intros H. apply bind_Ok_inv in H as (doc & w1 & Hopen & H).
  apply fitz_open_Ok in Hopen as [-> Hdoc]. eauto.
Qed.

Lemma convert_pdf_to_images_frame pdf_path output_dir width height w n w' name :
  convert_pdf_to_images E pdf_path output_dir width height w = (Ok n, w') ->
  (forall k, 1 <= k <= n -> name <> slide_filename k) ->
  out_dir w' !! name = out_dir w !! name.
Proof.
  intros H Hname. apply convert_pdf_to_images_inv in H as (doc & _ & _ & H).
  apply render_pages_Ok in H as (-> & _ & _ & Hframe); [|lia].
  apply Hframe, page_names. intros k Hk. apply Hname. lia.
Qed.

Lemma convert_with_pptx_direct_inv input_path output_dir width height w n w' :
  convert_with_pptx_direct E input_path output_dir width height w = (Ok n, w') ->
  exists prs_slides,
    PPTX_AVAILABLE E = true /\
    Presentation E input_path = Ok prs_slides /\
    n = Z.of_nat (length prs_slides) /\
    placeholder_pages E width height n prs_slides 0
      (World (out_dir w) (tmp_dirs w) (stdout w ++ direct_warnings)) = (Ok tt, w').
Proof.
  unfold convert_with_pptx_direct. destruct (PPTX_AVAILABLE E); [|discriminate].
  simpl. intros H.
  apply bind_Ok_inv in H as (prs & w1 & Hp & H). apply lift_inv in Hp as [Hp ->].
  apply bind_Ok_inv in H as ([] & w1 & Hp1 & H). injection Hp1 as <-.
  apply bind_Ok_inv in H as ([] & w2 & Hp2 & H). injection Hp2 as <-.
  apply bind_Ok_inv in H as ([] & w3 & Hloop & H). injection H as <- <-.
  exists prs. split; [reflexivity|]. split; [exact Hp|]. split; [reflexivity|].
  simpl in Hloop. rewrite <- app_assoc in Hloop. exact Hloop.
Qed.

Lemma convert_with_pptx_direct_frame input_path output_dir width height w n w' name :
  convert_with_pptx_direct E input_path output_dir width height w = (Ok n, w') ->
  (forall k, 1 <= k <= n -> name <> slide_filename k) ->
  out_dir w' !! name = out_dir w !! name.
Proof.
  intros H Hname. apply convert_with_pptx_direct_inv in H as (prs & _ & _ & -> & H).
  apply placeholder_pages_Ok in H as (_ & _ & Hframe); [|lia].
  simpl in Hframe. apply Hframe, page_names. exact Hname.
Qed.

End Contracts.

(** X8.  A call of [convert_pdf_to_images] that returns has rendered every
    page of the document: the count returned is the number of pages, the
    file of page [k] is a JPEG saved at quality 92 with [optimize], and
    exactly one progress line per page has been printed, in the order of the
    pages, the line of page [k] being the tick of [k] out of the count.
    Entries of the output directory under other names, in particular the
    files of pages beyond the count left by an earlier run, are those of
    before, and so are the temporary directories. *)
Theorem convert_pdf_to_images_contract E pdf_path output_dir width height w n w' :
  convert_pdf_to_images E pdf_path output_dir width height w = (Ok n, w') ->
  exists doc lines,
    assoc pdf_path.2 (default [] (tmp_dirs w !! pdf_path.1)) = Some (PdfFile doc) /\
    n = Z.of_nat (length doc) /\
    (0 < n -> PIL_AVAILABLE E = true) /\
    (forall k, 1 <= k <= n ->
       exists img, out_dir w' !! slide_filename k = Some (JpegFile img 92 true)) /\
    stdout w' = stdout w ++ lines /\
    Z.of_nat (length lines) = n /\
    (forall (k : nat) line, lines !! k = Some line -> tick_line n (Z.of_nat k + 1) line) /\
    (forall name, (forall k, 1 <= k <= n -> name <> slide_filename k) ->
       out_dir w' !! name = out_dir w !! name) /\
    (forall k, n < k -> out_dir w' !! slide_filename k = out_dir w !! slide_filename k) /\
    tmp_dirs w' = tmp_dirs w.
Proof.
  intros H. pose proof H as Hinv.
  apply convert_pdf_to_images_inv in Hinv as (doc & _ & Hdoc & Hloop).
  pose proof (render_pages_stdout _ _ _ _ _ _ _ _ _ _ Hloop) as (lines & Hout & Hlen & Hlines).
  pose proof Hloop as Hok.
  apply render_pages_Ok in Hok as (Hn & Htmp & Hfiles & _); [|lia].
  simpl in Hn.
  exists doc, lines. split; [exact Hdoc|]. split; [exact Hn|].
  split; [|split; [|split; [exact Hout|split; [lia|split; [|split; [|split]]]]]].
  - intros Hpos. destruct doc as [|p rest]; [simpl in Hn; lia|].
    eapply render_pages_PIL, Hloop.
  - intros k Hk.
    destruct (lookup_lt_is_Some_2 doc (Z.to_nat (k - 1))) as [p Hp]; [lia|].
    destruct (Hfiles _ _ Hp) as (zoom & pix & img & _ & _ & _ & Hl).
    replace (0 + Z.of_nat (Z.to_nat (k - 1)) + 1) with k in Hl by lia. eauto.
  - intros k line Hk. rewrite Hn. specialize (Hlines k line Hk).
    replace (0 + Z.of_nat k + 1) with (Z.of_nat k + 1) in Hlines by lia. exact Hlines.
  - intros name Hname. eapply convert_pdf_to_images_frame; eassumption.
  - intros k Hk. eapply convert_pdf_to_images_frame; [eassumption|].
    intros j Hj Heq. apply slide_filename_inj in Heq; lia.
  - exact Htmp.
Qed.

Lemma convert_pdf_to_images_contract_witness :
  exists lines,
    stdout (convert_pdf_to_images demo_env ("tmp0", "first.pdf")%string "cache" 1920 1080
              demo_listing).2 = lines /\
    Z.of_nat (length lines) = 1.
Proof.
  destruct (convert_pdf_to_images_contract demo_env ("tmp0", "first.pdf")%string "cache"
              1920 1080 demo_listing 1
              (convert_pdf_to_images demo_env ("tmp0", "first.pdf")%string "cache" 1920 1080
                 demo_listing).2)
    as (doc & lines & _ & _ & _ & _ & Hout & Hlen & _).
  - apply injective_projections; [vm_compute; reflexivity | reflexivity].
  - exists lines. split; [exact Hout | exact Hlen].
Defined.

(** X9.  A call of [convert_with_pptx_direct] that returns has made one
    placeholder per slide of the deck: the count returned is the number of
    slides, the file of slide [k] is a JPEG saved at quality 92 without
    [optimize], and the two lines of the warning are printed first, then
    exactly one progress line per slide in the order of the slides.  Entries
    of the output directory under other names are those of before, and so
    are the temporary directories. *)
Theorem convert_with_pptx_direct_contract E input_path output_dir width height w n w' :
  convert_with_pptx_direct E input_path output_dir width height w = (Ok n, w') ->
  exists prs_slides lines,
    Presentation E input_path = Ok prs_slides /\
    n = Z.of_nat (length prs_slides) /\
    (0 < n -> PIL_AVAILABLE E = true) /\
    (forall k, 1 <= k <= n ->
       exists img, out_dir w' !! slide_filename k = Some (JpegFile img 92 false)) /\
    stdout w' = stdout w ++ direct_warnings ++ lines /\
    Z.of_nat (length lines) = n /\
    (forall (k : nat) line, lines !! k = Some line -> tick_line n (Z.of_nat k + 1) line) /\
    (forall name, (forall k, 1 <= k <= n -> name <> slide_filename k) ->
       out_dir w' !! name = out_dir w !! name) /\
    (forall k, n < k -> out_dir w' !! slide_filename k = out_dir w !! slide_filename k) /\
    tmp_dirs w' = tmp_dirs w.
Proof.
  intros H. pose proof H as Hinv.
  apply convert_with_pptx_direct_inv in Hinv as (prs & _ & Hprs & Hn & Hloop).
  pose proof (placeholder_pages_stdout _ _ _ _ _ _ _ _ Hloop) as (lines & Hout & Hlen & Hlines).
  pose proof Hloop as Hok.
  apply placeholder_pages_Ok in Hok as (Htmp & Hfiles & _); [|lia].
  simpl in Hout, Htmp.
  exists prs, lines. split; [exact Hprs|]. split; [exact Hn|].
  split; [|split; [|split; [|split; [lia|split; [|split; [|split]]]]]].
  - intros Hpos. destruct prs as [|s rest]; [simpl in Hn; lia|].
    eapply placeholder_pages_PIL, Hloop.
  - intros k Hk. destruct (Hfiles (Z.to_nat (k - 1))) as (img & _ & Hl); [lia|].
    replace (0 + Z.of_nat (Z.to_nat (k - 1)) + 1) with k in Hl by lia. eauto.
  - rewrite Hout, <- app_assoc. reflexivity.
  - intros k line Hk. specialize (Hlines k line Hk).
    replace (0 + Z.of_nat k + 1) with (Z.of_nat k + 1) in Hlines by lia. exact Hlines.
  - intros name Hname. eapply convert_with_pptx_direct_frame; eassumption.
  - intros k Hk. eapply convert_with_pptx_direct_frame; [eassumption|].
    intros j Hj Heq. apply slide_filename_inj in Heq; lia.
  - exact Htmp.
Qed.

Lemma convert_with_pptx_direct_contract_witness :
  exists lines,
    stdout (convert_with_pptx_direct demo_env "/decks/deck.pptx" "cache" 1920 1080
              demo_world).2 = direct_warnings ++ lines /\
    Z.of_nat (length lines) = 3.
Proof.
  destruct (convert_with_pptx_direct_contract demo_env "/decks/deck.pptx" "cache"
              1920 1080 demo_world 3
              (convert_with_pptx_direct demo_env "/decks/deck.pptx" "cache" 1920 1080
                 demo_world).2)
    as (prs & lines & _ & _ & _ & _ & Hout & Hlen & _).
  - apply injective_projections; [vm_compute; reflexivity | reflexivity].
  - exists lines. split; [exact Hout | exact Hlen].
Defined.

(** ** The LibreOffice path, from the process to the pages *)

Lemma convert_with_libreoffice_inv E i o width height w n w' :
  convert_with_libreoffice E i o width height w = (Ok n, w') ->
  exists soffice out err written name w1 w2,
    find_libreoffice E = Some soffice /\
    subprocess_run E (soffice_cmd soffice (mkdtemp w) i) = Completed 0 out err written /\
    ((is_Some (assoc (PyStr.stem i +:+ ".pdf") written) /\ name = PyStr.stem i +:+ ".pdf") \/
     (assoc (PyStr.stem i +:+ ".pdf") written = None /\
      first_match (PyStr.endswith ".pdf") (map fst written) name)) /\
    out_dir w1 = out_dir w /\
    tmp_dirs w1 !! mkdtemp w = Some written /\
    stdout w `prefix_of` stdout w1 /\
    convert_pdf_to_images E (mkdtemp w, name) o width height w1 = (Ok n, w2) /\
    out_dir w' = out_dir w2 /\ stdout w' = stdout w2.
Proof.
  unfold convert_with_libreoffice.
  destruct (find_libreoffice E) as [soffice|] eqn:Hf; [|discriminate].
  simpl. destruct (String.eqb soffice ""); [discriminate|]. simpl.
  unfold with_TemporaryDirectory.
  match goal with |- context [let '(_, _) := ?b in _] => destruct b as [r w2] eqn:Hbody end.
  intros [= -> <-]. simpl.
  apply bind_Ok_inv in Hbody as ([] & wa & Hp & Hbody). injection Hp as <-.
  apply bind_Ok_inv in Hbody as ([] & wb & Hp & Hbody). injection Hp as <-.
  apply bind_Ok_inv in Hbody as ([] & wc & Htry & Hbody).
  unfold try_except in Htry.
  match type of Htry with
  | match ?c ?x with _ => _ end = _ => destruct (c x) as [[[]|e] wd] eqn:Hrun
  end; [|destruct (String.eqb (exn_class e) "TimeoutExpired"); discriminate].
  injection Htry as <-.
  apply bind_Ok_inv in Hrun as ([[rc out] err] & we & Hproc & Hrun).
  unfold run_converter in Hproc. simpl in Hproc.
  destruct (subprocess_run E _) as [rc' out' err' written| |] eqn:Hsub; try discriminate.
  injection Hproc as -> -> -> <-.
  apply bind_Ok_inv in Hrun as ([] & wf & Hp & Hrun). injection Hp as <-.
  apply bind_Ok_inv in Hrun as ([] & wg & Herr & Hrun).
  destruct (rc =? 0) eqn:Hrc; [|discriminate]. apply Z.eqb_eq in Hrc. subst rc.
  simpl in Hrun. injection Hrun as <-.
  apply bind_Ok_inv in Hbody as (pdf_path & wh & Hloc & Hbody).
  apply bind_Ok_inv in Hbody as ([] & wi & Hp & Hbody). injection Hp as <-.
  assert (Hg : out_dir wg = out_dir w /\
               tmp_dirs wg = <[mkdtemp w := written]> (tmp_dirs w) /\
               stdout w `prefix_of` stdout wg).
  { destruct (negb (String.eqb err "")).
    - injection Herr as <-. simpl. split; [reflexivity|]. split.
      + rewrite lookup_insert_eq. simpl. apply insert_insert_eq.
      + rewrite <- !app_assoc. apply prefix_app_r. reflexivity.
    - injection Herr as <-. simpl. split; [reflexivity|]. split.
      + rewrite lookup_insert_eq. simpl. apply insert_insert_eq.
      + rewrite <- !app_assoc. apply prefix_app_r. reflexivity. }
  destruct Hg as (Hgo & Hgt & Hgs).
  pose proof Hloc as Hstd.
  apply (respects_locate_pdf stdout_grows (fun _ => True)) in Hstd.
  apply locate_pdf_Ok in Hloc as (Hp1 & Hho & Hht & Hsel).
  rewrite Hgt, lookup_insert_eq in Hsel. simpl in Hsel.
  destruct pdf_path as [d name]. simpl in Hp1, Hsel. subst d.
  exists soffice, out, err, written, name.
  eexists. exists w2.
  split; [reflexivity|]. split; [exact Hsub|]. split; [exact Hsel|].
  split; [|split; [|split; [|split; [exact Hbody|split; reflexivity]]]]; simpl.
  - congruence.
  - rewrite Hht, Hgt. apply lookup_insert_eq.
  - etransitivity; [exact Hgs|]. etransitivity; [exact Hstd|].
    apply prefix_app_r. reflexivity.
Qed.

(** X10.  A call of [convert_with_libreoffice] that returns has found the
    binary, has run it on the input with the fresh temporary directory as
    [--outdir], and the process has ended with exit code 0.  The pages
    rendered are those of a PDF that the process wrote there: the one under
    the expected name when there is one, otherwise the first entry whose name
    ends in [.pdf].  The count returned is the number of its pages, every
    page has its file, the other entries of the output directory are those
    of before, and the temporary directory is gone. *)
Theorem libreoffice_renders_the_produced_pdf E i o width height w n w' :
  convert_with_libreoffice E i o width height w = (Ok n, w') ->
  exists soffice out err written name doc,
    find_libreoffice E = Some soffice /\
    subprocess_run E (soffice_cmd soffice (mkdtemp w) i) = Completed 0 out err written /\
    ((is_Some (assoc (PyStr.stem i +:+ ".pdf") written) /\ name = PyStr.stem i +:+ ".pdf") \/
     (assoc (PyStr.stem i +:+ ".pdf") written = None /\
      first_match (PyStr.endswith ".pdf") (map fst written) name)) /\
    assoc name written = Some (PdfFile doc) /\
    n = Z.of_nat (length doc) /\
    (forall k, 1 <= k <= n ->
       exists img, out_dir w' !! slide_filename k = Some (JpegFile img 92 true)) /\
    (forall name', (forall k, 1 <= k <= n -> name' <> slide_filename k) ->
       out_dir w' !! name' = out_dir w !! name') /\
    stdout w `prefix_of` stdout w' /\
    tmp_dirs w' = tmp_dirs w.
Proof.
  intros H. pose proof H as Hrel. apply convert_with_libreoffice_releases in Hrel.
  apply convert_with_libreoffice_inv in H
    as (soffice & out & err & written & name & w1 & w2
        & Hf & Hsub & Hsel & Ho1 & Ht1 & Hs1 & Hconv & Ho2 & Hs2).
  pose proof Hconv as Hgrow.
  apply (respects_convert_pdf_to_images E stdout_grows (fun _ => True)) in Hgrow; [|auto].
  pose proof Hconv as Hframe.
  apply convert_pdf_to_images_inv in Hconv as (doc & _ & Hdoc & Hloop).
  simpl in Hdoc. rewrite Ht1 in Hdoc. simpl in Hdoc.
  apply render_pages_Ok in Hloop as (Hn & _ & Hfiles & _); [|lia]. simpl in Hn.
  exists soffice, out, err, written, name, doc.
  split; [exact Hf|]. split; [exact Hsub|]. split; [exact Hsel|]. split; [exact Hdoc|].
  split; [exact Hn|]. split; [|split; [|split]].
  - intros k Hk. rewrite Ho2.
    destruct (lookup_lt_is_Some_2 doc (Z.to_nat (k - 1))) as [p Hp]; [lia|].
    destruct (Hfiles _ _ Hp) as (zoom & pix & img & _ & _ & _ & Hl).
    replace (0 + Z.of_nat (Z.to_nat (k - 1)) + 1) with k in Hl by lia. eauto.
  - intros name' Hname. rewrite Ho2, <- Ho1.
    eapply convert_pdf_to_images_frame; eassumption.
  - rewrite Hs2. etransitivity; [exact Hs1 | exact Hgrow].
  - symmetry. exact Hrel.
Qed.

Lemma libreoffice_renders_the_produced_pdf_witness :
  exists doc,
    assoc "deck.pdf" [("deck.pdf"%string, PdfFile [Page 800 600 0; Page 720 405 1])]
      = Some (PdfFile doc) /\
    2 = Z.of_nat (length doc).
Proof.
  destruct (libreoffice_renders_the_produced_pdf demo_env "/decks/deck.pptx" "cache"
              1920 1080 demo_world 2
              (convert_with_libreoffice demo_env "/decks/deck.pptx" "cache" 1920 1080
                 demo_world).2)
    as (soffice & out & err & written & name & doc & _ & Hsub & Hsel & Hdoc & Hn & _).
  - apply injective_projections; [vm_compute; reflexivity | reflexivity].
  - injection Hsub as _ _ <-.
    destruct Hsel as [[_ ->]|[Hnone _]]; [|vm_compute in Hnone; discriminate].
    exists doc. split; [exact Hdoc | exact Hn].
Defined.

(** ** Failures before the first page *)

Section NoPartialOutput.

Variables (E : env) (input_path output_dir : string) (width height : Z) (w : world).

Lemma not_found_writes_nothing :
  find_libreoffice E = None ->
  exists e,
    (convert_with_libreoffice E input_path output_dir width height w).1 = Raise e /\
    out_dir (convert_with_libreoffice E input_path output_dir width height w).2 = out_dir w.
Proof.
  intros Hf. rewrite libreoffice_not_found by assumption.
  eexists. split; reflexivity.
Qed.

Lemma timed_out_writes_nothing p written :
  find_libreoffice E = Some p ->
  subprocess_run E (soffice_cmd p (mkdtemp w) input_path) = TimedOut written ->
  exists e,
    (convert_with_libreoffice E input_path output_dir width height w).1 = Raise e /\
    out_dir (convert_with_libreoffice E input_path output_dir width height w).2 = out_dir w.
Proof.
  intros Hf Hrun. unfold convert_with_libreoffice.
  rewrite (truthy_Some E p Hf), Hf. simpl.
  unfold with_TemporaryDirectory, bind, try_except, run_converter, print. simpl.
  rewrite Hrun. simpl. eexists. split; reflexivity.
Qed.

Lemma spawn_failure_writes_nothing p e :
  find_libreoffice E = Some p ->
  subprocess_run E (soffice_cmd p (mkdtemp w) input_path) = SpawnFailed e ->
  exists e',
    (convert_with_libreoffice E input_path output_dir width height w).1 = Raise e' /\
    out_dir (convert_with_libreoffice E input_path output_dir width height w).2 = out_dir w.
Proof.
  intros Hf Hrun. unfold convert_with_libreoffice.
  rewrite (truthy_Some E p Hf), Hf. simpl.
  unfold with_TemporaryDirectory, bind, try_except, run_converter, print. simpl.
  rewrite Hrun. simpl.
  destruct (String.eqb (exn_class e) "TimeoutExpired"); simpl; eexists; split; reflexivity.
Qed.

Lemma exit_code_writes_nothing p rc out err written :
  find_libreoffice E = Some p ->
  subprocess_run E (soffice_cmd p (mkdtemp w) input_path) = Completed rc out err written ->
  rc <> 0 ->
  exists e,
    (convert_with_libreoffice E input_path output_dir width height w).1 = Raise e /\
    out_dir (convert_with_libreoffice E input_path output_dir width height w).2 = out_dir w.
Proof.
  intros Hf Hrun Hrc. unfold convert_with_libreoffice.
  rewrite (truthy_Some E p Hf), Hf. simpl.
  unfold with_TemporaryDirectory, bind, try_except, run_converter, print. simpl.
  rewrite Hrun. simpl.
  apply Z.eqb_neq in Hrc. rewrite Hrc. simpl.
  destruct (negb (String.eqb err "")); simpl; eexists; split; reflexivity.
Qed.

Lemma no_pdf_writes_nothing p out err written :
  find_libreoffice E = Some p ->
  subprocess_run E (soffice_cmd p (mkdtemp w) input_path) = Completed 0 out err written ->
  assoc (PyStr.stem input_path +:+ ".pdf") written = None ->
  Forall (fun entry => PyStr.endswith ".pdf" entry.1 = false) written ->
  exists e,
    (convert_with_libreoffice E input_path output_dir width height w).1 = Raise e /\
    out_dir (convert_with_libreoffice E input_path output_dir width height w).2 = out_dir w.
Proof.
  intros Hf Hrun Hexp Hglob. unfold convert_with_libreoffice.
  rewrite (truthy_Some E p Hf), Hf. simpl.
  assert (Hfilter : filter (fun n => PyStr.endswith ".pdf" n = true) (map fst written) = []).
  { clear -Hglob. induction written as [|[n f] rest IH]; [reflexivity|].
    inversion Hglob as [|? ? Hn Hrest]; subst. simpl in Hn. simpl.
    rewrite filter_cons_False by congruence. auto. }
  unfold with_TemporaryDirectory, bind, try_except, run_converter, print, locate_pdf,
    tmp_listing, add_entries, bind, print. simpl.
  rewrite Hrun. simpl.
  destruct (negb (String.eqb err "")); simpl;
    rewrite !lookup_insert_eq; simpl; rewrite Hexp; simpl; rewrite Hfilter; simpl;
    eexists; split; reflexivity.
Qed.

Lemma no_pdf_produced_writes_nothing :
  no_pdf_produced E input_path w ->
  exists e,
    (convert_with_libreoffice E input_path output_dir width height w).1 = Raise e /\
    out_dir (convert_with_libreoffice E input_path output_dir width height w).2 = out_dir w.
Proof.
  unfold no_pdf_produced.
  destruct (find_libreoffice E) as [p|] eqn:Hf; [|intros _; apply not_found_writes_nothing, Hf].
  destruct (subprocess_run E _) as [rc out err written|written|e] eqn:Hrun.
  - destruct (Z.eq_dec rc 0) as [->|Hrc].
    + intros [Hrc|[Hexp Hglob]]; [contradiction|]. eapply no_pdf_writes_nothing; eassumption.
    + intros _. eapply exit_code_writes_nothing; eassumption.
  - intros _. eapply timed_out_writes_nothing; eassumption.
  - intros _. eapply spawn_failure_writes_nothing; eassumption.
Qed.

End NoPartialOutput.

(** X11.  When the LibreOffice path is the one that runs and it cannot get
    a PDF, the run ends with status 1 and has written nothing: the output
    directory is what it was before the run, and so are the temporary
    directories. *)
Theorem no_pdf_leaves_output_untouched E args w :
  os_path_exists E (arg_input args) = true ->
  (choose_method E (arg_method args) w).1 = Ok libreoffice ->
  no_pdf_produced E (arg_input args) w ->
  (main E args w).1 = 1 /\
  out_dir (main E args w).2 = out_dir w /\
  tmp_dirs (main E args w).2 = tmp_dirs w.
Proof.
  intros Hin Hm Hno.
  split; [|split; [|apply main_releases]].
  all: destruct (choose_method E (arg_method args) w) as [r w0] eqn:Hchoose;
    simpl in Hm; subst r;
    pose proof (choose_method_libreoffice _ _ _ _ Hchoose) as ->;
    rewrite (main_unfold _ _ _ _ _ Hin Hchoose);
    destruct (no_pdf_produced_writes_nothing E (arg_input args) (arg_output args)
                (arg_width args) (arg_height args) (after_header args libreoffice w) Hno)
      as (e & Hraise & Hout);
    destruct (convert_with_libreoffice E (arg_input args) (arg_output args)
                (arg_width args) (arg_height args) (after_header args libreoffice w))
      as [r w2] eqn:Hconv; simpl in Hraise, Hout; subst r;
    rewrite (run_conversion_raises _ _ _ _ _ Hconv); simpl.
  - reflexivity.
  - exact Hout.
Qed.

Lemma no_pdf_leaves_output_untouched_witness :
  (main timeout_env (demo_args libreoffice) demo_rendered).1 = 1 /\
  out_dir (main timeout_env (demo_args libreoffice) demo_rendered).2 = out_dir demo_rendered.
Proof.
  destruct (no_pdf_leaves_output_untouched timeout_env (demo_args libreoffice) demo_rendered)
    as (Hstatus & Hout & _).
  - reflexivity.
  - reflexivity.
  - vm_compute. exact I.
  - split; [exact Hstatus | exact Hout].
Defined.

(** ** What the thumbnail generator leaves *)

Lemma make_thumbnail_Ok E tw f w w' :
  make_thumbnail E tw f w = (Ok tt, w') ->
  exists thumb,
    w' = World (<[thumb_filename f := JpegFile thumb 85 false]> (out_dir w))
               (tmp_dirs w) (stdout w).
Proof.
  rewrite make_thumbnail_unfold.
  destruct (thumb_for E tw f (out_dir w !! f)) as [thumb|e]; [|discriminate].
  intros H. apply save_jpeg_Ok in H. eauto.
Qed.

(** A thumbnail that is there stays one, whatever the loop writes later. *)
Lemma thumbnails_loop_keeps E tw key names :
  forall wa wa',
    for_each names (make_thumbnail E tw) wa = (Ok tt, wa') ->
    (exists thumb, out_dir wa !! key = Some (JpegFile thumb 85 false)) ->
    exists thumb, out_dir wa' !! key = Some (JpegFile thumb 85 false).
Proof.
  induction names as [|f rest IH]; intros wa wa' H Hkey.
  - simpl in H. injection H as <-. exact Hkey.
  - simpl in H. apply bind_Ok_inv in H as ([] & wa1 & Hstep & H).
    apply make_thumbnail_Ok in Hstep as (thumb & ->).
    apply (IH _ _ H). simpl.
    destruct (decide (thumb_filename f = key)) as [<-|Hne].
    + rewrite lookup_insert_eq. eauto.
    + rewrite lookup_insert_ne by exact Hne. exact Hkey.
Qed.

Lemma thumbnails_loop_post E tw names :
  forall wa wa',
    for_each names (make_thumbnail E tw) wa = (Ok tt, wa') ->
    forall f, In f names ->
      exists thumb, out_dir wa' !! thumb_filename f = Some (JpegFile thumb 85 false).
Proof.
  induction names as [|g rest IH]; intros wa wa' H f Hf; [contradiction|].
  simpl in H. apply bind_Ok_inv in H as ([] & wa1 & Hstep & H).
  destruct Hf as [->|Hf]; [|eapply IH; eassumption].
  apply make_thumbnail_Ok in Hstep as (thumb & ->).
  apply (thumbnails_loop_keeps _ _ _ _ _ _ H). simpl.
  rewrite lookup_insert_eq. eauto.
Qed.

Lemma thumbnails_loop_frame E tw name names wa wa' :
  for_each names (make_thumbnail E tw) wa = (Ok tt, wa') ->
  (forall f, In f names -> name <> thumb_filename f) ->
  out_dir wa' !! name = out_dir wa !! name.
Proof.
  intros H Hname.
  cut (respects (same_entry name) (for_each names (make_thumbnail E tw))).
  { intros Hr. exact (Hr _ _ _ H). }
  eapply respects_for_each; [apply _|].
  intros f Hf. eapply respects_make_thumbnail; [apply _|].
  intros Heq. apply (Hname f Hf). symmetry. exact Heq.
Qed.

Lemma generate_thumbnails_inv E o tw w w' :
  generate_thumbnails E o tw w = (Ok tt, w') ->
  for_each (full_size_slides (out_dir w)) (make_thumbnail E tw)
    (World (out_dir w) (tmp_dirs w) (stdout w ++ ["Generating thumbnails..."%string]))
    = (Ok tt, w').
Proof.
  unfold generate_thumbnails. intros H.
  apply bind_Ok_inv in H as ([] & wp & Hp & H). injection Hp as <-. exact H.
Qed.

Lemma full_size_slides_full (d : gmap string file) :
  Forall (fun f => is_full_size f = true) (full_size_slides d).
Proof.
  apply Forall_forall. intros f Hf. apply elem_of_full_size_slides in Hf. tauto.
Qed.

Lemma generate_thumbnails_post E o tw w w' :
  generate_thumbnails E o tw w = (Ok tt, w') ->
  stdout w' = stdout w ++ ["Generating thumbnails..."%string] /\
  tmp_dirs w' = tmp_dirs w /\
  (forall f, is_full_size f = true -> out_dir w' !! f = out_dir w !! f) /\
  (forall f, is_full_size f = true -> is_Some (out_dir w !! f) ->
     exists thumb, out_dir w' !! thumb_filename f = Some (JpegFile thumb 85 false)) /\
  (forall name,
     (forall f, is_full_size f = true -> is_Some (out_dir w !! f) ->
                name <> thumb_filename f) ->
     out_dir w' !! name = out_dir w !! name).
Proof.
  intros H. apply generate_thumbnails_inv in H.
  pose proof (thumbnails_loop E tw _ (full_size_slides_full (out_dir w)) _ _ H)
    as (W & Hw' & HW & _).
  split; [rewrite Hw'; reflexivity|]. split; [rewrite Hw'; reflexivity|].
  split; [|split].
  - intros f Hf. rewrite Hw'. simpl. apply lookup_union_r, HW, Hf.
  - intros f Hf Hsome. eapply thumbnails_loop_post; [exact H|].
    apply list_elem_of_In, elem_of_full_size_slides. auto.
  - intros name Hname. rewrite (thumbnails_loop_frame _ _ _ _ _ _ H); [reflexivity|].
    intros f Hf. apply list_elem_of_In, elem_of_full_size_slides in Hf as [Hfull Hsome].
    auto.
Qed.

(** X12.  When the thumbnail generator returns, every full-size file of the
    output directory is what it was and has a thumbnail, a JPEG saved at
    quality 85 under the name of the file with [_thumb] before the
    extension; the thumbnail of the file of page [n] is the file
    [slide_NNN_thumb.jpg] of the same number.  No other entry has changed,
    one line has been printed, and the temporary directories are those of
    before. *)
Theorem every_slide_gets_its_thumbnail E output_dir thumb_width w w' :
  generate_thumbnails E output_dir thumb_width w = (Ok tt, w') ->
  stdout w' = stdout w ++ ["Generating thumbnails..."%string] /\
  tmp_dirs w' = tmp_dirs w /\
  (forall f, is_full_size f = true -> out_dir w' !! f = out_dir w !! f) /\
  (forall f, is_full_size f = true -> is_Some (out_dir w !! f) ->
     exists thumb, out_dir w' !! thumb_filename f = Some (JpegFile thumb 85 false)) /\
  (forall n, is_Some (out_dir w !! slide_filename n) ->
     out_dir w' !! slide_filename n = out_dir w !! slide_filename n /\
     exists thumb,
       out_dir w' !! slide_thumb_filename n = Some (JpegFile thumb 85 false)) /\
  (forall name,
     (forall f, is_full_size f = true -> is_Some (out_dir w !! f) ->
                name <> thumb_filename f) ->
     out_dir w' !! name = out_dir w !! name).
Proof.
  intros H. apply generate_thumbnails_post in H as (Hout & Htmp & Hfull & Hmade & Hframe).
  split; [exact Hout|]. split; [exact Htmp|]. split; [exact Hfull|].
  split; [exact Hmade|]. split; [|exact Hframe].
  intros n Hn. pose proof (is_full_size_slide n) as Hsel.
  split; [apply Hfull, Hsel|].
  rewrite <- thumb_filename_slide. apply Hmade; assumption.
Qed.

Lemma every_slide_gets_its_thumbnail_witness :
  exists thumb,
    out_dir (generate_thumbnails demo_env "cache" 300 demo_rendered).2
      !! "slide_001_thumb.jpg"%string = Some (JpegFile thumb 85 false).
Proof.
  destruct (every_slide_gets_its_thumbnail demo_env "cache" 300 demo_rendered
              (generate_thumbnails demo_env "cache" 300 demo_rendered).2)
    as (_ & _ & _ & _ & Hpage & _).
  - apply injective_projections; [vm_compute; reflexivity | reflexivity].
  - apply (Hpage 1). eexists. reflexivity.
Defined.

(** ** A run that ends with status 0 *)

Lemma extract_text_from_pptx_inv E i w recs w' :
  extract_text_from_pptx E i w = (Ok recs, w') ->
  out_dir w' = out_dir w /\ tmp_dirs w' = tmp_dirs w /\
  ((PPTX_AVAILABLE E = false /\ recs = [] /\
    stdout w' = stdout w
                  ++ ["WARNING: python-pptx not available, skipping text extraction"%string]) \/
   (PPTX_AVAILABLE E = true /\
    stdout w' = stdout w ++ ["Extracting slide text..."%string] /\
    exists prs_slides,
      Presentation E i = Ok prs_slides /\ recs = map slide_record prs_slides)).
Proof.
  unfold extract_text_from_pptx. destruct (PPTX_AVAILABLE E); simpl; intros H.
  - apply bind_Ok_inv in H as ([] & w1 & Hp & H). injection Hp as <-.
    apply bind_Ok_inv in H as (prs & w2 & Hprs & H). apply lift_inv in Hprs as [Hprs ->].
    injection H as <- <-. simpl.
    split; [reflexivity|]. split; [reflexivity|]. right. eauto.
  - apply bind_Ok_inv in H as ([] & w1 & Hp & H). injection Hp as <-.
    injection H as <- <-. simpl.
    split; [reflexivity|]. split; [reflexivity|]. left. auto.
Qed.

Lemma conversion_step_files E args m w n w' :
  conversion_step E args m w = (Ok n, w') ->
  0 <= n /\
  (0 < n -> PIL_AVAILABLE E = true) /\
  (forall k, 1 <= k <= n ->
     exists img q o,
       out_dir w' !! slide_filename k = Some (JpegFile img q o) /\
       Image.width img = arg_width args /\ Image.height img = arg_height args) /\
  (forall name, (forall k, 1 <= k <= n -> name <> slide_filename k) ->
     out_dir w' !! name = out_dir w !! name).
Proof.
  unfold conversion_step. destruct (method_eqb m libreoffice); intros H.
  - apply convert_with_libreoffice_inv in H
      as (soffice & out & err & written & name & w1 & w2
          & _ & _ & _ & Ho1 & _ & _ & Hconv & Ho2 & _).
    pose proof Hconv as Hframe.
    apply convert_pdf_to_images_inv in Hconv as (doc & _ & _ & Hloop).
    pose proof Hloop as Hok.
    apply render_pages_Ok in Hok as (Hn & _ & Hfiles & _); [|lia]. simpl in Hn.
    split; [lia|]. split; [|split].
    + intros Hpos. destruct doc as [|p rest]; [simpl in Hn; lia|].
      eapply render_pages_PIL, Hloop.
    + intros k Hk. rewrite Ho2.
      destruct (lookup_lt_is_Some_2 doc (Z.to_nat (k - 1))) as [p Hp]; [lia|].
      destruct (Hfiles _ _ Hp) as (zoom & pix & img & _ & _ & Hc & Hl).
      replace (0 + Z.of_nat (Z.to_nat (k - 1)) + 1) with k in Hl by lia.
      apply center_on_canvas_size in Hc as [Hw Hh]. eauto 6.
    + intros name' Hname. rewrite Ho2, <- Ho1.
      eapply convert_pdf_to_images_frame; eassumption.
  - pose proof H as Hframe.
    apply convert_with_pptx_direct_inv in H as (prs & _ & _ & Hn & Hloop).
    pose proof Hloop as Hok.
    apply placeholder_pages_Ok in Hok as (_ & Hfiles & _); [|lia].
    split; [lia|]. split; [|split].
    + intros Hpos. destruct prs as [|s rest]; [simpl in Hn; lia|].
      eapply placeholder_pages_PIL, Hloop.
    + intros k Hk. destruct (Hfiles (Z.to_nat (k - 1))) as (img & Hnew & Hl); [lia|].
      replace (0 + Z.of_nat (Z.to_nat (k - 1)) + 1) with k in Hl by lia.
      apply Image_new_Ok in Hnew as (Hw & Hh & _). eauto 6.
    + intros name' Hname. eapply convert_with_pptx_direct_frame; eassumption.
Qed.

Lemma thumbnails_step_full_size E args w w' f :
  thumbnails_step E args w = (Ok tt, w') ->
  is_full_size f = true -> out_dir w' !! f = out_dir w !! f.
Proof.
  unfold thumbnails_step. destruct (PIL_AVAILABLE E).
  - intros H Hf. apply generate_thumbnails_post in H as (_ & _ & Hfull & _). auto.
  - intros [= <-] _. reflexivity.
Qed.

Lemma metadata_not_full_size : is_full_size "metadata.json" = false.
Proof. reflexivity. Qed.

(** X13.  A run that ends with status 0 leaves a complete output
    directory.  The metadata file is there, with the base name of the input
    and a page count [n]; every page from 1 to [n] has its full-size file,
    an image of the size asked for, and its thumbnail, a JPEG of quality 85
    named by the same page number.  The files of pages beyond [n], which an
    earlier run may have left, are not removed. *)
Theorem successful_run_is_complete E args w :
  (main E args w).1 = 0 ->
  exists meta,
    out_dir (main E args w).2 !! "metadata.json"%string = Some (JsonFile meta) /\
    sourceFile meta = PyStr.basename (arg_input args) /\
    generatedAt meta = now_isoformat E /\
    0 <= slideCount meta /\
    (forall k, 1 <= k <= slideCount meta ->
       (exists img q o,
          out_dir (main E args w).2 !! slide_filename k = Some (JpegFile img q o) /\
          Image.width img = arg_width args /\ Image.height img = arg_height args) /\
       (exists thumb,
          out_dir (main E args w).2 !! slide_thumb_filename k
            = Some (JpegFile thumb 85 false))) /\
    (forall k, slideCount meta < k ->
       out_dir (main E args w).2 !! slide_filename k = out_dir w !! slide_filename k).
Proof.
  destruct (os_path_exists E (arg_input args)) eqn:Hin;
    [|rewrite (main_missing_input E args w Hin); discriminate].
  destruct (main_runs E args w Hin) as (m & w0 & Hm & _ & ->).
  assert (Hw0 : out_dir (after_header args m w0) = out_dir w).
  { simpl. apply map_eq. intros name.
    apply (respects_choose_method E (same_entry name) (fun n => n <> name)
             _ _ _ _ Hm). }
  destruct (run_conversion E args m (after_header args m w0)) as [[[]|e] w5] eqn:Hrun;
    [|discriminate].
  intros _. simpl.
  apply run_conversion_Ok_inv in Hrun
    as (n & w2 & w3 & recs & w4 & Hconv & Hthumb & Hrecs & ->). simpl.
  apply conversion_step_files in Hconv as (Hn & Hpil & Hfiles & Hframe).
  apply extract_text_from_pptx_inv in Hrecs as (Ho4 & _ & _).
  eexists. split; [apply lookup_insert_eq|]. simpl.
  split; [reflexivity|]. split; [reflexivity|]. split; [exact Hn|]. split.
  - intros k Hk. split.
    + rewrite lookup_insert_ne
        by (intros Heq; pose proof (startswith_slide_filename k) as Hs;
            rewrite <- Heq in Hs; discriminate).
      rewrite Ho4, (thumbnails_step_full_size _ _ _ _ _ Hthumb (is_full_size_slide k)).
      simpl. apply Hfiles, Hk.
    + rewrite lookup_insert_ne
        by (intros Heq; pose proof (contains_thumb_slide_thumb k) as Hs;
            rewrite <- Heq in Hs; discriminate).
      rewrite Ho4. unfold thumbnails_step in Hthumb.
      rewrite Hpil in Hthumb by lia.
      apply generate_thumbnails_post in Hthumb as (_ & _ & _ & Hmade & _).
      rewrite <- thumb_filename_slide.
      apply Hmade; [apply is_full_size_slide|]. simpl.
      destruct (Hfiles k Hk) as (img & q & o & Hl & _). eauto.
  - intros k Hk.
    rewrite lookup_insert_ne
      by (intros Heq; pose proof (startswith_slide_filename k) as Hs;
          rewrite <- Heq in Hs; discriminate).
    rewrite Ho4, (thumbnails_step_full_size _ _ _ _ _ Hthumb (is_full_size_slide k)).
    simpl. rewrite Hframe, Hw0; [reflexivity|].
    intros j Hj Heq. apply slide_filename_inj in Heq; lia.
Qed.

Lemma successful_run_is_complete_witness :
  exists meta,
    out_dir (main demo_env (demo_args auto) demo_world).2 !! "metadata.json"%string
      = Some (JsonFile meta) /\
    (exists thumb,
       out_dir (main demo_env (demo_args auto) demo_world).2
         !! slide_thumb_filename (slideCount meta) = Some (JpegFile thumb 85 false)).
Proof.
  destruct (successful_run_is_complete demo_env (demo_args auto) demo_world)
    as (meta & Hmeta & _ & _ & _ & Hpages & _).
  - vm_compute. reflexivity.
  - exists meta. split; [exact Hmeta|].
    assert (Hcount : slideCount meta = 2).
    { assert (Hrun : out_dir (main demo_env (demo_args auto) demo_world).2
                       !! "metadata.json"%string
                     = Some (JsonFile (Metadata "deck.pptx" 2 "2024-01-01T00:00:00"
                                         (map slide_record demo_deck))))
        by (vm_compute; reflexivity).
      rewrite Hrun in Hmeta. injection Hmeta as <-. reflexivity. }
    apply Hpages. lia.
Defined.

(** ** The text of the slides *)











(** ** The metadata that a run writes *)

Lemma append_nil_r (s : string) : s +:+ EmptyString = s.
Proof. induction s as [|c s IH]; [reflexivity|]. rewrite append_cons, IH. reflexivity. Qed.

Lemma append_snoc (p : string) c (s : string) :
  p +:+ String c s = (p +:+ String c EmptyString) +:+ s.
Proof.
  induction p as [|c' p IH]; [reflexivity|]. rewrite !append_cons, IH. reflexivity.
Qed.

Lemma append_assoc (a b c : string) : (a +:+ b) +:+ c = a +:+ (b +:+ c).
Proof.
  induction a as [|x a IH]; [reflexivity|]. rewrite !append_cons, IH. reflexivity.
Qed.

Lemma endswith_cons suf c (s : string) :
  PyStr.endswith suf s = true -> PyStr.endswith suf (String c s) = true.
Proof. intros H. simpl. rewrite H. apply orb_true_r. Qed.

Lemma endswith_append_l suf (p s : string) :
  PyStr.endswith suf s = true -> PyStr.endswith suf (p +:+ s) = true.
Proof.
  intros H. induction p as [|c p IH]; [exact H|].
  rewrite append_cons. apply endswith_cons, IH.
Qed.

(** The walk of [basename]: what has been read since the last slash has no
    slash, and what came before it is empty or ends with a slash. *)
Lemma basename_from_spec (s : string) :
  forall dir seen,
    dir = EmptyString \/ PyStr.endswith "/" dir = true ->
    without "/" seen = true ->
    exists dir',
      (dir' = EmptyString \/ PyStr.endswith "/" dir' = true) /\
      dir +:+ (seen +:+ s) = dir' +:+ PyStr.basename_from (seen +:+ s) s /\
      without "/" (PyStr.basename_from (seen +:+ s) s) = true.
Proof.
  induction s as [|c s IH]; intros dir seen Hdir Hseen.
  - exists dir. simpl. rewrite append_nil_r. auto.
  - simpl. destruct (Ascii.eqb c "/") eqn:Hc.
    + apply Ascii.eqb_eq in Hc. subst c.
      destruct (IH (dir +:+ (seen +:+ "/")) EmptyString) as (dir' & Hdir' & Heq & Hw).
      * right. rewrite <- append_assoc. apply endswith_append_l. reflexivity.
      * reflexivity.
      * exists dir'. rewrite !append_nil_l in Heq, Hw.
        split; [exact Hdir'|]. split; [|exact Hw].
        rewrite <- Heq, !append_assoc. reflexivity.
    + rewrite append_snoc. apply IH; [exact Hdir|].
      apply without_app; [exact Hseen|].
      change (negb (Ascii.eqb "/" c) && true = true).
      destruct (Ascii.eqb_spec "/" c) as [<-|]; [discriminate|reflexivity].
Qed.

Lemma basename_spec (p : string) :
  exists dir,
    (dir = EmptyString \/ PyStr.endswith "/" dir = true) /\
    p = dir +:+ PyStr.basename p /\
    without "/" (PyStr.basename p) = true.
Proof.
  destruct (basename_from_spec p EmptyString EmptyString) as (dir & Hdir & Heq & Hw);
    [auto|reflexivity|].
  exists dir. rewrite !append_nil_l in Heq. auto.
Qed.

(** X15.  On a system whose paths are those of POSIX, a run of the script
    that ends with status 0 has opened [metadata.json] in the output
    directory and [json.dump] has written it whole.  The entry names the
    input file by its base name, which has no slash: the input path is a
    directory part, empty or ended by a slash, followed by that name, so
    that the directory of the input is not recorded.  The line that tells
    where the metadata is saved comes just before the last two lines. *)
Theorem written_metadata_names_the_input_file E inv w args :
  platform_system E <> "Windows"%string ->
  parse_args inv = Parsed args ->
  (script E inv w).1 = 0 ->
  exists meta dir before,
    out_dir (script E inv w).2 !! "metadata.json"%string = Some (JsonFile meta) /\
    open_for_writing inv (PyStr.os_path_join (arg_output args) "metadata.json") = None /\
    json_dump inv meta = None /\
    generatedAt meta = now_isoformat E /\
    without "/" (sourceFile meta) = true /\
    arg_input args = dir +:+ sourceFile meta /\
    (dir = EmptyString \/ PyStr.endswith "/" dir = true) /\
    stdout (script E inv w).2
      = before ++ ["Metadata saved to "
                     +:+ PyStr.os_path_join (arg_output args) "metadata.json";
                   "PROGRESS:100"; "Conversion complete!"]%string.
Proof.
  intros _ Hparse Hzero.
  destruct (os_path_exists E (arg_input args)) eqn:Hin;
    [|unfold script in Hzero; rewrite Hparse, Hin in Hzero; discriminate].
  destruct (os_makedirs inv (arg_output args)) as [e|] eqn:Hmk;
    [unfold script in Hzero; rewrite Hparse, Hin, Hmk in Hzero; discriminate|].
  destruct (script_unfold E inv w args Hparse Hin Hmk) as (m & w0 & _ & Hscript).
  rewrite Hscript in Hzero |- *. clear Hscript.
  destruct (try_block E inv args m (after_header args m w0)) as [[[]|e] w2] eqn:Hrun;
    [|discriminate].
  apply try_block_inv in Hrun
    as [(e & He & _)|(n & recs & w1 & _ & [(e & _ & He & _)|[(wr & e & _ & _ & He & _)
                                                            |(Hopen & Hdump & _ & ->)]])];
    try discriminate.
  destruct (basename_spec (arg_input args)) as (dir & Hdir & Heq & Hw).
  eexists. exists dir, (stdout w1). simpl.
  split; [apply lookup_insert_eq|]. split; [exact Hopen|]. split; [exact Hdump|].
  simpl. split; [reflexivity|]. split; [exact Hw|]. split; [exact Heq|].
  split; [exact Hdir|]. rewrite <- !app_assoc. reflexivity.
Qed.

Lemma written_metadata_names_the_input_file_witness :
  exists meta,
    out_dir (script demo_env (demo_invocation auto) demo_converted).2
      !! "metadata.json"%string = Some (JsonFile meta) /\
    sourceFile meta = "deck.pptx"%string.
Proof.
  destruct (written_metadata_names_the_input_file demo_env (demo_invocation auto)
              demo_converted (demo_args auto))
    as (meta & dir & before & Hfile & _ & _ & _ & Hw & Heq & Hdir & _).
  - discriminate.
  - reflexivity.
  - vm_compute. reflexivity.
  - exists meta. split; [exact Hfile|].
    assert (Hrun : out_dir (script demo_env (demo_invocation auto) demo_converted).2
                     !! "metadata.json"%string
                   = Some (JsonFile (Metadata "deck.pptx" 2 "2024-01-01T00:00:00"
                                       (map slide_record demo_deck))))
      by (vm_compute; reflexivity).
    rewrite Hrun in Hfile. injection Hfile as <-. reflexivity.
Defined.

(** ** Decks and sizes that the direct path does not handle *)

Lemma placeholder_page_without_pillow E width height total idx w :
  PIL_AVAILABLE E = false ->
  placeholder_page E width height total idx w
    = (Raise (Exn "NameError" "name 'Image' is not defined"), w).
Proof. intros H. unfold placeholder_page, PIL_Image, bind. rewrite H. reflexivity. Qed.

Lemma placeholder_page_empty_canvas E width height total idx w :
  PIL_AVAILABLE E = true -> width <= 0 \/ height <= 0 ->
  exists msg, placeholder_page E width height total idx w = (Raise (ValueError msg), w).
Proof.
  intros H Hsize. unfold placeholder_page, PIL_Image, bind. rewrite H.
  unfold ret, lift, Image.new.
  destruct ((width <? 0) || (height <? 0)) eqn:Hneg.
  - eexists. reflexivity.
  - apply orb_false_iff in Hneg as [Hwn Hhn].
    apply Z.ltb_ge in Hwn. apply Z.ltb_ge in Hhn.
    assert (Hzero : (width =? 0) || (height =? 0) = true).
    { apply orb_true_iff. destruct Hsize; [left|right]; apply Z.eqb_eq; lia. }
    unfold save_jpeg. simpl. rewrite Hzero. eexists. reflexivity.
Qed.

(** X16.  The direct path on unusual inputs.  An empty deck is not an
    error: nothing is rendered, no division by the number of slides is
    made, and 0 is returned after the two lines of the warning.  With at
    least one slide, the conversion stops at the first slide, after the
    warning and before any file is written, with a [NameError] when Pillow
    could not be imported, and with a [ValueError] when the width or the
    height asked for is zero or negative. *)
Theorem direct_path_edge_cases E input_path output_dir width height w :
  PPTX_AVAILABLE E = true ->
  let warned := World (out_dir w) (tmp_dirs w) (stdout w ++ direct_warnings) in
  (Presentation E input_path = Ok [] ->
   convert_with_pptx_direct E input_path output_dir width height w = (Ok 0, warned)) /\
  (forall s rest,
     Presentation E input_path = Ok (s :: rest) ->
     (PIL_AVAILABLE E = false ->
      convert_with_pptx_direct E input_path output_dir width height w
        = (Raise (Exn "NameError" "name 'Image' is not defined"), warned)) /\
     (PIL_AVAILABLE E = true -> width <= 0 \/ height <= 0 ->
      exists msg,
        convert_with_pptx_direct E input_path output_dir width height w
          = (Raise (ValueError msg), warned))).
Proof.
  intros Hav warned. unfold convert_with_pptx_direct. rewrite Hav. simpl.
  assert (Hw : World (out_dir w) (tmp_dirs w)
                 ((stdout w
                     ++ ["WARNING: Direct PPTX rendering has limited support for complex formatting."%string])
                    ++ ["Consider installing LibreOffice for better results."%string])
               = warned).
  { unfold warned, direct_warnings. rewrite <- app_assoc. reflexivity. }
  split.
  - intros ->. unfold bind, lift, print, ret. simpl. rewrite Hw. reflexivity.
  - intros s rest ->. split.
    + intros Hpil. unfold bind, lift, print. simpl. unfold bind.
      rewrite placeholder_page_without_pillow by exact Hpil. rewrite Hw. reflexivity.
    + intros Hpil Hsize. unfold bind, lift, print. simpl. unfold bind.
      match goal with
      | |- context [placeholder_page E width height ?t ?i ?w0] =>
          destruct (placeholder_page_empty_canvas E width height t i w0 Hpil Hsize)
            as [msg ->]
      end.
      exists msg. rewrite Hw. reflexivity.
Qed.

Lemma direct_path_edge_cases_witness :
  exists msg,
    (convert_with_pptx_direct demo_env "/decks/deck.pptx" "cache" 0 1080 demo_world).1
      = Raise (ValueError msg).
Proof.
  destruct (direct_path_edge_cases demo_env "/decks/deck.pptx" "cache" 0 1080 demo_world
              eq_refl) as [_ Hone].
  destruct (Hone [Shape (Some "  Hello world ") None]
              [[]; [Shape None (Some [["a"; "bcd"]])]]%string eq_refl) as [_ Hsize].
  destruct (Hsize eq_refl) as [msg Hmsg]; [left; lia|].
  exists msg. rewrite Hmsg. reflexivity.
Defined.

(** ** The tick of the last page *)

Lemma positive_finite (x : float) :
  (0 <? x)%float = true -> is_infinity x = false ->
  exists m e, Prim2SF x = S754_finite false m e.
Proof.
  unfold is_infinity. rewrite ltb_spec, FloatAxioms.eqb_spec, abs_spec.
  unfold SFltb, SFeqb. change (Prim2SF 0) with (S754_zero false).
  change (Prim2SF infinity) with (S754_infinity false).
  destruct (Prim2SF x) as [s|s| |s m e]; simpl; try discriminate.
  destruct s; [discriminate|]. eauto.
Qed.

Lemma div_eucl_shiftl (m : positive) :
  Z.div_eucl (Z.shiftl (Z.pos m) 53) (Z.pos m) = (9007199254740992, 0).
Proof.
  rewrite Z.shiftl_mul_pow2 by lia.
  pose proof (Z.div_eucl_eq (Z.pos m * 2 ^ 53) (Z.pos m) ltac:(lia)) as Heq.
  pose proof (Z.mod_pos_bound (Z.pos m * 2 ^ 53) (Z.pos m) ltac:(lia)) as Hb.
  unfold Z.modulo in Hb.
  destruct (Z.div_eucl (Z.pos m * 2 ^ 53) (Z.pos m)) as [q r].
  change (2 ^ 53) with 9007199254740992 in *.
  assert (q = 9007199254740992) by nia. subst q.
  f_equal. lia.
Qed.

(** A finite number that is not zero, divided by itself, is one. *)
Lemma SFdiv_diag s m e :
  SFdiv prec emax (S754_finite s m e) (S754_finite s m e) = Prim2SF 1.
Proof.
  unfold SFdiv, SFdiv_core_binary.
  rewrite !Z.sub_diag.
  change (Z.min (fexp prec emax 0) 0) with (-53).
  change (0 - -53) with 53.
  cbv zeta. cbv iota.
  change IntDef.Z.shiftl with Z.shiftl. change IntDef.Z.div_eucl with Z.div_eucl.
  rewrite div_eucl_shiftl.
  assert (Hloc : new_location (Z.pos m) 0 = loc_Exact).
  { unfold new_location. destruct (IntDef.Z.even (Z.pos m)); reflexivity. }
  rewrite Hloc. destruct s; vm_compute; reflexivity.
Qed.

Lemma div_diag (x : float) :
  (0 <? x)%float = true -> is_infinity x = false -> (x / x)%float = 1%float.
Proof.
  intros Hpos Hfin. destruct (positive_finite x Hpos Hfin) as (m & e & Hx).
  rewrite <- (SF2Prim_Prim2SF (x / x)), <- (SF2Prim_Prim2SF 1).
  f_equal. rewrite div_spec, Hx. apply SFdiv_diag.
Qed.

Lemma float_of_Z_Ok z x : PyNum.float_of_Z z = Ok x -> is_infinity x = false.
Proof.
  unfold PyNum.float_of_Z.
  destruct (is_infinity (SF2Prim (binary_normalize prec emax z 0 false))) eqn:Hinf;
    [discriminate|].
  intros [= <-]. exact Hinf.
Qed.

Lemma progress_of_all total x :
  PyNum.float_of_Z total = Ok x -> (0 <? x)%float = true ->
  progress_of total total = Ok 100.
Proof.
  intros Hx Hpos. unfold progress_of, PyNum.truediv_int_int.
  destruct (total =? 0) eqn:Hz.
  - apply Z.eqb_eq in Hz. subst total. vm_compute in Hx. injection Hx as <-.
    vm_compute in Hpos. discriminate.
  - rewrite Hx. simpl. rewrite (div_diag x Hpos (float_of_Z_Ok _ _ Hx)).
    vm_compute. reflexivity.
Qed.

(** X17.  The tick of the last page is 100: when the number of pages
    converts to a positive float, as every count of at least one page does,
    [int(total / total * 100)] is 100 and the line printed for the last page
    is [PROGRESS:100]. *)
Theorem last_tick_is_100 total x :
  PyNum.float_of_Z total = Ok x -> (0 <? x)%float = true ->
  progress_of total total = Ok 100 /\
  tick_line total total "PROGRESS:100".
Proof.
  intros Hx Hpos. pose proof (progress_of_all total x Hx Hpos) as H.
  split; [exact H|]. exists 100. split; [exact H|reflexivity].
Qed.

Lemma last_tick_is_100_witness : progress_of 7 7 = Ok 100.
Proof.
  apply (last_tick_is_100 7 7%float).
  - vm_compute. reflexivity.
  - vm_compute. reflexivity.
Defined.

(** ** A run without Pillow *)

(** X18.  Pillow is needed as soon as there is a page: without it a
    conversion step that returns has rendered no page and written no file,
    and a run that ends with status 0 records a page count of 0. *)
Theorem without_pillow_no_page_is_rendered E args w :
  PIL_AVAILABLE E = false ->
  (forall m n w',
     conversion_step E args m w = (Ok n, w') -> n = 0 /\ out_dir w' = out_dir w) /\
  ((main E args w).1 = 0 ->
   exists meta,
     out_dir (main E args w).2 !! "metadata.json"%string = Some (JsonFile meta) /\
     slideCount meta = 0 /\
     forall name, name <> "metadata.json"%string ->
                  out_dir (main E args w).2 !! name = out_dir w !! name).
Proof.
  intros Hpil.
  assert (Hstep : forall m n w0 w',
             conversion_step E args m w0 = (Ok n, w') ->
             n = 0 /\ out_dir w' = out_dir w0).
  { intros m n w0 w' H. apply conversion_step_files in H as (Hn & Hneed & _ & Hframe).
    assert (n = 0) as ->.
    { destruct (Z.eq_dec n 0) as [|Hne]; [assumption|].
      rewrite Hneed in Hpil by lia. discriminate. }
    split; [reflexivity|]. apply map_eq. intros name. apply Hframe. intros k Hk. lia. }
  split; [intros m n w'; apply Hstep|].
  destruct (os_path_exists E (arg_input args)) eqn:Hin;
    [|rewrite (main_missing_input E args w Hin); discriminate].
  destruct (main_runs E args w Hin) as (m & w0 & Hm & _ & ->).
  assert (Hw0 : out_dir (after_header args m w0) = out_dir w).
  { simpl. apply map_eq. intros name.
    apply (respects_choose_method E (same_entry name) (fun n => n <> name)
             _ _ _ _ Hm). }
  destruct (run_conversion E args m (after_header args m w0)) as [[[]|e] w5] eqn:Hrun;
    [|discriminate].
  intros _. simpl.
  apply run_conversion_Ok_inv in Hrun
    as (n & w2 & w3 & recs & w4 & Hconv & Hthumb & Hrecs & ->). simpl.
  apply Hstep in Hconv as [-> Ho2].
  apply extract_text_from_pptx_inv in Hrecs as (Ho4 & _ & _).
  unfold thumbnails_step in Hthumb. rewrite Hpil in Hthumb. injection Hthumb as <-.
  eexists. split; [apply lookup_insert_eq|]. split; [reflexivity|].
  intros name Hname. rewrite lookup_insert_ne by congruence.
  rewrite Ho4. simpl. rewrite Ho2, Hw0. reflexivity.
Qed.

Lemma without_pillow_no_page_is_rendered_witness :
  exists meta,
    out_dir (main bare_env (Args "/decks/empty.pptx" "cache" 1920 1080 300 auto)
               demo_rendered).2 !! "metadata.json"%string = Some (JsonFile meta) /\
    slideCount meta = 0.
Proof.
  destruct (without_pillow_no_page_is_rendered bare_env
              (Args "/decks/empty.pptx" "cache" 1920 1080 300 auto) demo_rendered eq_refl)
    as [_ Hrun].
  destruct Hrun as (meta & Hmeta & Hcount & _).
  - vm_compute. reflexivity.
  - exists meta. split; [exact Hmeta | exact Hcount].
Defined.
